(** * The agent orchestration core of agentFramework, embedded in Rocq

    Source files covered:
    - [agentFramework/llm.py]: the message protocol ([ToolCall],
      [ExecutionResult], [ToolResult], [TextMessage], [ToolMessage],
      [ToolMode]), [RetryLater], [LLMParameters] and the backend wrapper
      [LLM.generate] / [LLM._infer];
    - [agentFramework/agent.py]: [Agent.add_tool_hook], [Agent.chat],
      [Agent._invoke], [Agent.structuredAnswer], [Agent._run],
      [Agent._execute_all_tools], [Agent._execute_tool] and
      [Agent._execute_tool_raw]; further on, the name sanitisation of
      [Agent.__init__], the remover of [Agent.add_tool] and
      [Agent.clear_history];
    - [agentFramework/tracker.py]: the token counters of [Tracker];
    - [agentFramework/team.py]: [Team];
    - [agentFramework/conversation.py]: the partner map and the [interact]
      closure of [link_agents].

    Python objects that are mutated in place and can be aliased (the
    history lists) live in an explicit heap; everything that can raise
    returns an outcome; the recursion of [_run], which the source does not
    bound, takes fuel. *)

From Stdlib Require Import ZArith QArith Lqa Lia DecimalString DecimalN DecimalFacts.
From Stdlib Require Import Ascii.
From stdpp Require Import base option list strings gmap pretty.

Local Open Scope string_scope.
Local Open Scope list_scope.

(** ** Insertion-ordered dictionaries with string keys

    A Python [dict] keeps its keys in insertion order, and the order is
    observable here ([', '.join(tool_map.keys())], [list(tool_map.values())]),
    so a dict is an association list without duplicate keys. *)
Module PyDict.

Definition t (V : Type) : Type := list (string * V).

Section Ops.
Context {V : Type}.

Definition empty : t V := [].

(** [d.get(k)] *)
Fixpoint get (d : t V) (k : string) : option V :=
  match d with
  | [] => None
  | (k', v) :: rest => if String.eqb k' k then Some v else get rest k
  end.

(** [k in d] *)
Definition contains (d : t V) (k : string) : bool :=
  match get d k with Some _ => true | None => false end.

(** [d[k] = v]: an existing key keeps its position, a new key goes last. *)
Fixpoint set (d : t V) (k : string) (v : V) : t V :=
  match d with
  | [] => [(k, v)]
  | (k', v') :: rest =>
      if String.eqb k' k then (k', v) :: rest else (k', v') :: set rest k v
  end.

(** [d.keys()], [d.values()], [d.copy()] *)
Definition keys (d : t V) : list string := map fst d.
Definition values (d : t V) : list V := map snd d.
Definition copy (d : t V) : t V := d.
End Ops.

End PyDict.

(** ** Protocol and data model ([llm.py]) *)

#[local] Set Warnings "-register-all".

(** Python values that travel as tool arguments and tool outputs ([Any] in
    the source); floats are not modelled. *)
Inductive Value : Type :=
  | VNone
  | VBool (b : bool)
  | VInt (z : Z)
  | VStr (s : string)
  | VList (items : list Value)
  | VDict (fields : list (string * Value)).

(** Exceptions, by class; [exn_str] is [str(e)]. *)
Inductive Exn : Type :=
  | RuntimeError (msg : string)
  | ValueError (msg : string)
  | IndexError (msg : string)
  | AttributeError (msg : string)
  | ValidationError (msg : string)
  | RetryLater (reason : string) (original : string)
  | OtherException (cls msg : string).

Definition exn_str (e : Exn) : string :=
  match e with
  | RuntimeError m | ValueError m | IndexError m | AttributeError m
  | ValidationError m => m
  | RetryLater reason _ => reason
  | OtherException _ m => m
  end.

Definition is_RetryLater (e : Exn) : bool :=
  match e with RetryLater _ _ => true | _ => false end.

Record ToolCall : Type := mkToolCall {
  tc_id : string;
  tc_name : string;
  tc_args : PyDict.t Value
}.

Record ExecutionResult : Type := mkExecutionResult {
  success : bool;
  output : Value;            (* [None] is [VNone] *)
  error : option string
}.

Record ToolResult : Type := mkToolResult {
  tr_id : string;
  tr_name : string;
  tr_result : ExecutionResult
}.

Inductive MessageRole : Type := MODEL | USER.

Inductive Message : Type :=
  | TextMessage (role : MessageRole) (text : string)
  | ToolMessage (role : MessageRole) (tool_calls : list ToolCall)
                (tool_results : list ToolResult).

(** [m.type == 'text'], [m.type == 'tool'] *)
Definition is_text (m : Message) : bool :=
  match m with TextMessage _ _ => true | ToolMessage _ _ _ => false end.
Definition is_tool (m : Message) : bool := negb (is_text m).

(** [ToolMessage.get]: the result of the first tool result with that name. *)
Fixpoint find_result (results : list ToolResult) (name : string)
  : option ExecutionResult :=
  match results with
  | [] => None
  | r :: rest =>
      if String.eqb (tr_name r) name then Some (tr_result r)
      else find_result rest name
  end.

Definition message_get (m : Message) (name : string) : option ExecutionResult :=
  match m with
  | ToolMessage _ _ results => find_result results name
  | TextMessage _ _ => None
  end.

(** [getMLFlowMessage] builds a telemetry record and raises on a tool message
    that has neither calls nor results; only the raise is modelled. *)
Definition getMLFlowMessage (m : Message) : option Exn :=
  match m with
  | ToolMessage _ [] [] =>
      Some (RuntimeError "ToolMessage must have either tool_calls or tool_results")
  | _ => None
  end.

Fixpoint first_mlflow_failure (ms : list Message) : option Exn :=
  match ms with
  | [] => None
  | m :: rest =>
      match getMLFlowMessage m with
      | Some e => Some e
      | None => first_mlflow_failure rest
      end
  end.

Inductive ToolMode : Type := AUTO | FORCE | NONE.

Record LLMParameters : Type := mkLLMParameters {
  temperature : Q;
  end_tool_mode : bool
}.

(** The defaults of the class: [temperature = 0.5], [end_tool_mode = False]. *)
Definition default_parameters : LLMParameters :=
  {| temperature := 1 # 2; end_tool_mode := false |}.

(** [tool.py]: what the orchestration loop uses of a [Tool]. The callable is
    a function of the keyword arguments that returns or raises. *)
Record Tool : Type := mkTool {
  tool_name : string;
  tool_description : string;
  tool_system_prompt : option string;
  tool_function : PyDict.t Value -> Value + Exn
}.

(** ** Outcomes *)

Inductive Outcome (A : Type) : Type :=
  | Returned (a : A)
  | Raised (e : Exn)
  | OutOfFuel.
Arguments Returned {A} a.
Arguments Raised {A} e.
Arguments OutOfFuel {A}.

(** ** The process: clock, sleeps, random source, telemetry, heap, backend

    - [clock] is the wall clock; [datetime.now()] first lets the time given
      by the oracle [drift] pass (the time spent since the clock was last
      observed, backend calls included), [time.sleep d] adds [d];
    - [rng] gives the successive values of [random.uniform(0, 1)], the
      jitter of the backoff;
    - [last_request_time] is the class attribute [LLM._last_request_time],
      one per process, [None] while [hasattr] is false;
    - [spans] records the attributes [generate] sets on its telemetry span
      (the tools offered and the tool mode of the call);
    - [requests] is the trace of the calls to [_inferModel];
    - [heap] holds the list objects (conversation histories), by reference;
    - [backend] is whatever state the concrete backends keep. *)

Definition loc : Type := nat.

Record LLMSpan : Type := mkLLMSpan {
  span_tools : list string;
  span_tool_mode : ToolMode
}.

Record PhysicalCall : Type := mkPhysicalCall {
  pc_started : Q;                  (* the clock when the call was issued *)
  pc_instance : nat;               (* which backend instance issued it *)
  pc_tool_mode : ToolMode;
  pc_reply : Message + Exn         (* what [_inferModel] returned or raised *)
}.

Section Process.

Variable BState : Type.

Record World : Type := mkWorld {
  clock : Q;
  drift : nat -> Q;
  reads : nat;
  rng : nat -> Q;
  draws : nat;
  last_request_time : option Q;
  slept : list Q;
  spans : list LLMSpan;
  requests : list PhysicalCall;
  heap : gmap loc (list Message);
  backend : BState
}.

(** A computation of the process: it changes the world and returns, raises
    or runs out of fuel. What it did to the world stays done when it
    raises. *)
Definition M (A : Type) : Type := World -> Outcome A * World.

Definition ret {A} (a : A) : M A := fun w => (Returned a, w).
Definition raise {A} (e : Exn) : M A := fun w => (Raised e, w).
Definition out_of_fuel {A} : M A := fun w => (OutOfFuel, w).

Definition bind {A B} (c : M A) (k : A -> M B) : M B :=
  fun w =>
    match c w with
    | (Returned a, w') => k a w'
    | (Raised e, w') => (Raised e, w')
    | (OutOfFuel, w') => (OutOfFuel, w')
    end.

Definition get_world : M World := fun w => (Returned w, w).
Definition modify (f : World -> World) : M unit := fun w => (Returned tt, f w).

End Process.

Arguments mkWorld {BState}.
Arguments clock {BState}.
Arguments drift {BState}.
Arguments reads {BState}.
Arguments rng {BState}.
Arguments draws {BState}.
Arguments last_request_time {BState}.
Arguments slept {BState}.
Arguments spans {BState}.
Arguments requests {BState}.
Arguments heap {BState}.
Arguments backend {BState}.
Arguments ret {BState A}.
Arguments raise {BState A}.
Arguments out_of_fuel {BState A}.
Arguments bind {BState A B}.
Arguments get_world {BState}.
Arguments modify {BState}.

Notation "'let*' x ':=' c 'in' k" := (bind c (fun x => k))
  (at level 10, x name, c at level 100, k at level 200).
Notation "'run' c 'then' k" := (bind c (fun _ => k))
  (at level 10, c at level 100, k at level 200).

(** ** The backend wrapper ([llm.py], class [LLM]) *)

(** [x < y] on the rationals that stand for the source's floats. *)
Definition Qltb (x y : Q) : bool := negb (Qle_bool y x).

Section Backend.

Context {BState : Type}.

(** A backend instance: its identity, its parameters and the abstract method
    [_inferModel] of its class, which answers or raises and may change the
    backend state. *)
Record LLM : Type := mkLLM {
  llm_instance : nat;
  parameters : LLMParameters;
  _inferModel :
    string -> list Message -> list Tool -> ToolMode -> BState ->
    (Message + Exn) * BState
}.

(** *** Updates of the process state *)

Definition observe_clock (w : World BState) : World BState :=
  mkWorld (clock w + drift w (reads w))%Q (drift w) (S (reads w)) (rng w)
    (draws w) (last_request_time w) (slept w) (spans w) (requests w) (heap w)
    (backend w).

Definition sleep_for (d : Q) (w : World BState) : World BState :=
  mkWorld (clock w + d)%Q (drift w) (reads w) (rng w) (draws w)
    (last_request_time w) (slept w ++ [d]) (spans w) (requests w) (heap w)
    (backend w).

Definition draw (w : World BState) : World BState :=
  mkWorld (clock w) (drift w) (reads w) (rng w) (S (draws w))
    (last_request_time w) (slept w) (spans w) (requests w) (heap w)
    (backend w).

Definition note_request_time (t : Q) (w : World BState) : World BState :=
  mkWorld (clock w) (drift w) (reads w) (rng w) (draws w) (Some t) (slept w)
    (spans w) (requests w) (heap w) (backend w).

Definition note_span (sp : LLMSpan) (w : World BState) : World BState :=
  mkWorld (clock w) (drift w) (reads w) (rng w) (draws w)
    (last_request_time w) (slept w) (spans w ++ [sp]) (requests w) (heap w)
    (backend w).

Definition note_request (c : PhysicalCall) (b : BState) (w : World BState)
  : World BState :=
  mkWorld (clock w) (drift w) (reads w) (rng w) (draws w)
    (last_request_time w) (slept w) (spans w) (requests w ++ [c]) (heap w) b.

Definition set_heap (h : gmap loc (list Message)) (w : World BState)
  : World BState :=
  mkWorld (clock w) (drift w) (reads w) (rng w) (draws w)
    (last_request_time w) (slept w) (spans w) (requests w) h (backend w).

(** The items of the list at [l]. *)
Definition items_at (l : loc) (w : World BState) : list Message :=
  default [] (heap w !! l).

Definition append_item (l : loc) (m : Message) (w : World BState)
  : World BState :=
  set_heap (<[l := items_at l w ++ [m]]> (heap w)) w.

(** *** Clock, sleep and random source *)

(** [datetime.now().timestamp()] *)
Definition datetime_now : M BState Q :=
  fun w => let w' := observe_clock w in (Returned (clock w'), w').

(** [time.sleep(d)] *)
Definition time_sleep (d : Q) : M BState unit :=
  fun w =>
    if Qltb d 0 then
      (Raised (ValueError "sleep length must be non-negative"), w)
    else (Returned tt, sleep_for d w).

(** [random.uniform(0, 1)] *)
Definition random_uniform_0_1 : M BState Q :=
  fun w => (Returned (rng w (draws w)), draw w).

(** [LLM._last_request_time = t] *)
Definition set_last_request_time (t : Q) : M BState unit :=
  modify (note_request_time t).

(** Reading [LLM._last_request_time] *)
Definition get_last_request_time : M BState Q :=
  fun w =>
    match last_request_time w with
    | Some t => (Returned t, w)
    | None =>
        (Raised (AttributeError "type object 'LLM' has no attribute '_last_request_time'"), w)
    end.

(** [span.set_attributes({'tools': tools, 'tool_mode': tool_mode})] *)
Definition set_span_attributes (sp : LLMSpan) : M BState unit :=
  modify (note_span sp).

(** The call [self._inferModel(systemprompt, messages, tools, tool_mode)],
    issued at time [started]; the call and its reply go on the trace. *)
Definition call_inferModel (self : LLM) (systemprompt : string)
    (messages : list Message) (tools : list Tool) (tool_mode : ToolMode)
    (started : Q) : M BState (Message + Exn) :=
  fun w =>
    let '(reply, b) :=
      _inferModel self systemprompt messages tools tool_mode (backend w) in
    (Returned reply,
     note_request (mkPhysicalCall started (llm_instance self) tool_mode reply) b w).

Definition max_retries : nat := 5.
Definition base_delay : Z := 5.

(** The [while retries < max_retries] loop of [_infer] and the [raise] after
    it; [remaining] is [max_retries - retries], the loop's variant. *)
Fixpoint infer_attempts (self : LLM) (systemprompt : string)
    (messages : list Message) (tools : list Tool) (tool_mode : ToolMode)
    (remaining retries : nat) : M BState Message :=
  match remaining with
  | O => raise (RuntimeError "Max retries exceeded")
  | S remaining' =>
      let* t := datetime_now in
      run set_last_request_time t then
      let* reply := call_inferModel self systemprompt messages tools tool_mode t in
      match reply with
      | inl result => ret result
      | inr (RetryLater _ _) =>
          let* jitter := random_uniform_0_1 in
          let delay := (inject_Z (base_delay * 2 ^ Z.of_nat retries) + jitter)%Q in
          run time_sleep delay then
          infer_attempts self systemprompt messages tools tool_mode
            remaining' (S retries)
      | inr e => raise e
      end
  end.

(** The first part of [_infer]: the class attribute is initialised when it
    is missing, then the caller waits until one second has passed since the
    last request of the process. *)
Definition rate_limit : M BState unit :=
  let* w0 := get_world in
  run (match last_request_time w0 with
       | Some _ => ret tt
       | None =>
           let* t := datetime_now in
           set_last_request_time (t - 10)%Q
       end) then
  let* current_time := datetime_now in
  let* last := get_last_request_time in
  let time_since_last_request := (current_time - last)%Q in
  if Qltb time_since_last_request 1
  then time_sleep (1 - time_since_last_request)%Q
  else ret tt.

(** [LLM._infer] *)
Definition _infer (self : LLM) (systemprompt : string)
    (messages : list Message) (tools : list Tool) (tool_mode : ToolMode)
  : M BState Message :=
  run rate_limit then
  infer_attempts self systemprompt messages tools tool_mode max_retries 0.

(** [LLM.generate] *)
Definition generate (self : LLM) (systemprompt : string)
    (messages : list Message) (tools : list Tool) (tool_mode : ToolMode)
  : M BState Message :=
  run set_span_attributes (mkLLMSpan (map tool_name tools) tool_mode) then
  match last messages with
  | None => raise (IndexError "list index out of range")
  | Some _ =>
      match first_mlflow_failure messages with
      | Some e => raise e
      | None =>
          let* result := _infer self systemprompt messages tools tool_mode in
          match getMLFlowMessage result with
          | Some e => raise e
          | None => ret result
          end
      end
  end.

(** *** List objects on the heap *)

(** The contents of the list at [l]. *)
Definition list_read (l : loc) : M BState (list Message) :=
  fun w => (Returned (items_at l w), w).

(** [l.append(m)] *)
Definition list_append (l : loc) (m : Message) : M BState unit :=
  modify (append_item l m).

(** [l.copy()]: a new list object with the same items. *)
Definition list_copy (l : loc) : M BState loc :=
  fun w =>
    let l' := fresh (dom (heap w)) in
    (Returned l', set_heap (<[l' := items_at l w]> (heap w)) w).

End Backend.

Arguments LLM BState : clear implicits.

(** ** The agent ([agent.py]) *)

(** An entry of [hook_map[tool_name]]: the tuple [('pre', f)] or
    [('post', g)]. A hook that returns [None] leaves its argument alone. *)
Inductive Hook : Type :=
  | PreHook (pre : ToolCall -> option ToolCall)
  | PostHook (post : ToolCall -> ExecutionResult -> option ExecutionResult).

Section Agent.

Context {BState : Type}.

Record Agent : Type := mkAgent {
  llm : LLM BState;
  name : string;
  system_prompt : string;
  tool_map : PyDict.t Tool;
  max_iterations : Z;
  allow_poking : bool;
  default_tool_mode : ToolMode;
  history : loc;
  hook_map : gmap string (list Hook)
}.

(** [Agent.add_tool] *)
Definition add_tool (self : Agent) (tool : Tool) : Agent :=
  mkAgent (llm self) (name self) (system_prompt self)
    (PyDict.set (tool_map self) (tool_name tool) tool)
    (max_iterations self) (allow_poking self) (default_tool_mode self)
    (history self) (hook_map self).

(** [Agent.add_tool_hook]: the new entries go to the end of the list kept
    for [tool_name], the pre-hook before the post-hook. *)
Definition add_tool_hook (self : Agent) (tool_name : string)
    (pre : option (ToolCall -> option ToolCall))
    (post : option (ToolCall -> ExecutionResult -> option ExecutionResult))
  : Agent :=
  let hooks :=
    match pre with Some f => [PreHook f] | None => [] end ++
    match post with Some g => [PostHook g] | None => [] end in
  mkAgent (llm self) (name self) (system_prompt self) (tool_map self)
    (max_iterations self) (allow_poking self) (default_tool_mode self)
    (history self)
    (<[tool_name := default [] (hook_map self !! tool_name) ++ hooks]>
       (hook_map self)).

(** [Agent._execute_tool_raw] *)
Definition _execute_tool_raw (tool_call : ToolCall) (tool_map : PyDict.t Tool)
  : Value + Exn :=
  match PyDict.get tool_map (tc_name tool_call) with
  | None =>
      inr (ValueError
             ("Tool '" ++ tc_name tool_call ++ "' not found, available tools: "
              ++ String.concat ", " (PyDict.keys tool_map)))
  | Some tool => tool_function tool (tc_args tool_call)
  end.

(** The first loop of [_execute_tool]: [for hook in hooks: if hook[0] == 'pre'] *)
Fixpoint run_pre_hooks (hooks : list Hook) (tool_call : ToolCall) : ToolCall :=
  match hooks with
  | [] => tool_call
  | PreHook f :: rest =>
      match f tool_call with
      | Some potentialy_transformed => run_pre_hooks rest potentialy_transformed
      | None => run_pre_hooks rest tool_call
      end
  | PostHook _ :: rest => run_pre_hooks rest tool_call
  end.

(** The second loop: [for hook in hooks: if hook[0] == 'post'] *)
Fixpoint run_post_hooks (hooks : list Hook) (tool_call : ToolCall)
    (result : ExecutionResult) : ExecutionResult :=
  match hooks with
  | [] => result
  | PostHook g :: rest =>
      match g tool_call result with
      | Some potentialy_transformed =>
          run_post_hooks rest tool_call potentialy_transformed
      | None => run_post_hooks rest tool_call result
      end
  | PreHook _ :: rest => run_post_hooks rest tool_call result
  end.

(** The [try] / [except Exception] around the raw execution. *)
Definition guarded_execution (tool_call : ToolCall) (tool_map : PyDict.t Tool)
  : ExecutionResult :=
  match _execute_tool_raw tool_call tool_map with
  | inl out => mkExecutionResult true out None
  | inr e => mkExecutionResult false VNone (Some (exn_str e))
  end.

(** [Agent._execute_tool] *)
Definition _execute_tool (self : Agent) (tool_call : ToolCall)
    (tool_map : PyDict.t Tool) : ExecutionResult :=
  let hooks := default [] (hook_map self !! tc_name tool_call) in
  let tool_call := run_pre_hooks hooks tool_call in
  let result := guarded_execution tool_call tool_map in
  run_post_hooks hooks tool_call result.

(** [Agent._execute_all_tools] *)
Definition _execute_all_tools (self : Agent) (tool_calls : list ToolCall)
    (tool_map : PyDict.t Tool) : list ToolResult :=
  map (fun tool_call =>
         mkToolResult (tc_id tool_call) (tc_name tool_call)
           (_execute_tool self tool_call tool_map))
      tool_calls.

(** The synthetic escape tool of [_run]. *)
Definition escape_tool : Tool :=
  mkTool "end_tool_mode"
    "Use this tool to indicate that you are done with using tools and don't need it anymore"
    None
    (fun args =>
       match args with
       | [] => inl VNone
       | _ => inr (OtherException "TypeError"
                     "<lambda>() got an unexpected keyword argument")
       end).

(** [any([tc.name == 'end_tool_mode' for tc in response.tool_calls])] for a
    [ToolMessage], false for a [TextMessage]. *)
Definition carries_escape (response : Message) : bool :=
  match response with
  | ToolMessage _ calls _ =>
      existsb (fun tc => String.eqb (tc_name tc) "end_tool_mode") calls
  | TextMessage _ _ => false
  end.

(** The tool map and the next tool mode that [_run] prepares before it calls
    the backend. *)
Definition prepare_tools (self : Agent) (tool_mode : ToolMode)
    (tool_map : PyDict.t Tool) : PyDict.t Tool * ToolMode :=
  match tool_mode with
  | FORCE =>
      if end_tool_mode (parameters (llm self)) then
        (PyDict.set (PyDict.copy tool_map) "end_tool_mode" escape_tool, tool_mode)
      else (tool_map, AUTO)
  | _ => (tool_map, tool_mode)
  end.

(** [Agent._run]. The source recurses without a bound of its own (the escape
    branch keeps [iterations]), so the recursion takes fuel. *)
Fixpoint _run (fuel : nat) (self : Agent) (iterations : Z) (messages : loc)
    (tool_mode : ToolMode) (tool_map : PyDict.t Tool)
    (stop_criteria : Message -> bool) : M BState loc :=
  match fuel with
  | O => out_of_fuel
  | S fuel' =>
      if (iterations <=? 0)%Z then
        raise (RuntimeError "Agent reached max iterations while processing user input")
      else
        let systemprompt := system_prompt self in
        let original_tool_map := tool_map in
        let '(tool_map, next_tool_mode) := prepare_tools self tool_mode tool_map in
        let* items := list_read messages in
        let* response :=
          generate (llm self) systemprompt items (PyDict.values tool_map) tool_mode in
        if carries_escape response then
          _run fuel' self iterations messages AUTO original_tool_map stop_criteria
        else
          run list_append messages response then
          if stop_criteria response then ret messages
          else
            let* response :=
              match response with
              | ToolMessage _ calls _ =>
                  let tool_responses := _execute_all_tools self calls tool_map in
                  let response := ToolMessage USER [] tool_responses in
                  run list_append messages response then
                  ret response
              | TextMessage _ _ => ret response
              end in
            if stop_criteria response then ret messages
            else
              _run fuel' self (iterations - 1) messages next_tool_mode
                original_tool_map stop_criteria
  end.

(** [self.history = l] *)
Definition set_history (self : Agent) (l : loc) : Agent :=
  mkAgent (llm self) (name self) (system_prompt self) (tool_map self)
    (max_iterations self) (allow_poking self) (default_tool_mode self)
    l (hook_map self).

(** [Agent._track_mlflow]: converting the history for the span can raise. *)
Definition _track_mlflow (self : Agent) : M BState unit :=
  let* items := list_read (history self) in
  match first_mlflow_failure items with
  | Some e => raise e
  | None => ret tt
  end.

(** [Agent._invoke]; it returns the agent after the assignment to
    [self.history] together with the response. *)
Definition _invoke (fuel : nat) (self : Agent) (message : Message)
    (tool_mode : ToolMode) : M BState (Agent * Message) :=
  run list_append (history self) message then
  run _track_mlflow self then
  let* l :=
    _run fuel self (max_iterations self) (history self) tool_mode
      (tool_map self) is_text in
  let self := set_history self l in
  let* items := list_read (history self) in
  match last items with
  | None => raise (IndexError "list index out of range")
  | Some response =>
      run _track_mlflow self then
      match response with
      | TextMessage _ _ => ret (self, response)
      | ToolMessage _ _ _ =>
          raise (AttributeError "'ToolMessage' object has no attribute 'text'")
      end
  end.

(** [Agent.chat] *)
Definition chat (fuel : nat) (self : Agent) (user_input : string)
    (tool_mode : option ToolMode) : M BState (Agent * string) :=
  let tool_mode := default (default_tool_mode self) tool_mode in
  let message := TextMessage USER user_input in
  let* invoked := _invoke fuel self message tool_mode in
  let '(self, response) := invoked in
  match response with
  | TextMessage _ text => ret (self, text)
  | ToolMessage _ _ _ =>
      raise (AttributeError "'ToolMessage' object has no attribute 'text'")
  end.

(** The stop criterion of [structuredAnswer]. *)
Definition set_output_given (last_message : Message) : bool :=
  is_tool last_message &&
  match message_get last_message "set_output" with
  | Some _ => true
  | None => false
  end.

(** [Agent.structuredAnswer]; [desired_output] is the constructor of the
    requested model class, which validates its keyword arguments. *)
Definition structuredAnswer (fuel : nat) (self : Agent) (user_input : string)
    (desired_output : PyDict.t Value -> Value + Exn) : M BState Value :=
  let tool :=
    mkTool "set_output" "use this function to reply in the desired format"
      None (fun kwargs => desired_output kwargs) in
  let* messages := list_copy (history self) in
  run list_append messages (TextMessage USER user_input) then
  let* messages :=
    _run fuel self 1 messages FORCE
      (PyDict.set PyDict.empty (tool_name tool) tool) set_output_given in
  let* items := list_read messages in
  match last items with
  | None => raise (IndexError "list index out of range")
  | Some last_message =>
      match message_get last_message "set_output" with
      | Some result => ret (output result)
      | None =>
          raise (AttributeError "'NoneType' object has no attribute 'output'")
      end
  end.

End Agent.

Arguments Agent BState : clear implicits.

(** ** Construction of a [ToolCall] ([llm.py])

    [json.loads] and [json.dumps] belong to the Python library and are
    parameters here: [json_loads] gives [None] where the library raises
    [JSONDecodeError]. So is the text of the [ValidationError] of pydantic:
    [pydantic_report message input] is its report for the field [args] of
    [ToolCall], for the error [message] on the [input]. *)

Section ToolCallConstruction.

Variable json_loads : string -> option Value.
Variable json_dumps : Value -> string.
Variable pydantic_report : string -> Value -> string.




End ToolCallConstruction.

(** ** Vocabulary of the properties *)

(** *** Tool execution through hooks, in the words of the specification *)

Definition PreCallable : Type := ToolCall -> option ToolCall.
Definition PostCallable : Type := ToolCall -> ExecutionResult -> option ExecutionResult.

(** One call of [add_tool_hook(tool_name, pre=..., post=...)]. *)
Record Registration : Type := mkRegistration {
  reg_tool_name : string;
  reg_pre : option PreCallable;
  reg_post : option PostCallable
}.

(** The calls of [add_tool_hook] made one after the other. *)
Definition register_hooks {BState : Type} (self : Agent BState)
    (regs : list Registration) : Agent BState :=
  fold_left
    (fun a r => add_tool_hook a (reg_tool_name r) (reg_pre r) (reg_post r))
    regs self.

(** The pre-hooks and the post-hooks found in a hook list, in its order. *)
Definition pre_hooks_in (hooks : list Hook) : list PreCallable :=
  omap (fun h => match h with PreHook f => Some f | PostHook _ => None end) hooks.
Definition post_hooks_in (hooks : list Hook) : list PostCallable :=
  omap (fun h => match h with PostHook g => Some g | PreHook _ => None end) hooks.

(** The pre-hooks and the post-hooks an agent holds for a tool name. *)
Definition pre_hooks_of {BState : Type} (self : Agent BState) (tool : string)
  : list PreCallable :=
  pre_hooks_in (default [] (hook_map self !! tool)).
Definition post_hooks_of {BState : Type} (self : Agent BState) (tool : string)
  : list PostCallable :=
  post_hooks_in (default [] (hook_map self !! tool)).

(** The pre-hooks and the post-hooks registered for a tool name, in
    registration order. *)
Definition pre_hooks_registered (regs : list Registration) (tool : string)
  : list PreCallable :=
  omap (fun r => if String.eqb (reg_tool_name r) tool then reg_pre r else None) regs.
Definition post_hooks_registered (regs : list Registration) (tool : string)
  : list PostCallable :=
  omap (fun r => if String.eqb (reg_tool_name r) tool then reg_post r else None) regs.

(** "Each may replace the call with a transformed call (identity if it
    returns nothing)." *)
Definition transformed_call (pres : list PreCallable) (call : ToolCall) : ToolCall :=
  fold_left (fun c pre => default c (pre c)) pres call.

(** "Each may replace the result." *)
Definition transformed_result (posts : list PostCallable) (call : ToolCall)
    (result : ExecutionResult) : ExecutionResult :=
  fold_left (fun r post => default r (post call r)) posts result.

(** The failure reported for a tool name that the tool map does not have. *)
Definition unknown_tool_failure (tool : string) (tool_map : PyDict.t Tool)
  : ExecutionResult :=
  mkExecutionResult false VNone
    (Some ("Tool '" ++ tool ++ "' not found, available tools: "
           ++ String.concat ", " (PyDict.keys tool_map))%string).

(** "Invoke the tool's underlying callable with the call's arguments. Any
    raised failure is caught [...]; success wraps the return value." *)
Definition invocation_outcome (call : ToolCall) (tool_map : PyDict.t Tool)
  : ExecutionResult :=
  match PyDict.get tool_map (tc_name call) with
  | Some tool =>
      match tool_function tool (tc_args call) with
      | inl value => mkExecutionResult true value None
      | inr failure => mkExecutionResult false VNone (Some (exn_str failure))
      end
  | None => unknown_tool_failure (tc_name call) tool_map
  end.

(** Pre-hooks, then the callable on the final call, then post-hooks. *)
Definition hooked_execution (pres : list PreCallable) (posts : list PostCallable)
    (call : ToolCall) (tool_map : PyDict.t Tool) : ExecutionResult :=
  let final_call := transformed_call pres call in
  transformed_result posts final_call (invocation_outcome final_call tool_map).

(** A hook that returns nothing for this call and this result. *)
Definition hook_returns_nothing (call : ToolCall) (result : ExecutionResult)
    (h : Hook) : Prop :=
  match h with
  | PreHook f => f call = None
  | PostHook g => g call result = None
  end.

(** *** The orchestration loop *)

(** The failure of [_run] on an exhausted budget. *)
Definition iteration_exhaustion : Exn :=
  RuntimeError "Agent reached max iterations while processing user input".



(** The items of the agent's history. *)
Definition history_items {BState : Type} (w : World BState) (self : Agent BState)
  : list Message :=
  items_at (history self) w.

(** The text [chat] returned, when it returned. *)
Definition answer {BState : Type} (r : Outcome (Agent BState * string))
  : option string :=
  match r with
  | Returned (_, text) => Some text
  | _ => None
  end.

(** *** Retries and rate limiting *)

(** [base_delay * (2 ** retries) + jitter] *)
Definition backoff_delay (retries : nat) (jitter : Q) : Q :=
  (inject_Z (5 * 2 ^ Z.of_nat retries) + jitter)%Q.

Definition is_retry_later (reply : Message + Exn) : bool :=
  match reply with
  | inr e => is_RetryLater e
  | inl _ => false
  end.

(** What a reply of the backend is for the caller when it is passed on. *)
Definition passed_on (reply : Message + Exn) : Outcome Message :=
  match reply with
  | inl m => Returned m
  | inr e => Raised e
  end.

(** The random source keeps the contract of [random.uniform(0, 1)]. *)
Definition uniform_01 {BState : Type} (w : World BState) : Prop :=
  forall i, (0 <= rng w i)%Q /\ (rng w i <= 1)%Q.

(** Time does not run backwards between two observations of the clock. *)
Definition time_moves_forward {BState : Type} (w : World BState) : Prop :=
  forall i, (0 <= drift w i)%Q.

(** Two calls issued back-to-back: neighbours on the trace. *)
Definition back_to_back (trace : list PhysicalCall) (c1 c2 : PhysicalCall) : Prop :=
  exists i, trace !! i = Some c1 /\ trace !! S i = Some c2.

Definition one_unit_apart (trace : list PhysicalCall) : Prop :=
  forall c1 c2, back_to_back trace c1 c2 ->
    (pc_started c1 + 1 <= pc_started c2)%Q.

(** The state of a process between two calls of [_infer]: the calls made so
    far are one unit apart, the shared timestamp is the start of the last
    one, and the oracles keep their contracts. *)
Definition paced {BState : Type} (w : World BState) : Prop :=
  one_unit_apart (requests w) /\
  (forall c, last (requests w) = Some c ->
             last_request_time w = Some (pc_started c)) /\
  uniform_01 w /\ time_moves_forward w.

(** One call of [_infer], by some backend instance. *)
Record InferCall (BState : Type) : Type := mkInferCall {
  ic_llm : LLM BState;
  ic_systemprompt : string;
  ic_messages : list Message;
  ic_tools : list Tool;
  ic_tool_mode : ToolMode
}.
Arguments mkInferCall {BState}.
Arguments ic_llm {BState}.
Arguments ic_systemprompt {BState}.
Arguments ic_messages {BState}.
Arguments ic_tools {BState}.
Arguments ic_tool_mode {BState}.

(** A process that issues calls of [_infer] one after the other and goes on
    whatever each of them returns or raises. *)
Definition issue_all {BState : Type} (calls : list (InferCall BState))
    (w : World BState) : World BState :=
  fold_left
    (fun w c =>
       snd (_infer (ic_llm c) (ic_systemprompt c) (ic_messages c) (ic_tools c)
              (ic_tool_mode c) w))
    calls w.

(** A process in which no backend call has been made yet. *)
Definition no_call_yet {BState : Type} (w : World BState) : Prop :=
  requests w = [] /\ last_request_time w = None.

(** *** What a computation leaves alone *)

(** A computation that touches neither the heap, nor the telemetry spans,
    nor the oracles. *)
Definition quiet {BState A : Type} (c : M BState A) : Prop :=
  forall w,
    heap (snd (c w)) = heap w /\ spans (snd (c w)) = spans w /\
    rng (snd (c w)) = rng w /\ drift (snd (c w)) = drift w.

(** A computation that changes no list object other than the one at [l]. *)
Definition touches_only {BState A : Type} (l : loc) (c : M BState A) : Prop :=
  forall w l', l' <> l -> heap (snd (c w)) !! l' = heap w !! l'.

(** ** A reference model of [json.loads] and [json.dumps]

    The part of the Python library that does without floating point and
    without characters outside ASCII: objects, arrays, strings with their
    escapes, integers, [true], [false] and [null], read the way
    [json.loads] reads them (the scanner of the library, in strict mode) and
    written the way [json.dumps] writes them with its default arguments.
    A text is read as a list of characters. [loads] answers [Unsupported]
    where the text leaves this part (a fraction or an exponent, [NaN],
    [Infinity], a character or an escape outside ASCII in a string):
    nothing is said about the library there. The depth the interpreter
    allows for nested arrays and objects is not modelled. *)

Module MiniJson.

Definition dq : ascii := "034"%char.

Definition quoted (s : string) : string :=
  (String dq s ++ String dq EmptyString)%string.

(** What reading gives: a result, a [JSONDecodeError], or no answer. *)
Inductive Decoded (A : Type) : Type :=
  | Parsed (a : A)
  | Malformed
  | Unsupported.
Arguments Parsed {A} a.
Arguments Malformed {A}.
Arguments Unsupported {A}.

Definition and_then {A B : Type} (d : Decoded A) (k : A -> Decoded B)
  : Decoded B :=
  match d with
  | Parsed a => k a
  | Malformed => Malformed
  | Unsupported => Unsupported
  end.




(** *** Strings *)

(** The escapes of one character: [BACKSLASH] of the decoder. *)
Definition short_escape (e : ascii) : option ascii :=
  if Ascii.eqb e dq then Some dq
  else if Ascii.eqb e "\"%char then Some "\"%char
  else if Ascii.eqb e "/"%char then Some "/"%char
  else if Ascii.eqb e "b"%char then Some "008"%char
  else if Ascii.eqb e "f"%char then Some "012"%char
  else if Ascii.eqb e "n"%char then Some "010"%char
  else if Ascii.eqb e "r"%char then Some "013"%char
  else if Ascii.eqb e "t"%char then Some "009"%char
  else None.

Definition hex_digit (c : ascii) : option nat :=
  let n := nat_of_ascii c in
  if (48 <=? n)%nat && (n <=? 57)%nat then Some (n - 48)%nat
  else if (97 <=? n)%nat && (n <=? 102)%nat then Some (n - 87)%nat
  else if (65 <=? n)%nat && (n <=? 70)%nat then Some (n - 55)%nat
  else None.

(** The code of [\uXXXX]. *)
Definition hex4 (h1 h2 h3 h4 : ascii) : option nat :=
  match hex_digit h1, hex_digit h2, hex_digit h3, hex_digit h4 with
  | Some a, Some b, Some c, Some d => Some (((a * 16 + b) * 16 + c) * 16 + d)%nat
  | _, _, _, _ => None
  end.

Definition push (c : ascii) (r : Decoded (string * list ascii))
  : Decoded (string * list ascii) :=
  and_then r (fun found => Parsed (String c (fst found), snd found)).

(** [scanstring], after the opening quote: the string and what follows the
    closing quote. A control character, an unknown escape and a text that
    ends before the quote are errors. *)
Fixpoint string_body (s : list ascii) : Decoded (string * list ascii) :=
  match s with
  | [] => Malformed
  | c :: rest =>
      if Ascii.eqb c dq then Parsed (EmptyString, rest)
      else if Ascii.eqb c "\"%char then
        match rest with
        | [] => Malformed
        | e :: rest' =>
            match short_escape e with
            | Some c' => push c' (string_body rest')
            | None =>
                if Ascii.eqb e "u"%char then
                  match rest' with
                  | h1 :: h2 :: h3 :: h4 :: rest'' =>
                      match hex4 h1 h2 h3 h4 with
                      | Some code =>
                          if (code <? 128)%nat
                          then push (ascii_of_nat code) (string_body rest'')
                          else Unsupported
                      | None => Malformed
                      end
                  | _ => Malformed
                  end
                else Malformed
            end
        end
      else if (nat_of_ascii c <? 32)%nat then Malformed
      else if (127 <? nat_of_ascii c)%nat then Unsupported
      else push c (string_body rest)
  end.

(** *** Integers *)







(** *** Values *)



(** *** Writing *)

Definition hex_char (n : nat) : ascii :=
  ascii_of_nat (if (n <? 10)%nat then 48 + n else 87 + n).

(** [ESCAPE_ASCII] and [ESCAPE_DCT] of the encoder: what a character of a
    string is written as. *)
Definition escape (c : ascii) : list ascii :=
  let n := nat_of_ascii c in
  if Ascii.eqb c dq then ["\"%char; dq]
  else if Ascii.eqb c "\"%char then ["\"%char; "\"%char]
  else if Ascii.eqb c "008"%char then ["\"%char; "b"%char]
  else if Ascii.eqb c "012"%char then ["\"%char; "f"%char]
  else if Ascii.eqb c "010"%char then ["\"%char; "n"%char]
  else if Ascii.eqb c "013"%char then ["\"%char; "r"%char]
  else if Ascii.eqb c "009"%char then ["\"%char; "t"%char]
  else if (n <? 32)%nat || (126 <? n)%nat then
    ["\"%char; "u"%char; "0"%char; "0"%char; hex_char (n / 16); hex_char (n mod 16)]
  else [c].

Fixpoint escaped (s : string) : list ascii :=
  match s with
  | EmptyString => []
  | String c rest => escape c ++ escaped rest
  end.




(** [', '.join(parts)] *)
Fixpoint joined (parts : list (list ascii)) : list ascii :=
  match parts with
  | [] => []
  | [part] => part
  | part :: others => part ++ ","%char :: " "%char :: joined others
  end.


Definition ascii_string (s : string) : bool :=
  forallb (fun c => (nat_of_ascii c <? 128)%nat) (String.list_ascii_of_string s).

(** The values of this part of the library: their strings and keys are
    ASCII, and no object has a key twice (a Python [dict] has not). *)
Fixpoint plain (v : Value) : bool :=
  match v with
  | VNone | VBool _ | VInt _ => true
  | VStr s => ascii_string s
  | VList items => forallb plain items
  | VDict fields =>
      bool_decide (NoDup (map fst fields))
      && forallb (fun kv => ascii_string (fst kv) && plain (snd kv)) fields
  end.


End MiniJson.

(** ** Scenarios *)

(** The replies a scripted backend still has to give. *)
Definition Script : Type := list (Message + Exn).

(** A backend that replays a script and raises once the script is over. *)
Definition scripted (instance : nat) (params : LLMParameters) : LLM Script :=
  mkLLM instance params
    (fun _ _ _ _ script =>
       match script with
       | [] => (inr (OtherException "StopIteration" "the script is over"), [])
       | reply :: rest => (reply, rest)
       end).

(** A backend that answers every request with the same message. *)
Definition insistent (instance : nat) (params : LLMParameters) (m : Message)
  : LLM Script :=
  mkLLM instance params (fun _ _ _ _ script => (inl m, script)).

(** A process at its start: no call yet; one hundredth of a time unit passes
    between two looks at the clock; every jitter is one half. *)
Definition new_process (script : Script) (lists : gmap loc (list Message))
  : World Script :=
  mkWorld 1000%Q (fun _ => 1 # 100) 0 (fun _ => 1 # 2) 0 None [] [] [] lists
    script.

(** The tool [add(a, b)] that returns [a + b]. *)
Definition add : Tool :=
  mkTool "add" "Add two numbers" None
    (fun kwargs =>
       match PyDict.get kwargs "a", PyDict.get kwargs "b" with
       | Some (VInt a), Some (VInt b) => inl (VInt (a + b))
       | _, _ => inr (OtherException "TypeError" "add() got unexpected arguments")
       end).

Definition call_add_2_3 : ToolCall :=
  mkToolCall "call-1" "add" [("a", VInt 2); ("b", VInt 3)].

(** Scenario A: an agent in FORCE mode with the single tool [add]; its
    backend asks for [add(2, 3)] and then answers "5". [escape] is the
    backend parameter [end_tool_mode]. *)
Definition scenario_A_agent (escape : bool) : Agent Script :=
  mkAgent (scripted 0 (mkLLMParameters (1 # 2) escape)) "A" "You add numbers."
    [("add", add)] 10 true FORCE 0%nat ∅.

Definition scenario_A_process : World Script :=
  new_process
    [inl (ToolMessage MODEL [call_add_2_3] []); inl (TextMessage MODEL "5")]
    {[ 0%nat := [] ]}.

(** Scenario A once the user's request is in the history. *)
Definition scenario_A_started : World Script :=
  append_item 0%nat (TextMessage USER "sum") scenario_A_process.

Definition scenario_A_history : list Message :=
  [TextMessage USER "sum";
   ToolMessage MODEL [call_add_2_3] [];
   ToolMessage USER []
     [mkToolResult "call-1" "add" (mkExecutionResult true (VInt 5) None)];
   TextMessage MODEL "5"].


Definition runaway_process : World Script :=
  new_process [] {[ 0%nat := [] ]}.

(** A backend with the escape convention that answers a forced call with
    [end_tool_mode] and then with a text. *)
Definition escaping_agent : Agent Script :=
  mkAgent (scripted 2 (mkLLMParameters (1 # 2) true)) "Escaper"
    "You add numbers." [("add", add)] 10 true FORCE 0%nat ∅.

Definition escape_response : Message :=
  ToolMessage MODEL [mkToolCall "call-0" "end_tool_mode" []] [].

Definition escaping_process : World Script :=
  new_process [inl escape_response; inl (TextMessage MODEL "done")]
    {[ 0%nat := [TextMessage USER "sum"] ]}.

(** The process after the backend has answered the forced call. *)
Definition escaping_process_answered : World Script :=
  snd (generate (llm escaping_agent) (system_prompt escaping_agent)
         (items_at 0%nat escaping_process)
         (PyDict.values (fst (prepare_tools escaping_agent FORCE
                                (tool_map escaping_agent))))
         FORCE escaping_process).

(** Hooks registered under a name that no tool has. *)
Definition ghost_call : ToolCall := mkToolCall "call-9" "ghost" [].

Definition patched_result : ExecutionResult :=
  mkExecutionResult true (VStr "patched") None.

(** A post-hook that replaces every result. *)
Definition patching_agent : Agent Script :=
  add_tool_hook (scenario_A_agent false) "ghost" None
    (Some (fun _ _ => Some patched_result)).

(** A listener: hooks that only observe and return nothing. *)
Definition listening_agent : Agent Script :=
  add_tool_hook (scenario_A_agent false) "ghost" (Some (fun _ => None))
    (Some (fun _ _ => None)).

(** A backend that is rate limited by its provider at every attempt. *)
Definition throttled_process : World Script :=
  new_process
    (repeat (inr (RetryLater "rate limit" "429 Too Many Requests")) 5) ∅.

(** Two calls of [_infer] by two backend instances. *)
Definition two_instances : list (InferCall Script) :=
  [mkInferCall (scripted 0 default_parameters) "first" [TextMessage USER "a"] [] AUTO;
   mkInferCall (scripted 1 default_parameters) "second" [TextMessage USER "b"] [] AUTO].

Definition two_instances_process : World Script :=
  new_process [inl (TextMessage MODEL "one"); inl (TextMessage MODEL "two")] ∅.

Definition two_instances_trace : list PhysicalCall :=
  requests (issue_all two_instances two_instances_process).

Definition call_at (trace : list PhysicalCall) (i : nat) : PhysicalCall :=
  default (mkPhysicalCall 0 0 AUTO (inr (IndexError "no such call"))) (trace !! i).

(** Scenario C: a structured answer with the target schema
    [{count: integer}]. *)
Definition count_model (kwargs : PyDict.t Value) : Value + Exn :=
  match kwargs with
  | [("count", VInt n)] => inl (VDict [("count", VInt n)])
  | _ => inr (ValidationError "1 validation error for Count")
  end.

Definition scenario_C_process : World Script :=
  new_process
    [inl (ToolMessage MODEL [mkToolCall "call-7" "set_output" [("count", VInt 7)]] [])]
    {[ 0%nat := [TextMessage USER "earlier"; TextMessage MODEL "reply"] ]}.

(** The payload [{"a": 2, "b": 3}] of a tool call. *)
Definition payload_a2_b3 : string :=
  ("{" ++ MiniJson.quoted "a" ++ ": 2, " ++ MiniJson.quoted "b" ++ ": 3}")%string.

(** ** More vocabulary: replies of the backend *)

(** What [generate] makes of a reply that [_infer] passes on: a message that
    cannot be presented to the telemetry span raises. *)
Definition generated (reply : Message + Exn) : Outcome Message :=
  match reply with
  | inl m =>
      match getMLFlowMessage m with
      | Some e => Raised e
      | None => Returned m
      end
  | inr e => Raised e
  end.

(** A backend whose every response carries the escape tool. *)
Definition always_escapes {BState : Type} (l : LLM BState) : Prop :=
  forall systemprompt messages tools tool_mode b,
  exists m b',
    _inferModel l systemprompt messages tools tool_mode b = (inl m, b') /\
    carries_escape m = true.

(** A backend that fails with RetryLater at every attempt. *)
Definition always_retry_later {BState : Type} (l : LLM BState) : Prop :=
  forall systemprompt messages tools tool_mode b,
    is_retry_later (fst (_inferModel l systemprompt messages tools tool_mode b))
    = true.

(** The sum of a list of durations. *)
Definition total (durations : list Q) : Q := fold_right Qplus 0%Q durations.

(** ** More scenarios *)

(** An agent with the tool [add] over a given backend and budget; its
    history is the list at location 0. *)
Definition adder (backend : LLM Script) (budget : Z) : Agent Script :=
  mkAgent backend "Adder" "You add numbers." [("add", add)] budget true AUTO
    0%nat ∅.

Definition greeting : Message := TextMessage MODEL "hello".

(** A backend that always answers "hello". *)
Definition greeter : LLM Script := insistent 3 default_parameters greeting.

(** A backend whose provider is down: its script is over from the start. *)
Definition broken : LLM Script := scripted 4 default_parameters.

(** A backend that answers with a tool message without calls or results. *)
Definition hollow : LLM Script :=
  insistent 5 default_parameters (ToolMessage MODEL [] []).

(** A backend that answers every request with the escape tool. *)
Definition escapist : LLM Script :=
  insistent 6 (mkLLMParameters (1 # 2) true) escape_response.

(** A process whose list 0 holds an earlier exchange. *)
Definition resumed_process : World Script :=
  new_process [] {[ 0%nat := [TextMessage USER "hi"; greeting] ]}.

(** A backend whose provider refuses every request for the time being. *)
Definition throttled : LLM Script :=
  mkLLM 7 default_parameters
    (fun _ _ _ _ script =>
       (inr (RetryLater "rate limit" "429 Too Many Requests"), script)).

(** A process whose last request was made a quarter of a time unit ago. *)
Definition busy_process : World Script :=
  note_request_time (3999 # 4) (new_process [] ∅).

(** A backend whose tool messages carry calls, as the backends of the
    repository build them. *)
Definition answers_with_calls {BState : Type} (l : LLM BState) : Prop :=
  forall systemprompt messages tools tool_mode b role results,
    fst (_inferModel l systemprompt messages tools tool_mode b)
    <> inl (ToolMessage role [] results).

(** A backend that answers with tool results instead of calls. *)
Definition confused : LLM Script :=
  insistent 8 default_parameters
    (ToolMessage MODEL []
       [mkToolResult "call-1" "add" (mkExecutionResult true (VInt 5) None)]).

(** * Further parts of the framework *)

(** ** More dictionary operations *)

(** What [d.pop(k, None)] leaves of [d]. *)
Fixpoint dict_pop {V : Type} (d : PyDict.t V) (k : string) : PyDict.t V :=
  match d with
  | [] => []
  | (k', v) :: rest =>
      if String.eqb k' k then rest else (k', v) :: dict_pop rest k
  end.

(** The comprehension [{k: v for k, v in items}]. *)
Definition dict_of {V : Type} (items : list (string * V)) : PyDict.t V :=
  fold_left (fun d kv => PyDict.set d (fst kv) (snd kv)) items PyDict.empty.

(** ** More of the agent ([agent.py]) *)

(** [agent_name.replace(' ', '_')] *)
Fixpoint replace_spaces (s : string) : string :=
  match s with
  | EmptyString => EmptyString
  | String c rest =>
      String (if Ascii.eqb c " "%char then "_"%char else c) (replace_spaces rest)
  end.

(** The characters of the class [[a-zA-Z0-9_.-]]. *)
Definition name_character (c : ascii) : bool :=
  let n := nat_of_ascii c in
  ((97 <=? n)%nat && (n <=? 122)%nat) || ((65 <=? n)%nat && (n <=? 90)%nat)
  || ((48 <=? n)%nat && (n <=? 57)%nat)
  || Ascii.eqb c "_"%char || Ascii.eqb c "."%char || Ascii.eqb c "-"%char.

(** [re.sub(r'[^a-zA-Z0-9_.-]', '', s)]. A character outside ASCII is a
    sequence of bytes above 127 here, all of them outside the class, so it
    is removed as the source removes it. *)
Fixpoint strip_other_characters (s : string) : string :=
  match s with
  | EmptyString => EmptyString
  | String c rest =>
      if name_character c then String c (strip_other_characters rest)
      else strip_other_characters rest
  end.

(** [self.sanatized_name] as [Agent.__init__] computes it. *)
Definition sanatized_name (agent_name : string) : string :=
  strip_other_characters (replace_spaces agent_name).

Section MoreAgent.

Context {BState : Type}.

(** The function that [Agent.add_tool] returns, once it is called:
    [self.tool_map.pop(tool.name, None)]. *)
Definition add_tool_remover (self : Agent BState) (tool : Tool) : Agent BState :=
  mkAgent (llm self) (name self) (system_prompt self)
    (dict_pop (tool_map self) (tool_name tool))
    (max_iterations self) (allow_poking self) (default_tool_mode self)
    (history self) (hook_map self).

(** [Agent.clear_history]: [self.history = []] binds the attribute to a new
    list object; the list it named before is not touched. *)
Definition clear_history (self : Agent BState) : M BState (Agent BState) :=
  fun w =>
    let l := fresh (dom (heap w)) in
    (Returned (set_history self l), set_heap (<[l := []]> (heap w)) w).

End MoreAgent.

(** ** Token counters ([tracker.py]) *)

Module Tracker.

(** The counters of a tracker; the agent it reports for plays no part in
    them. *)
Record t : Type := mk {
  _invocation : Z;
  _cumulative_completion_tokens : Z;
  _cumulative_prompt_tokens : Z
}.

(** [Tracker.__init__]: the new tracker goes to the end of the class-level
    list [_all_trackers]. *)
Definition new (_all_trackers : list t) : list t :=
  _all_trackers ++ [mk 0 0 0].

(** [Tracker.logTokens] *)
Definition logTokens (self : t) (prompt completion total : Z) : t :=
  mk (_invocation self + 1)
     (_cumulative_completion_tokens self + completion)
     (_cumulative_prompt_tokens self + prompt).

(** [logTokens] called on the tracker at position [i] of [_all_trackers];
    the object is updated in place. *)
Definition logTokens_at (_all_trackers : list t) (i : nat)
    (prompt completion total : Z) : list t :=
  alter (fun self => logTokens self prompt completion total) i _all_trackers.

(** [stats[key] += amount] *)
Definition add_to (stats : PyDict.t Z) (key : string) (amount : Z)
  : PyDict.t Z :=
  PyDict.set stats key (default 0%Z (PyDict.get stats key) + amount)%Z.

(** [Tracker.collectTokenStats] *)
Definition collectTokenStats (_all_trackers : list t) : PyDict.t Z :=
  fold_left
    (fun stats tracker =>
       let stats := add_to stats "total_invocations" (_invocation tracker) in
       let stats :=
         add_to stats "total_cumulative_completion_tokens"
           (_cumulative_completion_tokens tracker) in
       add_to stats "total_cumulative_prompt_tokens"
         (_cumulative_prompt_tokens tracker))
    _all_trackers
    [("total_invocations", 0%Z);
     ("total_cumulative_completion_tokens", 0%Z);
     ("total_cumulative_prompt_tokens", 0%Z)].

End Tracker.

(** ** Teams ([team.py]) *)

Module Team.

Inductive Connection : Type := DELIGATION.

Section Members.

(** Agents are compared by identity ([Agent] defines no equality), so a
    team holds their identities; [A] is the type of these. The attribute
    [history] of a team is set to an empty list and never used. *)
Context {A : Type} `{EqDecision A}.

Record t : Type := mk {
  members : list A;
  connections : list (A * Connection * A)
}.

(** [Team.__init__] *)
Definition new : t := mk [] [].

(** [Team.add_member] *)
Definition add_member (self : t) (member : A) : t :=
  mk (members self ++ [member]) (connections self).

(** [Team.add_connection] *)
Definition add_connection (self : t) (member1 : A) (connection : Connection)
    (member2 : A) : t :=
  let self :=
    if decide (member1 ∈ members self) then self else add_member self member1 in
  let self :=
    if decide (member2 ∈ members self) then self else add_member self member2 in
  mk (members self) (connections self ++ [(member1, connection, member2)]).

(** [Team.kickoff]; [agents] gives the agent object of an identity. The
    answer of the agent is dropped, as in the source. *)
Definition kickoff {BState : Type} (agents : A -> Agent BState) (fuel : nat)
    (self : t) (start : A) (prompt : string) : M BState unit :=
  if decide (start ∈ members self) then
    let* answered := chat fuel (agents start) prompt None in
    ret tt
  else raise (ValueError "Entry agent is not a member of the team").

End Members.

Arguments t A : clear implicits.

End Team.

(** ** Conversations ([conversation.py]) *)

Section Conversation.

Context {BState : Type}.

(** The [callback] of [link_agents]: it is told who talks to whom, and what. *)
Definition Callback : Type := string -> string -> string -> M BState unit.

(** [partnerMap]: the partners under their names, or under
    ["<prefix> <index>"] when a non-empty [anonymizePrefix] is given. *)
Definition partnerMap (anonymizePrefix : option string)
    (partners : list (Agent BState)) : PyDict.t (Agent BState) :=
  let by_name := dict_of (map (fun user => (name user, user)) partners) in
  match anonymizePrefix with
  | Some prefix =>
      if String.eqb prefix EmptyString then by_name
      else dict_of (imap (fun i user => (prefix ++ " " ++ pretty i, user)%string)
                      partners)
  | None => by_name
  end.

Definition tell (callback : option Callback) (source target text : string)
  : M BState unit :=
  match callback with
  | Some f => f source target text
  | None => ret tt
  end.

(** The closure [interact] of [link_agents]. A turn leaves the agent object
    as it was, so the partner map is not rebuilt after [chat]. *)
Definition interact (fuel : nat) (actor : Agent BState)
    (partners : PyDict.t (Agent BState)) (callback : option Callback)
    (user request : string) : M BState string :=
  match PyDict.get partners user with
  | None =>
      raise (OtherException "KeyError"
               ("User " ++ MiniJson.quoted user ++ " not found, available users: "
                ++ String.concat ", " (PyDict.keys partners)))
  | Some agent =>
      run tell callback (name actor) (name agent) request then
      let* answered := chat fuel agent request None in
      let response := snd answered in
      run tell callback (name agent) (name actor) response then
      ret (user ++ ": " ++ response)%string
  end.

(** The closure [single_interact]: the first partner is addressed. *)
Definition single_interact (fuel : nat) (actor : Agent BState)
    (partners : PyDict.t (Agent BState)) (callback : option Callback)
    (request : string) : M BState string :=
  match PyDict.keys partners with
  | [] => raise (IndexError "list index out of range")
  | user :: _ => interact fuel actor partners callback user request
  end.

End Conversation.

(** ** Scenarios for these parts *)

Definition subtract : Tool :=
  mkTool "add" "Subtract two numbers" None
    (fun kwargs =>
       match PyDict.get kwargs "a", PyDict.get kwargs "b" with
       | Some (VInt a), Some (VInt b) => inl (VInt (a - b))
       | _, _ => inr (OtherException "TypeError" "add() got unexpected arguments")
       end).

(** Two partners that share the name "Adder", and a third one. *)
Definition first_adder : Agent Script := adder greeter 10.
Definition second_adder : Agent Script := adder hollow 5.
Definition expert : Agent Script :=
  mkAgent greeter "Expert" "You know the process." [] 10 true AUTO 1%nat ∅.

(** A process whose list 0 was ruined by a response without calls. *)
Definition ruined_process : World Script :=
  new_process []
    {[ 0%nat := [TextMessage USER "hi";
                 ToolMessage MODEL []
                   [mkToolResult "call-1" "add"
                      (mkExecutionResult true (VInt 5) None)];
                 ToolMessage USER [] []] ]}.

(** Two trackers, the second of which has logged two calls. *)
Definition two_trackers : list Tracker.t :=
  [Tracker.mk 0 0 0; Tracker.mk 2 30 40].

(** * Tools that run agent turns ([agent.py], [SubAgentTool])

    [_execute_tool_raw] runs [tool.function( **tool_call.args)]. The callable
    of a tool is a function of its arguments in the part above. The tool that
    [as_subagent] builds is of another kind: its callable [deligate] runs
    [self.chat(task)], a whole turn of another agent, or of the same one, in
    the middle of the turn that called the tool. This part embeds the loop
    with such tools in the tool map. Tool execution is a computation on the
    process here, and a turn that does not end inside a tool leaves the
    calling turn without an end as well. For a tool map without sub-agent
    tools this loop is the loop of the part above. The tool that
    [link_agents] builds ([conversation.py]) runs [agent.chat(request)] of a
    partner in the same way; it is embedded with [interact], and a tool map
    that holds one is not a map of functions of the arguments either. *)

Module Delegation.

Section Delegation.

Context {BState : Type}.

(** The identity of an agent object. *)
Definition AgentId : Type := nat.

(** [SubAgentTool] as [as_subagent] builds it when no [call] is given: the
    name, the description and the system prompt of the tool, and the agent
    whose [chat] the callable [deligate] runs. A sub-agent tool with a [call]
    of its own is a tool like any other. *)
Record SubAgentTool : Type := mkSubAgentTool {
  sat_name : string;
  sat_description : string;
  sat_system_prompt : option string;
  agent : AgentId
}.

(** A value of [tool_map]. *)
Definition AnyTool : Type := (Tool + SubAgentTool)%type.

(** The tool object as a backend gets it, to describe it to its provider. The
    callable of a sub-agent tool is not a function of the arguments; the
    backends do not run callables, and the one given here fails. *)
Definition described (tool : AnyTool) : Tool :=
  match tool with
  | inl plain => plain
  | inr sub =>
      mkTool (sat_name sub) (sat_description sub) (sat_system_prompt sub)
        (fun _ => inr (OtherException "TypeError" "deligate() runs a turn"))
  end.

Record Agent : Type := mkAgent {
  llm : LLM BState;
  name : string;
  system_prompt : string;
  tool_map : PyDict.t AnyTool;
  max_iterations : Z;
  allow_poking : bool;
  default_tool_mode : ToolMode;
  history : loc;
  sub_agents : list SubAgentTool;
  hook_map : gmap string (list Hook);
  injected_system_message : option string
}.

(** [Agent.as_subagent] without a [call]; [self_id] is the identity of
    [self], which the tool keeps. *)
Definition as_subagent (self_id : AgentId) (self : Agent)
    (description system_message : option string) : SubAgentTool :=
  mkSubAgentTool (sanatized_name (name self))
    (default ("Deligate a task to " ++ name self ++ " and get back the result")%string
       description)
    (match system_message with
     | Some message => Some message
     | None => injected_system_message self
     end)
    self_id.

(** [Agent.add_sub_agent] for a sub-agent tool. *)
Definition add_sub_agent (self : Agent) (tool : SubAgentTool) : Agent :=
  mkAgent (llm self) (name self) (system_prompt self)
    (PyDict.set (tool_map self) (sat_name tool) (inr tool))
    (max_iterations self) (allow_poking self) (default_tool_mode self)
    (history self) (sub_agents self ++ [tool]) (hook_map self)
    (injected_system_message self).

(** The agent objects of the process, by identity. *)
Variable agents : AgentId -> Agent.

(** What Python raises when the keyword arguments of a call do not fit
    [deligate(task: str)]: the TypeError of the call, or the validation
    error of [TextMessage(text=task)]. *)
Variable argument_error : PyDict.t Value -> Exn.

(** [agent.chat(task)], as a tool sees it. *)
Definition Turn : Type := Agent -> string -> M BState string.

(** [Agent._execute_tool_raw] *)
Definition _execute_tool_raw (turn : Turn) (tool_call : ToolCall)
    (tool_map : PyDict.t AnyTool) : M BState Value :=
  match PyDict.get tool_map (tc_name tool_call) with
  | None =>
      raise (ValueError
               ("Tool '" ++ tc_name tool_call ++ "' not found, available tools: "
                ++ String.concat ", " (PyDict.keys tool_map)))
  | Some (inl tool) =>
      match tool_function tool (tc_args tool_call) with
      | inl out => ret out
      | inr e => raise e
      end
  | Some (inr sub) =>
      match tc_args tool_call with
      | [("task", VStr task)] =>
          let* text := turn (agents (agent sub)) task in
          ret (VStr text)
      | args => raise (argument_error args)
      end
  end.

(** The [try] / [except Exception] around the raw execution: what the tool
    raises becomes a failure result; a tool that does not return has no
    result. *)
Definition guarded_execution (turn : Turn) (tool_call : ToolCall)
    (tool_map : PyDict.t AnyTool) : M BState ExecutionResult :=
  fun w =>
    match _execute_tool_raw turn tool_call tool_map w with
    | (Returned out, w') => (Returned (mkExecutionResult true out None), w')
    | (Raised e, w') =>
        (Returned (mkExecutionResult false VNone (Some (exn_str e))), w')
    | (OutOfFuel, w') => (OutOfFuel, w')
    end.

(** [Agent._execute_tool] *)
Definition _execute_tool (turn : Turn) (self : Agent) (tool_call : ToolCall)
    (tool_map : PyDict.t AnyTool) : M BState ExecutionResult :=
  let hooks := default [] (hook_map self !! tc_name tool_call) in
  let tool_call := run_pre_hooks hooks tool_call in
  let* result := guarded_execution turn tool_call tool_map in
  ret (run_post_hooks hooks tool_call result).

(** [Agent._execute_all_tools]: the calls are executed one after the other,
    in the order of the response. *)
Fixpoint _execute_all_tools (turn : Turn) (self : Agent)
    (tool_calls : list ToolCall) (tool_map : PyDict.t AnyTool)
  : M BState (list ToolResult) :=
  match tool_calls with
  | [] => ret []
  | tool_call :: rest =>
      let* result := _execute_tool turn self tool_call tool_map in
      let* results := _execute_all_tools turn self rest tool_map in
      ret (mkToolResult (tc_id tool_call) (tc_name tool_call) result :: results)
  end.

(** The tool map and the next tool mode that [_run] prepares. *)
Definition prepare_tools (self : Agent) (tool_mode : ToolMode)
    (tool_map : PyDict.t AnyTool) : PyDict.t AnyTool * ToolMode :=
  match tool_mode with
  | FORCE =>
      if end_tool_mode (parameters (llm self)) then
        (PyDict.set (PyDict.copy tool_map) "end_tool_mode" (inl escape_tool),
         tool_mode)
      else (tool_map, AUTO)
  | _ => (tool_map, tool_mode)
  end.

(** [self.history = l] *)
Definition set_history (self : Agent) (l : loc) : Agent :=
  mkAgent (llm self) (name self) (system_prompt self) (tool_map self)
    (max_iterations self) (allow_poking self) (default_tool_mode self)
    l (sub_agents self) (hook_map self) (injected_system_message self).

(** [Agent._track_mlflow] *)
Definition _track_mlflow (self : Agent) : M BState unit :=
  let* items := list_read (history self) in
  match first_mlflow_failure items with
  | Some e => raise e
  | None => ret tt
  end.

(** The type of [Agent._run]. *)
Definition Loop : Type :=
  Agent -> Z -> loc -> ToolMode -> PyDict.t AnyTool -> (Message -> bool) ->
  M BState loc.

(** [Agent._invoke], over the loop it calls. *)
Definition invoke_with (loop : Loop) (self : Agent) (message : Message)
    (tool_mode : ToolMode) : M BState (Agent * Message) :=
  run list_append (history self) message then
  run _track_mlflow self then
  let* l :=
    loop self (max_iterations self) (history self) tool_mode (tool_map self)
      is_text in
  let self := set_history self l in
  let* items := list_read (history self) in
  match last items with
  | None => raise (IndexError "list index out of range")
  | Some response =>
      run _track_mlflow self then
      match response with
      | TextMessage _ _ => ret (self, response)
      | ToolMessage _ _ _ =>
          raise (AttributeError "'ToolMessage' object has no attribute 'text'")
      end
  end.

(** [Agent.chat], over the loop it calls. *)
Definition chat_with (loop : Loop) (self : Agent) (user_input : string)
    (tool_mode : option ToolMode) : M BState (Agent * string) :=
  let tool_mode := default (default_tool_mode self) tool_mode in
  let message := TextMessage USER user_input in
  let* invoked := invoke_with loop self message tool_mode in
  let '(self, response) := invoked in
  match response with
  | TextMessage _ text => ret (self, text)
  | ToolMessage _ _ _ =>
      raise (AttributeError "'ToolMessage' object has no attribute 'text'")
  end.

(** [deligate(task)]: [return self.chat(task)], over the loop. *)
Definition deligate (loop : Loop) : Turn :=
  fun self task =>
    let* answered := chat_with loop self task None in
    ret (snd answered).

(** [Agent._run]. The recursion takes fuel, as above; the turns that tools
    run draw on the same fuel. *)
Fixpoint _run (fuel : nat) (self : Agent) (iterations : Z) (messages : loc)
    (tool_mode : ToolMode) (tool_map : PyDict.t AnyTool)
    (stop_criteria : Message -> bool) {struct fuel} : M BState loc :=
  match fuel with
  | O => out_of_fuel
  | S fuel' =>
      if (iterations <=? 0)%Z then
        raise (RuntimeError "Agent reached max iterations while processing user input")
      else
        let systemprompt := system_prompt self in
        let original_tool_map := tool_map in
        let '(tool_map, next_tool_mode) := prepare_tools self tool_mode tool_map in
        let* items := list_read messages in
        let* response :=
          generate (llm self) systemprompt items
            (map described (PyDict.values tool_map)) tool_mode in
        if carries_escape response then
          _run fuel' self iterations messages AUTO original_tool_map stop_criteria
        else
          run list_append messages response then
          if stop_criteria response then ret messages
          else
            let* response :=
              match response with
              | ToolMessage _ calls _ =>
                  let* tool_responses :=
                    _execute_all_tools (deligate (_run fuel')) self calls
                      tool_map in
                  let response := ToolMessage USER [] tool_responses in
                  run list_append messages response then
                  ret response
              | TextMessage _ _ => ret response
              end in
            if stop_criteria response then ret messages
            else
              _run fuel' self (iterations - 1) messages next_tool_mode
                original_tool_map stop_criteria
  end.

(** [Agent._invoke] and [Agent.chat] *)
Definition _invoke (fuel : nat) : Agent -> Message -> ToolMode ->
                                  M BState (Agent * Message) :=
  invoke_with (_run fuel).

Definition chat (fuel : nat) : Agent -> string -> option ToolMode ->
                               M BState (Agent * string) :=
  chat_with (_run fuel).

(** No value of the tool map is a sub-agent tool. *)
Definition plain_only (tool_map : PyDict.t AnyTool) : Prop :=
  Forall (fun entry => exists tool : Tool, snd entry = inl tool) tool_map.

End Delegation.

Arguments Agent BState : clear implicits.
Arguments Loop BState : clear implicits.
Arguments Turn BState : clear implicits.

End Delegation.

(** A tool map of plain tools, as a tool map that can hold sub-agent tools. *)
Definition plain_tools (tool_map : PyDict.t Tool)
  : PyDict.t Delegation.AnyTool :=
  map (fun entry => (fst entry, inl (snd entry))) tool_map.

(** What an agent is without its sub-agent tools: the agent of the first
    part, with the tool objects as a backend gets them. *)
Definition forget {BState : Type} (self : Delegation.Agent BState)
  : Agent BState :=
  mkAgent (Delegation.llm self) (Delegation.name self)
    (Delegation.system_prompt self)
    (map (fun entry => (fst entry, Delegation.described (snd entry)))
       (Delegation.tool_map self))
    (Delegation.max_iterations self) (Delegation.allow_poking self)
    (Delegation.default_tool_mode self) (Delegation.history self)
    (Delegation.hook_map self).

(** An agent of the first part among agents that can delegate. *)
Definition of_plain {BState : Type} (self : Agent BState)
  : Delegation.Agent BState :=
  Delegation.mkAgent (llm self) (name self) (system_prompt self)
    (plain_tools (tool_map self)) (max_iterations self) (allow_poking self)
    (default_tool_mode self) (history self) [] (hook_map self) None.

(** ** Scenario: an agent that delegates to itself *)

(** A backend that answers every request by delegating to "Loop". *)
Definition delegating_backend : LLM Script :=
  insistent 9 default_parameters
    (ToolMessage MODEL [mkToolCall "call-1" "Loop" [("task", VStr "again")]] []).

Definition loop_agent_alone : Delegation.Agent Script :=
  Delegation.mkAgent delegating_backend "Loop" "You delegate." [] 3 true AUTO
    0%nat [] ∅ None.

(** [loop.add_sub_agent(loop)]: the agent is its own sub-agent. *)
Definition loop_agent : Delegation.Agent Script :=
  Delegation.add_sub_agent loop_agent_alone
    (Delegation.as_subagent 0%nat loop_agent_alone None None).

Definition loop_agents : Delegation.AgentId -> Delegation.Agent Script :=
  fun _ => loop_agent.

Definition python_type_error (args : PyDict.t Value) : Exn :=
  OtherException "TypeError" "deligate() got unexpected arguments".

(** ** Scenarios with tools that are functions of their arguments *)

(** A backend that asks for [add(2, 3)] when the last message is a request
    of the user, and answers "5" to anything else. *)
Definition two_step : LLM Script :=
  mkLLM 10 default_parameters
    (fun _ messages _ _ script =>
       (inl (match last messages with
             | Some (TextMessage USER _) => ToolMessage MODEL [call_add_2_3] []
             | _ => TextMessage MODEL "5"
             end), script)).


(** ** The shape of JSON texts

    What the read-back of [MiniJson] is stated with: the nesting of a value,
    the text of one field, what may follow a number, and the JSON functions
    that answer as the reference does. *)

Module JsonShape.
Import MiniJson.









End JsonShape.






(** * Proofs *)

(** ** Tool execution: hooks and unknown tools *)

Lemma run_pre_hooks_fold (hooks : list Hook) (call : ToolCall) :
  run_pre_hooks hooks call = transformed_call (pre_hooks_in hooks) call.
Proof.
  revert call. induction hooks as [|[f|g] hooks IH]; intros call; simpl.
  - reflexivity.
  - destruct (f call); apply IH.
  - apply IH.
Qed.

Lemma run_post_hooks_fold (hooks : list Hook) (call : ToolCall)
    (result : ExecutionResult) :
  run_post_hooks hooks call result
  = transformed_result (post_hooks_in hooks) call result.
Proof.
  revert result. induction hooks as [|[f|g] hooks IH]; intros result; simpl.
  - reflexivity.
  - apply IH.
  - destruct (g call result); apply IH.
Qed.

Lemma guarded_execution_outcome (call : ToolCall) (tool_map : PyDict.t Tool) :
  guarded_execution call tool_map = invocation_outcome call tool_map.
Proof.
  unfold guarded_execution, invocation_outcome, _execute_tool_raw,
    unknown_tool_failure.
  destruct (PyDict.get tool_map (tc_name call)) as [tool|]; [|reflexivity].
  destruct (tool_function tool (tc_args call)); reflexivity.
Qed.

Lemma execute_tool_hooked {BState : Type} (self : Agent BState)
    (call : ToolCall) (tool_map : PyDict.t Tool) :
  _execute_tool self call tool_map
  = hooked_execution (pre_hooks_of self (tc_name call))
      (post_hooks_of self (tc_name call)) call tool_map.
Proof.
  unfold _execute_tool, hooked_execution, pre_hooks_of, post_hooks_of.
  rewrite run_pre_hooks_fold, run_post_hooks_fold, guarded_execution_outcome.
  reflexivity.
Qed.

Lemma hooks_after_add {BState : Type} (self : Agent BState) (tool tool' : string)
    (pre : option PreCallable) (post : option PostCallable) :
  default [] (hook_map (add_tool_hook self tool pre post) !! tool')
  = default [] (hook_map self !! tool')
    ++ (if String.eqb tool tool'
        then match pre with Some f => [PreHook f] | None => [] end
             ++ match post with Some g => [PostHook g] | None => [] end
        else []).
Proof.
  unfold add_tool_hook; simpl. rewrite lookup_insert.
  destruct (String.eqb_spec tool tool') as [->|Hne].
  - rewrite decide_True by reflexivity. reflexivity.
  - rewrite decide_False by assumption. rewrite app_nil_r. reflexivity.
Qed.

Lemma pre_hooks_after_registration {BState : Type} (regs : list Registration) :
  forall (self : Agent BState) (tool : string),
    pre_hooks_of (register_hooks self regs) tool
    = pre_hooks_of self tool ++ pre_hooks_registered regs tool.
Proof.
  unfold pre_hooks_of, pre_hooks_registered, pre_hooks_in.
  induction regs as [|r regs IH]; intros self tool; simpl.
  - rewrite app_nil_r. reflexivity.
  - unfold register_hooks in *; simpl. rewrite IH, hooks_after_add, omap_app.
    rewrite <- app_assoc. f_equal.
    destruct (String.eqb (reg_tool_name r) tool); [|reflexivity].
    destruct (reg_pre r), (reg_post r); reflexivity.
Qed.

Lemma post_hooks_after_registration {BState : Type} (regs : list Registration) :
  forall (self : Agent BState) (tool : string),
    post_hooks_of (register_hooks self regs) tool
    = post_hooks_of self tool ++ post_hooks_registered regs tool.
Proof.
  unfold post_hooks_of, post_hooks_registered, post_hooks_in.
  induction regs as [|r regs IH]; intros self tool; simpl.
  - rewrite app_nil_r. reflexivity.
  - unfold register_hooks in *; simpl. rewrite IH, hooks_after_add, omap_app.
    rewrite <- app_assoc. f_equal.
    destruct (String.eqb (reg_tool_name r) tool); [|reflexivity].
    destruct (reg_pre r), (reg_post r); reflexivity.
Qed.

Lemma silent_pre_hooks (call : ToolCall) (result : ExecutionResult)
    (hooks : list Hook) :
  Forall (hook_returns_nothing call result) hooks ->
  run_pre_hooks hooks call = call.
Proof.
  induction 1 as [|[f|g] hooks Hh _ IH]; simpl; try assumption.
  - reflexivity.
  - simpl in Hh. rewrite Hh. assumption.
Qed.

Lemma silent_post_hooks (call : ToolCall) (result : ExecutionResult)
    (hooks : list Hook) :
  Forall (hook_returns_nothing call result) hooks ->
  run_post_hooks hooks call result = result.
Proof.
  induction 1 as [|[f|g] hooks Hh _ IH]; simpl; try assumption.
  - reflexivity.
  - simpl in Hh. rewrite Hh. assumption.
Qed.

(** C8. Every tool execution applies the pre-hooks held for the call's tool
    name in registration order, each replacing the call or leaving it when
    it returns nothing; the callable found under the final call's name is
    invoked with the final call's arguments; the post-hooks are then applied
    in registration order, each replacing the result or leaving it; and the
    final result is the one recorded in the [ToolResult] of the call. *)
Theorem hooks_apply_in_registration_order {BState : Type}
    (self : Agent BState) (regs : list Registration)
    (calls : list ToolCall) (tool_map : PyDict.t Tool) :
  let agent := register_hooks self regs in
  (forall tool,
      pre_hooks_of agent tool
      = pre_hooks_of self tool ++ pre_hooks_registered regs tool) /\
  (forall tool,
      post_hooks_of agent tool
      = post_hooks_of self tool ++ post_hooks_registered regs tool) /\
  (forall call,
      _execute_tool agent call tool_map
      = hooked_execution (pre_hooks_of agent (tc_name call))
          (post_hooks_of agent (tc_name call)) call tool_map) /\
  _execute_all_tools agent calls tool_map
  = map (fun call =>
           mkToolResult (tc_id call) (tc_name call)
             (hooked_execution (pre_hooks_of agent (tc_name call))
                (post_hooks_of agent (tc_name call)) call tool_map))
      calls.
Proof.
  intros agent. repeat split.
  - intros tool. apply pre_hooks_after_registration.
  - intros tool. apply post_hooks_after_registration.
  - intros call. apply execute_tool_hooked.
  - unfold _execute_all_tools. apply map_ext. intros call.
    rewrite execute_tool_hooked. reflexivity.
Qed.

(** C7 (amended). For a tool call whose name is absent from the active tool
    map, when the hooks registered under that name return nothing for it,
    tool execution returns the failure result that names the tool and lists
    the available tool names; it is a value, nothing is raised. *)
Theorem unknown_tool_is_reported {BState : Type} (self : Agent BState)
    (call : ToolCall) (tool_map : PyDict.t Tool) :
  PyDict.get tool_map (tc_name call) = None ->
  Forall (hook_returns_nothing call (unknown_tool_failure (tc_name call) tool_map))
    (default [] (hook_map self !! tc_name call)) ->
  _execute_tool self call tool_map
  = mkExecutionResult false VNone
      (Some ("Tool '" ++ tc_name call ++ "' not found, available tools: "
             ++ String.concat ", " (PyDict.keys tool_map))%string).
Proof.
  intros Habsent Hsilent. unfold _execute_tool.
  rewrite (silent_pre_hooks _ _ _ Hsilent).
  rewrite guarded_execution_outcome. unfold invocation_outcome.
  rewrite Habsent.
  rewrite (silent_post_hooks _ _ _ Hsilent). reflexivity.
Qed.

(** ** The monad *)

Lemma bind_returned {BState A B : Type} (c : M BState A) (k : A -> M BState B)
    (w w' : World BState) (a : A) :
  c w = (Returned a, w') -> bind c k w = k a w'.
Proof. unfold bind. intros ->. reflexivity. Qed.


Lemma bind_out_of_fuel {BState A B : Type} (c : M BState A)
    (k : A -> M BState B) (w w' : World BState) :
  c w = (OutOfFuel, w') -> bind c k w = (OutOfFuel, w').
Proof. unfold bind. intros ->. reflexivity. Qed.

Lemma quiet_ret {BState A : Type} (a : A) : quiet (@ret BState A a).
Proof. intros w. repeat split. Qed.

Lemma quiet_raise {BState A : Type} (e : Exn) : quiet (@raise BState A e).
Proof. intros w. repeat split. Qed.

Lemma quiet_bind {BState A B : Type} (c : M BState A) (k : A -> M BState B) :
  quiet c -> (forall a, quiet (k a)) -> quiet (bind c k).
Proof.
  intros Hc Hk w. unfold bind. specialize (Hc w).
  destruct (c w) as [[a| |] w1]; simpl in *; try assumption.
  destruct (Hk a w1) as (H1 & H2 & H3 & H4).
  destruct Hc as (G1 & G2 & G3 & G4).
  repeat split; congruence.
Qed.

Lemma quiet_get_world {BState : Type} : quiet (@get_world BState).
Proof. intros w. repeat split. Qed.

Lemma quiet_datetime_now {BState : Type} : quiet (@datetime_now BState).
Proof. intros w. repeat split. Qed.

Lemma quiet_time_sleep {BState : Type} (d : Q) : quiet (@time_sleep BState d).
Proof. intros w. unfold time_sleep. destruct (Qltb d 0); repeat split. Qed.

Lemma quiet_random_uniform {BState : Type} : quiet (@random_uniform_0_1 BState).
Proof. intros w. repeat split. Qed.

Lemma quiet_set_last_request_time {BState : Type} (t : Q) :
  quiet (@set_last_request_time BState t).
Proof. intros w. repeat split. Qed.

Lemma quiet_get_last_request_time {BState : Type} :
  quiet (@get_last_request_time BState).
Proof.
  intros w. unfold get_last_request_time.
  destruct (last_request_time w); repeat split.
Qed.

Lemma quiet_call_inferModel {BState : Type} (self : LLM BState) sp msgs tools
    mode t :
  quiet (call_inferModel self sp msgs tools mode t).
Proof.
  intros w. unfold call_inferModel.
  destruct (_inferModel self sp msgs tools mode (backend w)); repeat split.
Qed.

Create HintDb quiet.

#[local] Hint Resolve quiet_ret quiet_raise quiet_get_world quiet_datetime_now
  quiet_time_sleep quiet_random_uniform quiet_set_last_request_time
  quiet_get_last_request_time quiet_call_inferModel : quiet.

Ltac quiet_steps :=
  repeat first
    [ progress auto with quiet
    | apply quiet_bind; [|intros ?]
    | match goal with
      | |- quiet (match ?x with _ => _ end) => destruct x
      end ].

Lemma quiet_rate_limit {BState : Type} : quiet (@rate_limit BState).
Proof. unfold rate_limit. quiet_steps. Qed.

Lemma quiet_infer_attempts {BState : Type} (self : LLM BState) sp msgs tools
    mode (remaining : nat) :
  forall retries, quiet (infer_attempts self sp msgs tools mode remaining retries).
Proof.
  induction remaining as [|remaining IH]; intros retries; simpl.
  - auto with quiet.
  - quiet_steps.
Qed.

Lemma quiet_infer {BState : Type} (self : LLM BState) sp msgs tools mode :
  quiet (_infer self sp msgs tools mode).
Proof.
  unfold _infer. apply quiet_bind; [apply quiet_rate_limit|].
  intros _. apply quiet_infer_attempts.
Qed.

(** [generate] records one span and leaves the heap alone. *)
Lemma generate_frame {BState : Type} (self : LLM BState) sp msgs tools mode
    (w : World BState) :
  heap (snd (generate self sp msgs tools mode w)) = heap w /\
  spans (snd (generate self sp msgs tools mode w))
  = spans w ++ [mkLLMSpan (map tool_name tools) mode].
Proof.
  unfold generate, bind at 1, set_span_attributes, modify.
  destruct (last msgs); [|split; reflexivity].
  destruct (first_mlflow_failure msgs); [split; reflexivity|].
  unfold bind.
  destruct (quiet_infer self sp msgs tools mode
              (note_span (mkLLMSpan (map tool_name tools) mode) w))
    as (Hh & Hs & _).
  destruct (_infer self sp msgs tools mode _) as [[reply| |] w1]; simpl in *;
    try (split; assumption).
  destruct (getMLFlowMessage reply); split; assumption.
Qed.

(** ** The orchestration loop *)

(** One level of [_run], with the bookkeeping of the monad unfolded. *)
Lemma run_step {BState : Type} (fuel : nat) (self : Agent BState) (it : Z)
    (l : loc) (mode : ToolMode) (tm : PyDict.t Tool) (stop : Message -> bool)
    (w : World BState) :
  _run (S fuel) self it l mode tm stop w =
  if (it <=? 0)%Z then (Raised iteration_exhaustion, w)
  else
    let active := fst (prepare_tools self mode tm) in
    let next := snd (prepare_tools self mode tm) in
    match generate (llm self) (system_prompt self) (items_at l w)
            (PyDict.values active) mode w with
    | (Returned response, w1) =>
        if carries_escape response then _run fuel self it l AUTO tm stop w1
        else if stop response then (Returned l, append_item l response w1)
        else
          match response with
          | ToolMessage _ calls _ =>
              let results :=
                ToolMessage USER [] (_execute_all_tools self calls active) in
              let w2 := append_item l results (append_item l response w1) in
              if stop results then (Returned l, w2)
              else _run fuel self (it - 1) l next tm stop w2
          | TextMessage _ _ =>
              _run fuel self (it - 1) l next tm stop (append_item l response w1)
          end
    | (Raised e, w1) => (Raised e, w1)
    | (OutOfFuel, w1) => (OutOfFuel, w1)
    end.
Proof.
  cbn [_run]. destruct (it <=? 0)%Z; [reflexivity|].
  destruct (prepare_tools self mode tm) as [active next]. cbn [fst snd].
  unfold bind at 1. unfold list_read at 1. unfold bind at 1.
  destruct (generate (llm self) (system_prompt self) (items_at l w)
              (PyDict.values active) mode w) as [[response| |] w1];
    try reflexivity.
  destruct (carries_escape response); [reflexivity|].
  unfold bind, list_append, modify, ret.
  destruct (stop response) eqn:Hstop; [reflexivity|].
  destruct response as [role text|role calls results].
  - rewrite Hstop. reflexivity.
  - cbn beta iota zeta.
    destruct (stop (ToolMessage USER [] (_execute_all_tools self calls active)));
      reflexivity.
Qed.

Lemma append_item_other {BState : Type} (l l' : loc) (m : Message)
    (w : World BState) :
  l' <> l -> heap (append_item l m w) !! l' = heap w !! l'.
Proof. intros Hne. unfold append_item; simpl. apply lookup_insert_ne. auto. Qed.

Lemma append_item_same {BState : Type} (l : loc) (m : Message)
    (w : World BState) :
  items_at l (append_item l m w) = items_at l w ++ [m].
Proof. unfold items_at, append_item; simpl. rewrite lookup_insert_eq. reflexivity. Qed.

(** [_run] changes no list object other than the one it was given. *)
Lemma run_touches_only {BState : Type} (fuel : nat) :
  forall (self : Agent BState) it l mode tm stop,
    touches_only l (_run fuel self it l mode tm stop).
Proof.
  induction fuel as [|fuel IH]; intros self it l mode tm stop w l' Hne.
  - reflexivity.
  - rewrite run_step. destruct (it <=? 0)%Z; [reflexivity|]. cbn zeta.
    pose proof (generate_frame (llm self) (system_prompt self) (items_at l w)
                  (PyDict.values (fst (prepare_tools self mode tm))) mode w)
      as [Hheap _].
    destruct (generate _ _ _ _ _ w) as [[response| |] w1]; simpl in Hheap;
      try (simpl; rewrite Hheap; reflexivity).
    destruct (carries_escape response).
    { rewrite IH by assumption. rewrite Hheap. reflexivity. }
    destruct (stop response).
    { cbn [snd]. rewrite append_item_other by assumption. rewrite Hheap.
      reflexivity. }
    destruct response as [role text|role calls results].
    + rewrite IH by assumption.
      rewrite append_item_other by assumption. rewrite Hheap. reflexivity.
    + destruct (stop _).
      * cbn [snd]. rewrite !append_item_other by assumption. rewrite Hheap.
        reflexivity.
      * rewrite IH by assumption.
        rewrite !append_item_other by assumption. rewrite Hheap. reflexivity.
Qed.

(** Once the tool mode is AUTO, every later call of the loop is made in AUTO
    mode. *)
Lemma run_auto_spans {BState : Type} (fuel : nat) :
  forall (self : Agent BState) it l tm stop w,
  exists rest,
    spans (snd (_run fuel self it l AUTO tm stop w)) = spans w ++ rest /\
    Forall (fun sp => span_tool_mode sp = AUTO) rest.
Proof.
  induction fuel as [|fuel IH]; intros self it l tm stop w.
  - exists []. split; [symmetry; apply app_nil_r|constructor].
  - rewrite run_step. destruct (it <=? 0)%Z.
    { exists []. split; [symmetry; apply app_nil_r|constructor]. }
    cbn [prepare_tools fst snd]. cbn zeta.
    pose proof (generate_frame (llm self) (system_prompt self) (items_at l w)
                  (PyDict.values tm) AUTO w) as [_ Hspans].
    set (sp := mkLLMSpan (map tool_name (PyDict.values tm)) AUTO) in *.
    assert (Hone : forall w' : World BState,
               (exists rest, spans w' = spans (snd (generate (llm self)
                   (system_prompt self) (items_at l w) (PyDict.values tm) AUTO w))
                   ++ rest /\ Forall (fun sp => span_tool_mode sp = AUTO) rest) ->
               exists rest, spans w' = spans w ++ rest /\
                 Forall (fun sp => span_tool_mode sp = AUTO) rest).
    { intros w' (rest & Hw' & Hrest). exists (sp :: rest). split.
      - rewrite Hw', Hspans, <- app_assoc. reflexivity.
      - constructor; [reflexivity|assumption]. }
    destruct (generate _ _ _ _ _ w) as [[response| |] w1]; simpl in Hone;
      try (apply Hone; exists []; split; [symmetry; apply app_nil_r|constructor]).
    destruct (carries_escape response); [apply Hone, IH|].
    destruct (stop response).
    { apply Hone. exists []. split; [symmetry; apply app_nil_r|constructor]. }
    destruct response as [role text|role calls results].
    + apply Hone. apply (IH self (it - 1)%Z l tm stop (append_item l _ w1)).
    + destruct (stop _).
      * apply Hone. exists []. split; [symmetry; apply app_nil_r|constructor].
      * apply Hone.
        apply (IH self (it - 1)%Z l tm stop (append_item l _ (append_item l _ w1))).
Qed.

(** More fuel does not change a run that ended within its fuel. *)
Lemma run_more_fuel {BState : Type} (fuel : nat) :
  forall (self : Agent BState) it l mode tm stop w fuel',
    fst (_run fuel self it l mode tm stop w) <> OutOfFuel ->
    (fuel <= fuel')%nat ->
    _run fuel' self it l mode tm stop w = _run fuel self it l mode tm stop w.
Proof.
  induction fuel as [|fuel IH]; intros self it l mode tm stop w fuel' Hend Hle.
  - exfalso. apply Hend. reflexivity.
  - destruct fuel' as [|fuel']; [lia|].
    rewrite run_step in Hend. rewrite !run_step.
    destruct (it <=? 0)%Z; [reflexivity|]. cbn zeta in *.
    destruct (generate _ _ _ _ _ w) as [[response| |] w1]; try reflexivity.
    destruct (carries_escape response); [apply IH; [assumption|lia]|].
    destruct (stop response); [reflexivity|].
    destruct response as [role text|role calls results].
    + apply IH; [assumption|lia].
    + destruct (stop _); [reflexivity|]. apply IH; [assumption|lia].
Qed.

(** C3. When the backend's response is a tool-call message whose calls
    include [end_tool_mode], the loop starts over with the same iteration
    count, the tool mode AUTO and the tool map it was given (the one without
    the synthetic escape tool); nothing has been appended to the history. *)
Theorem escape_retries_same_iteration {BState : Type} (fuel : nat)
    (self : Agent BState) (iterations : Z) (messages : loc)
    (tool_mode : ToolMode) (tool_map : PyDict.t Tool)
    (stop_criteria : Message -> bool) (w w1 : World BState)
    (response : Message) :
  (0 < iterations)%Z ->
  generate (llm self) (system_prompt self) (items_at messages w)
    (PyDict.values (fst (prepare_tools self tool_mode tool_map))) tool_mode w
  = (Returned response, w1) ->
  carries_escape response = true ->
  _run (S fuel) self iterations messages tool_mode tool_map stop_criteria w
  = _run fuel self iterations messages AUTO tool_map stop_criteria w1
  /\ heap w1 = heap w.
Proof.
  intros Hpos Hgen Hesc. split.
  - rewrite run_step. destruct (Z.leb_spec iterations 0); [lia|].
    cbn zeta. rewrite Hgen, Hesc. reflexivity.
  - pose proof (generate_frame (llm self) (system_prompt self)
                  (items_at messages w)
                  (PyDict.values (fst (prepare_tools self tool_mode tool_map)))
                  tool_mode w) as [Hheap _].
    rewrite Hgen in Hheap. exact Hheap.
Qed.

(** C2 (amended). When the tool mode is FORCE and the backend lacks the
    escape convention, the call of this iteration is still made in FORCE
    mode, with the tool map as it is; every later call of the loop is made
    in AUTO mode. *)
Theorem force_without_escape_is_downgraded_afterwards {BState : Type}
    (fuel : nat) (self : Agent BState) (iterations : Z) (messages : loc)
    (tool_map : PyDict.t Tool) (stop_criteria : Message -> bool)
    (w : World BState) :
  (0 < iterations)%Z ->
  end_tool_mode (parameters (llm self)) = false ->
  exists later,
    spans (snd (_run (S fuel) self iterations messages FORCE tool_map
                  stop_criteria w))
    = spans w ++ mkLLMSpan (map tool_name (PyDict.values tool_map)) FORCE :: later
    /\ Forall (fun sp => span_tool_mode sp = AUTO) later.
Proof.
  intros Hpos Hno. rewrite run_step. destruct (Z.leb_spec iterations 0); [lia|].
  unfold prepare_tools. rewrite Hno. cbn [fst snd]. cbn zeta.
  pose proof (generate_frame (llm self) (system_prompt self)
                (items_at messages w) (PyDict.values tool_map) FORCE w)
    as [_ Hspans].
  set (sp := mkLLMSpan (map tool_name (PyDict.values tool_map)) FORCE) in *.
  assert (Hone : forall w' : World BState,
             (exists rest, spans w' = spans (snd (generate (llm self)
                 (system_prompt self) (items_at messages w)
                 (PyDict.values tool_map) FORCE w)) ++ rest /\
                 Forall (fun sp => span_tool_mode sp = AUTO) rest) ->
             exists later, spans w' = spans w ++ sp :: later /\
               Forall (fun sp => span_tool_mode sp = AUTO) later).
  { intros w' (rest & Hw' & Hrest). exists rest. split; [|assumption].
    rewrite Hw', Hspans, <- app_assoc. reflexivity. }
  destruct (generate _ _ _ _ _ w) as [[response| |] w1]; simpl in Hone;
    try (apply Hone; exists []; split; [symmetry; apply app_nil_r|constructor]).
  destruct (carries_escape response); [apply Hone, run_auto_spans|].
  destruct (stop_criteria response).
  { apply Hone. exists []. split; [symmetry; apply app_nil_r|constructor]. }
  destruct response as [role text|role calls results].
  - apply Hone.
    apply (run_auto_spans fuel self (iterations - 1)%Z messages tool_map
             stop_criteria (append_item messages _ w1)).
  - destruct (stop_criteria _).
    + apply Hone. exists []. split; [symmetry; apply app_nil_r|constructor].
    + apply Hone.
      apply (run_auto_spans fuel self (iterations - 1)%Z messages tool_map
               stop_criteria (append_item messages _ (append_item messages _ w1))).
Qed.

(** ** The backend wrapper *)

Lemma Qltb_lt (x y : Q) : Qltb x y = true <-> (x < y)%Q.
Proof.
  unfold Qltb. rewrite negb_true_iff, <- not_true_iff_false, Qle_bool_iff.
  split; [apply Qnot_le_lt|apply Qlt_not_le].
Qed.

Lemma Qltb_ge (x y : Q) : Qltb x y = false <-> (y <= x)%Q.
Proof. unfold Qltb. rewrite negb_false_iff. apply Qle_bool_iff. Qed.

(** The wait before the first attempt: it never raises, it leaves the trace
    and the backend alone, and afterwards the last request lies at least one
    second back. *)
Lemma rate_limit_returns {BState : Type} (w : World BState) :
  exists w',
    rate_limit w = (Returned tt, w') /\
    requests w' = requests w /\ backend w' = backend w /\
    draws w' = draws w /\
    (exists t, last_request_time w' = Some t /\ (t + 1 <= clock w')%Q) /\
    (forall t0, last_request_time w = Some t0 -> last_request_time w' = Some t0) /\
    (exists wait, slept w' = slept w ++ wait /\ (length wait <= 1)%nat).
Proof.
  unfold rate_limit, bind, get_world.
  destruct (last_request_time w) as [t0|] eqn:Hlast.
  - unfold ret, datetime_now, get_last_request_time.
    cbn [observe_clock last_request_time clock]. rewrite Hlast.
    destruct (Qltb (clock w + drift w (reads w) - t0) 1) eqn:Hsoon.
    + unfold time_sleep.
      destruct (Qltb (1 - (clock w + drift w (reads w) - t0)) 0) eqn:Hneg.
      { apply Qltb_lt in Hsoon, Hneg. lra. }
      eexists. split; [reflexivity|]. cbn. rewrite Hlast.
      repeat split; auto.
      * exists t0. split; [reflexivity|]. lra.
      * eexists [_]. split; [reflexivity|]. simpl. lia.
    + eexists. split; [reflexivity|]. cbn. rewrite Hlast.
      apply Qltb_ge in Hsoon. repeat split; auto.
      * exists t0. split; [reflexivity|]. lra.
      * exists []. split; [symmetry; apply app_nil_r|]. simpl. lia.
  - unfold datetime_now, set_last_request_time, modify, get_last_request_time.
    cbn [observe_clock note_request_time last_request_time clock drift reads].
    set (t := (clock w + drift w (reads w))%Q).
    set (now := (t + drift w (S (reads w)))%Q).
    destruct (Qltb (now - (t - 10)) 1) eqn:Hsoon.
    + unfold time_sleep.
      destruct (Qltb (1 - (now - (t - 10))) 0) eqn:Hneg.
      { apply Qltb_lt in Hsoon, Hneg. lra. }
      eexists. split; [reflexivity|]. cbn.
      repeat split; auto; try discriminate.
      * eexists. split; [reflexivity|]. fold t. fold now. lra.
      * eexists [_]. split; [reflexivity|]. simpl. lia.
    + eexists. split; [reflexivity|]. cbn.
      apply Qltb_ge in Hsoon. repeat split; auto; try discriminate.
      * eexists. split; [reflexivity|]. fold t. fold now. lra.
      * exists []. split; [symmetry; apply app_nil_r|]. simpl. lia.
Qed.

(** One attempt of the retry loop. *)
Lemma infer_attempts_step {BState : Type} (self : LLM BState) sp msgs tools
    mode (remaining retries : nat) (w : World BState) :
  infer_attempts self sp msgs tools mode (S remaining) retries w =
  let t := (clock w + drift w (reads w))%Q in
  let reply := fst (_inferModel self sp msgs tools mode (backend w)) in
  let b := snd (_inferModel self sp msgs tools mode (backend w)) in
  let w1 :=
    note_request (mkPhysicalCall t (llm_instance self) mode reply) b
      (note_request_time t (observe_clock w)) in
  if is_retry_later reply then
    let delay := backoff_delay retries (rng w (draws w)) in
    if Qltb delay 0 then
      (Raised (ValueError "sleep length must be non-negative"), draw w1)
    else
      infer_attempts self sp msgs tools mode remaining (S retries)
        (sleep_for delay (draw w1))
  else (passed_on reply, w1).
Proof.
  cbn [infer_attempts].
  unfold bind at 1. unfold datetime_now at 1.
  unfold bind at 1. unfold set_last_request_time at 1. unfold modify at 1.
  unfold bind at 1. unfold call_inferModel at 1.
  cbn [observe_clock note_request_time clock backend].
  destruct (_inferModel self sp msgs tools mode (backend w)) as [[m|e] b].
  - reflexivity.
  - destruct e; try reflexivity.
    cbn [fst snd is_retry_later is_RetryLater].
    unfold bind at 1. unfold random_uniform_0_1 at 1.
    unfold bind at 1. unfold time_sleep at 1.
    unfold backoff_delay, base_delay.
    cbn [note_request draw rng draws].
    destruct (Qltb _ 0); reflexivity.
Qed.

(** When the backend answers the first attempt, [_infer] returns the answer
    after one call. *)
Lemma infer_first_answer {BState : Type} (self : LLM BState) sp msgs tools mode
    (w : World BState) (m : Message) (b' : BState) :
  _inferModel self sp msgs tools mode (backend w) = (inl m, b') ->
  exists w' c,
    _infer self sp msgs tools mode w = (Returned m, w') /\
    requests w' = requests w ++ [c] /\ pc_reply c = inl m /\ backend w' = b'.
Proof.
  intros Hreply. unfold _infer.
  destruct (rate_limit_returns w) as (w0 & Hrl & Hreq & Hback & _).
  rewrite (bind_returned _ _ _ _ _ Hrl).
  unfold max_retries. rewrite infer_attempts_step. cbn zeta.
  rewrite Hback, Hreply. cbn [fst snd is_retry_later passed_on].
  eexists _, _. split; [reflexivity|].
  cbn [note_request requests backend note_request_time observe_clock pc_reply].
  rewrite Hreq. auto.
Qed.

Lemma first_mlflow_failure_app (a b : list Message) :
  first_mlflow_failure (a ++ b) = None <->
  first_mlflow_failure a = None /\ first_mlflow_failure b = None.
Proof.
  induction a as [|m a IH]; simpl.
  - tauto.
  - destruct (getMLFlowMessage m); [|exact IH].
    split; [discriminate|intros [H _]; discriminate].
Qed.


(** [generate] when the backend answers the first attempt. *)
Lemma generate_answers {BState : Type} (self : LLM BState) sp msgs tools mode
    (w : World BState) (m : Message) (b' : BState) :
  msgs <> [] ->
  first_mlflow_failure msgs = None ->
  _inferModel self sp msgs tools mode (backend w) = (inl m, b') ->
  getMLFlowMessage m = None ->
  exists w',
    generate self sp msgs tools mode w = (Returned m, w') /\
    heap w' = heap w /\
    spans w' = spans w ++ [mkLLMSpan (map tool_name tools) mode] /\
    length (requests w') = S (length (requests w)).
Proof.
  intros Hne Hok Hreply Hm.
  pose proof (generate_frame self sp msgs tools mode w) as [Hheap Hspans].
  revert Hheap Hspans. unfold generate.
  unfold bind at 1 3 5. unfold set_span_attributes, modify.
  destruct (last msgs) eqn:Hlast; [|apply last_None in Hlast; contradiction].
  rewrite Hok.
  destruct (infer_first_answer self sp msgs tools mode
              (note_span (mkLLMSpan (map tool_name tools) mode) w) m b' Hreply)
    as (w' & c & Hinf & Hreq & _).
  rewrite (bind_returned _ _ _ _ _ Hinf). rewrite Hm. unfold ret. cbn [snd].
  intros Hheap Hspans. exists w'. repeat split; try assumption.
  rewrite Hreq, length_app. simpl. lia.
Qed.

(** ** Exhausting the iteration budget *)

Lemma spans_append_item {BState : Type} (l : loc) (m : Message)
    (w : World BState) :
  spans (append_item l m w) = spans w /\ requests (append_item l m w) = requests w.
Proof. split; reflexivity. Qed.



(** ** Structured answers *)

(** C10. [structuredAnswer] works on a copy of the agent's history: whatever
    its outcome, and so when it returns, the agent's own history holds
    exactly the messages it held before the call. *)
Theorem structuredAnswer_keeps_history {BState : Type} (fuel : nat)
    (self : Agent BState) (user_input : string)
    (desired_output : PyDict.t Value -> Value + Exn) (w : World BState) :
  is_Some (heap w !! history self) ->
  heap (snd (structuredAnswer fuel self user_input desired_output w))
    !! history self
  = heap w !! history self.
Proof.
  intros Hlive. unfold structuredAnswer.
  unfold bind at 1. unfold list_copy at 1.
  set (copy := fresh (dom (heap w))).
  assert (Hne : history self <> copy).
  { intros Heq. apply (is_fresh (dom (heap w))). fold copy. rewrite <- Heq.
    apply elem_of_dom. assumption. }
  unfold bind at 1. unfold list_append at 1. unfold modify at 1.
  set (w1 := append_item copy _ _).
  assert (Hw1 : heap w1 !! history self = heap w !! history self).
  { unfold w1. rewrite append_item_other by assumption.
    cbn [set_heap heap]. apply lookup_insert_ne. auto. }
  unfold bind at 1.
  pose proof (run_touches_only fuel self 1%Z copy FORCE
                (PyDict.set PyDict.empty "set_output"
                   (mkTool "set_output"
                      "use this function to reply in the desired format" None
                      (fun kwargs => desired_output kwargs)))
                set_output_given w1 (history self) Hne) as Hrun.
  cbn [tool_name] in *.
  destruct (_run fuel self 1%Z copy FORCE _ set_output_given w1)
    as [[l| |] w2]; cbn [snd] in Hrun; cbn [snd];
    try (rewrite Hrun; exact Hw1).
  unfold bind, list_read.
  destruct (last (items_at l w2)) as [last_message|]; cbn [snd];
    [|unfold raise; cbn [snd]; rewrite Hrun; exact Hw1].
  destruct (message_get last_message "set_output"); unfold ret, raise;
    cbn [snd]; rewrite Hrun; exact Hw1.
Qed.

(** ** Retries with backoff *)

Lemma backoff_delay_long (k : nat) (jitter : Q) :
  (0 <= jitter)%Q -> (5 <= backoff_delay k jitter)%Q.
Proof.
  intros Hj. unfold backoff_delay.
  assert (H : (5 <= inject_Z (5 * 2 ^ Z.of_nat k))%Q).
  { change 5%Q with (inject_Z 5). rewrite <- Zle_Qle.
    assert (0 < 2 ^ Z.of_nat k)%Z by (apply Z.pow_pos_nonneg; lia). lia. }
  lra.
Qed.

Lemma backoff_never_negative (k : nat) (jitter : Q) :
  (0 <= jitter)%Q -> Qltb (backoff_delay k jitter) 0 = false.
Proof.
  intros Hj. apply Qltb_ge. pose proof (backoff_delay_long k jitter Hj). lra.
Qed.

Lemma backoff_delays_shift (retries k : nat) (rng : nat -> Q) (draws : nat) :
  backoff_delay retries (rng draws)
  :: map (fun i => backoff_delay (S retries + i) (rng (S draws + i)%nat)) (seq 0 k)
  = map (fun i => backoff_delay (retries + i) (rng (draws + i)%nat)) (seq 0 (S k)).
Proof.
  cbn [seq map]. rewrite !Nat.add_0_r. f_equal.
  rewrite <- seq_shift, map_map. apply map_ext. intros i.
  rewrite !Nat.add_succ_r. reflexivity.
Qed.

(** The retry loop: [k] is the number of RetryLater failures it met. *)
Lemma infer_attempts_policy {BState : Type} (self : LLM BState) sp msgs tools
    mode (remaining : nat) :
  forall (retries : nat) (w : World BState),
    uniform_01 w ->
    exists (k : nat) (new : list PhysicalCall),
      let r := infer_attempts self sp msgs tools mode remaining retries w in
      (k <= remaining)%nat /\
      requests (snd r) = requests w ++ new /\
      length new = Nat.min (S k) remaining /\
      (forall i c, (i < k)%nat -> new !! i = Some c ->
                   is_retry_later (pc_reply c) = true) /\
      slept (snd r)
      = slept w
        ++ map (fun i => backoff_delay (retries + i) (rng w (draws w + i)%nat))
             (seq 0 k) /\
      (k = remaining -> fst r = Raised (RuntimeError "Max retries exceeded")) /\
      (k < remaining ->
       exists c, new !! k = Some c /\ is_retry_later (pc_reply c) = false /\
                 fst r = passed_on (pc_reply c)).
Proof.
  induction remaining as [|remaining IH]; intros retries w Hrng.
  - exists 0%nat, []. cbn. rewrite !app_nil_r.
    repeat split; auto; try lia.
  - cbn zeta. rewrite infer_attempts_step. cbn zeta.
    set (t := (clock w + drift w (reads w))%Q).
    set (reply := fst (_inferModel self sp msgs tools mode (backend w))).
    set (b := snd (_inferModel self sp msgs tools mode (backend w))).
    set (c := mkPhysicalCall t (llm_instance self) mode reply).
    destruct (is_retry_later reply) eqn:Hretry.
    + rewrite backoff_never_negative by apply Hrng.
      set (w2 := sleep_for _ _).
      destruct (IH (S retries) w2) as (k & new & Hk & Hreq & Hlen & Hall & Hslept & Hmax & Hpass).
      { exact Hrng. }
      exists (S k), (c :: new). cbn zeta in *.
      split; [lia|]. split.
      { rewrite Hreq. unfold w2. cbn. rewrite <- app_assoc. reflexivity. }
      split; [cbn [length]; lia|]. split.
      { intros [|i] c' Hi Hc'; simpl in Hc'.
        - inversion Hc'; subst c'. exact Hretry.
        - apply (Hall i); [lia|assumption]. }
      split.
      { rewrite Hslept. unfold w2.
        cbn [sleep_for draw note_request note_request_time observe_clock
               slept rng draws].
        rewrite <- app_assoc. f_equal. apply backoff_delays_shift. }
      split.
      { intros Heq. apply Hmax. lia. }
      { intros Hlt. destruct Hpass as (c' & Hc' & Hno & Hout); [lia|].
        exists c'. auto. }
    + exists 0%nat, [c]. cbn [fst snd]. split; [lia|]. split; [reflexivity|].
      split; [simpl; lia|]. split; [intros; lia|]. split.
      { cbn. rewrite app_nil_r. reflexivity. }
      split; [discriminate|]. intros _. exists c. auto.
Qed.

(** C5. A RetryLater failure of the backend is retried, with at most 5
    attempts in all; after the failure of attempt [k] (from 0) the caller
    sleeps [5 * 2^k] plus a jitter from [[0, 1]]; when all 5 attempts fail
    that way, "Max retries exceeded" is raised; the first reply that is not
    a RetryLater failure ends the loop at once and is returned or raised as
    it is. [retried] counts the RetryLater failures, [wait] is the sleep of
    the rate limiter, if any. *)
Theorem infer_retries_with_backoff {BState : Type} (self : LLM BState)
    (systemprompt : string) (messages : list Message) (tools : list Tool)
    (tool_mode : ToolMode) (w : World BState) :
  uniform_01 w ->
  exists (retried : nat) (wait : list Q) (calls : list PhysicalCall),
    let r := _infer self systemprompt messages tools tool_mode w in
    (retried <= 5)%nat /\
    requests (snd r) = requests w ++ calls /\
    length calls = Nat.min (S retried) 5 /\
    (forall i c, (i < retried)%nat -> calls !! i = Some c ->
                 is_retry_later (pc_reply c) = true) /\
    slept (snd r)
    = slept w ++ wait
      ++ map (fun k => backoff_delay k (rng w (draws w + k)%nat)) (seq 0 retried) /\
    (length wait <= 1)%nat /\
    (forall k, (k < retried)%nat ->
               (0 <= rng w (draws w + k)%nat)%Q /\ (rng w (draws w + k)%nat <= 1)%Q) /\
    (retried = 5%nat -> fst r = Raised (RuntimeError "Max retries exceeded")) /\
    (retried < 5 ->
     exists c, calls !! retried = Some c /\
               is_retry_later (pc_reply c) = false /\
               fst r = passed_on (pc_reply c)).
Proof.
  intros Hrng. unfold _infer.
  destruct (rate_limit_returns w)
    as (w0 & Hrl & Hreq & _ & Hdraws & _ & _ & wait & Hwait & Hlen).
  rewrite (bind_returned _ _ _ _ _ Hrl).
  destruct (quiet_rate_limit w) as (_ & _ & Hsame & _).
  rewrite Hrl in Hsame. cbn [snd] in Hsame.
  destruct (infer_attempts_policy self systemprompt messages tools tool_mode
              max_retries 0 w0)
    as (k & new & Hk & Hnew & Hlennew & Hall & Hslept & Hmax & Hpass).
  { intros i. rewrite Hsame. apply Hrng. }
  exists k, wait, new. cbn zeta in *. unfold max_retries in *.
  rewrite Hsame, Hdraws, Hreq, Hwait in *.
  split; [exact Hk|]. split; [exact Hnew|]. split; [exact Hlennew|].
  split; [exact Hall|]. split.
  { rewrite Hslept, <- app_assoc. reflexivity. }
  split; [exact Hlen|]. split; [intros; apply Hrng|].
  split; [exact Hmax|exact Hpass].
Qed.

(** ** Rate limiting *)

Lemma one_unit_apart_snoc (trace : list PhysicalCall) (c' : PhysicalCall) :
  one_unit_apart trace ->
  (forall c, last trace = Some c -> (pc_started c + 1 <= pc_started c')%Q) ->
  one_unit_apart (trace ++ [c']).
Proof.
  intros Htrace Hlast c1 c2 (i & H1 & H2).
  apply lookup_snoc_Some in H2 as [[Hi H2]|[Hi <-]].
  - apply Htrace. exists i. split; [|assumption].
    rewrite lookup_app_l in H1 by lia. assumption.
  - apply Hlast. rewrite last_lookup.
    replace (pred (length trace)) with i by lia.
    rewrite lookup_app_l in H1 by lia. assumption.
Qed.

(** The retry loop keeps the calls one unit apart, when it starts at least
    one unit after the last call. *)
Lemma infer_attempts_paced {BState : Type} (self : LLM BState) sp msgs tools
    mode (remaining : nat) :
  forall (retries : nat) (w : World BState),
    uniform_01 w -> time_moves_forward w ->
    one_unit_apart (requests w) ->
    (forall c, last (requests w) = Some c ->
               last_request_time w = Some (pc_started c) /\
               (pc_started c + 1 <= clock w)%Q) ->
    paced (snd (infer_attempts self sp msgs tools mode remaining retries w)).
Proof.
  induction remaining as [|remaining IH]; intros retries w Hrng Hdrift Hapart Hlast.
  - cbn [infer_attempts raise snd].
    split; [assumption|]. split; [|split; assumption].
    intros c Hc. apply Hlast, Hc.
  - rewrite infer_attempts_step. cbn zeta.
    set (t := (clock w + drift w (reads w))%Q).
    set (reply := fst (_inferModel self sp msgs tools mode (backend w))).
    set (b := snd (_inferModel self sp msgs tools mode (backend w))).
    set (c := mkPhysicalCall t (llm_instance self) mode reply).
    assert (Hnew : one_unit_apart (requests w ++ [c])).
    { apply one_unit_apart_snoc; [assumption|]. intros c0 Hc0.
      destruct (Hlast c0 Hc0) as [_ Hclock]. pose proof (Hdrift (reads w)).
      cbn [c pc_started]. unfold t. lra. }
    destruct (is_retry_later reply).
    + rewrite backoff_never_negative by apply Hrng.
      apply IH; try assumption.
      intros c0 Hc0. cbn in Hc0. rewrite last_snoc in Hc0.
      inversion Hc0; subst c0. split; [reflexivity|].
      cbn [sleep_for draw note_request note_request_time observe_clock clock
             c pc_started].
      pose proof (backoff_delay_long retries (rng w (draws w))
                    (proj1 (Hrng (draws w)))). fold t. lra.
    + cbn [snd]. split; [exact Hnew|]. split; [|split; assumption].
      intros c0 Hc0. cbn in Hc0. rewrite last_snoc in Hc0.
      inversion Hc0; subst c0. reflexivity.
Qed.

Lemma infer_paced {BState : Type} (self : LLM BState) sp msgs tools mode
    (w : World BState) :
  paced w -> paced (snd (_infer self sp msgs tools mode w)).
Proof.
  intros (Hapart & Hlast & Hrng & Hdrift). unfold _infer.
  destruct (rate_limit_returns w)
    as (w0 & Hrl & Hreq & _ & _ & (t & Ht & Hclock) & Hkeep & _).
  rewrite (bind_returned _ _ _ _ _ Hrl).
  destruct (quiet_rate_limit w) as (_ & _ & Hsame_rng & Hsame_drift).
  rewrite Hrl in Hsame_rng, Hsame_drift. cbn [snd] in *.
  apply infer_attempts_paced.
  - intros i. rewrite Hsame_rng. apply Hrng.
  - intros i. rewrite Hsame_drift. apply Hdrift.
  - rewrite Hreq. assumption.
  - rewrite Hreq. intros c Hc. specialize (Hlast c Hc).
    rewrite (Hkeep _ Hlast) in Ht. inversion Ht; subst t. auto.
Qed.

Lemma issue_all_paced {BState : Type} (calls : list (InferCall BState)) :
  forall w : World BState, paced w -> paced (issue_all calls w).
Proof.
  unfold issue_all.
  induction calls as [|c calls IH]; intros w Hw; cbn [fold_left].
  - assumption.
  - apply IH, infer_paced, Hw.
Qed.

(** C6. In a process whose clock does not run backwards, whatever calls of
    [_infer] are issued one after the other and from whatever backend
    instances, any two physical backend calls that follow each other start
    at least one time unit apart. *)
Theorem physical_calls_one_unit_apart {BState : Type}
    (calls : list (InferCall BState)) (w : World BState)
    (c1 c2 : PhysicalCall) :
  no_call_yet w -> uniform_01 w -> time_moves_forward w ->
  back_to_back (requests (issue_all calls w)) c1 c2 ->
  (pc_started c1 + 1 <= pc_started c2)%Q.
Proof.
  intros [Hnone Hlast] Hrng Hdrift.
  assert (Hw : paced w).
  { split; [|split; [|split; assumption]].
    - intros a b (i & Ha & _). rewrite Hnone in Ha. discriminate.
    - intros c Hc. rewrite Hnone in Hc. discriminate. }
  destruct (issue_all_paced calls w Hw) as [Hapart _].
  apply Hapart.
Qed.

(** ** End-to-end scenarios *)

Lemma chat_more_fuel {BState : Type} (fuel fuel' : nat) (self : Agent BState)
    (user_input : string) (tool_mode : option ToolMode) (w : World BState) :
  fst (chat fuel self user_input tool_mode w) <> OutOfFuel ->
  (fuel <= fuel')%nat ->
  chat fuel' self user_input tool_mode w = chat fuel self user_input tool_mode w.
Proof.
  intros Hend Hle. unfold chat, _invoke, bind in *.
  destruct (list_append (history self) (TextMessage USER user_input) w)
    as [[u| |] w0]; try reflexivity.
  destruct (_track_mlflow self w0) as [[u'| |] w1]; try reflexivity.
  destruct (_run fuel self (max_iterations self) (history self)
              (default (default_tool_mode self) tool_mode) (tool_map self)
              is_text w1) as [[l| |] w2] eqn:Hrun.
  - rewrite (run_more_fuel fuel self _ _ _ _ _ w1 fuel') by
      (rewrite ?Hrun; try discriminate; assumption).
    rewrite Hrun. reflexivity.
  - rewrite (run_more_fuel fuel self _ _ _ _ _ w1 fuel') by
      (rewrite ?Hrun; try discriminate; assumption).
    rewrite Hrun. reflexivity.
  - exfalso. apply Hend. reflexivity.
Qed.

(** C4 (amended). Scenario A: the agent is in FORCE mode with the single tool
    [add]; the backend asks for [add(2, 3)] and then answers "5". Whether or
    not the backend has the escape convention, [chat("sum")] returns "5" and
    the history then has exactly 4 entries: the request, the tool-call
    message, the tool-result message and the final text. *)
Theorem scenario_A_returns_5_and_four_messages (escape : bool) (fuel : nat) :
  (2 <= fuel)%nat ->
  let r := chat fuel (scenario_A_agent escape) "sum" None scenario_A_process in
  answer (fst r) = Some "5" /\
  history_items (snd r) (scenario_A_agent escape) = scenario_A_history /\
  length (history_items (snd r) (scenario_A_agent escape)) = 4%nat.
Proof.
  intros Hfuel r. subst r.
  rewrite (chat_more_fuel 2 fuel) by
    (try assumption; destruct escape; vm_compute; discriminate).
  destruct escape; vm_compute; repeat split.
Qed.

(** ** Where the code departs from the specification *)

(** C2, as stated, fails: in scenario A the backend lacks the escape
    convention and the agent is in FORCE mode, yet the first call reaches the
    backend in FORCE mode; only the second one is made in AUTO mode. *)
Lemma forced_call_reaches_backend_forced :
  end_tool_mode (parameters (llm (scenario_A_agent false))) = false /\
  map span_tool_mode
    (spans (snd (chat 10 (scenario_A_agent false) "sum" None scenario_A_process)))
  = [FORCE; AUTO] /\
  map pc_tool_mode
    (requests (snd (chat 10 (scenario_A_agent false) "sum" None scenario_A_process)))
  = [FORCE; AUTO] /\
  FORCE <> AUTO.
Proof. vm_compute. repeat split. discriminate. Qed.

(** C4, as stated, fails: after [chat("sum")] of scenario A has returned "5",
    the history has 4 entries, not 3. *)
Lemma scenario_A_history_is_not_three_entries :
  answer (fst (chat 10 (scenario_A_agent false) "sum" None scenario_A_process))
  = Some "5" /\
  length (history_items
            (snd (chat 10 (scenario_A_agent false) "sum" None scenario_A_process))
            (scenario_A_agent false)) = 4%nat /\
  length (history_items
            (snd (chat 10 (scenario_A_agent false) "sum" None scenario_A_process))
            (scenario_A_agent false)) <> 3%nat.
Proof. vm_compute. repeat split. discriminate. Qed.

(** C7, as stated, fails: a post-hook registered under the name of a tool
    that the tool map does not have replaces the failure, and the execution
    of a call to that name succeeds. *)
Lemma hook_replaces_unknown_tool_failure :
  PyDict.get (tool_map patching_agent) (tc_name ghost_call) = None /\
  _execute_tool patching_agent ghost_call (tool_map patching_agent)
  = patched_result /\
  success (_execute_tool patching_agent ghost_call (tool_map patching_agent))
  <> false.
Proof. vm_compute. repeat split. discriminate. Qed.

(** ** The theorems at concrete inputs *)

Lemma force_without_escape_is_downgraded_afterwards_witness :
  (0 < 10)%Z /\
  end_tool_mode (parameters (llm (scenario_A_agent false))) = false /\
  exists later,
    spans (snd (_run 10 (scenario_A_agent false) 10 0%nat FORCE
                  (tool_map (scenario_A_agent false)) is_text scenario_A_started))
    = spans scenario_A_started
      ++ mkLLMSpan (map tool_name (PyDict.values (tool_map (scenario_A_agent false))))
           FORCE :: later
    /\ Forall (fun sp => span_tool_mode sp = AUTO) later.
Proof.
  split; [lia|]. split; [reflexivity|].
  apply (force_without_escape_is_downgraded_afterwards 9 (scenario_A_agent false)
           10 0%nat (tool_map (scenario_A_agent false)) is_text
           scenario_A_started); [lia|reflexivity].
Defined.

Lemma escape_retries_same_iteration_witness :
  (0 < 10)%Z /\
  generate (llm escaping_agent) (system_prompt escaping_agent)
    (items_at 0%nat escaping_process)
    (PyDict.values (fst (prepare_tools escaping_agent FORCE
                           (tool_map escaping_agent))))
    FORCE escaping_process
  = (Returned escape_response, escaping_process_answered) /\
  carries_escape escape_response = true /\
  (_run 10 escaping_agent 10 0%nat FORCE (tool_map escaping_agent) is_text
     escaping_process
   = _run 9 escaping_agent 10 0%nat AUTO (tool_map escaping_agent) is_text
       escaping_process_answered
   /\ heap escaping_process_answered = heap escaping_process).
Proof.
  assert (H2 : generate (llm escaping_agent) (system_prompt escaping_agent)
                 (items_at 0%nat escaping_process)
                 (PyDict.values (fst (prepare_tools escaping_agent FORCE
                                        (tool_map escaping_agent))))
                 FORCE escaping_process
               = (Returned escape_response, escaping_process_answered))
    by (vm_compute; reflexivity).
  split; [lia|]. split; [exact H2|]. split; [reflexivity|].
  apply (escape_retries_same_iteration 9 escaping_agent 10 0%nat FORCE
           (tool_map escaping_agent) is_text escaping_process
           escaping_process_answered escape_response);
    [lia|exact H2|reflexivity].
Defined.

Lemma scenario_A_returns_5_and_four_messages_witness :
  (2 <= 10)%nat /\
  answer (fst (chat 10 (scenario_A_agent true) "sum" None scenario_A_process))
  = Some "5" /\
  history_items (snd (chat 10 (scenario_A_agent true) "sum" None scenario_A_process))
    (scenario_A_agent true) = scenario_A_history /\
  length (history_items
            (snd (chat 10 (scenario_A_agent true) "sum" None scenario_A_process))
            (scenario_A_agent true)) = 4%nat.
Proof.
  split; [lia|].
  apply (scenario_A_returns_5_and_four_messages true 10). lia.
Defined.

Lemma new_process_uniform (script : Script) (lists : gmap loc (list Message)) :
  uniform_01 (new_process script lists).
Proof. intros i. cbn. split; discriminate. Defined.

Lemma new_process_time_moves_forward (script : Script)
    (lists : gmap loc (list Message)) :
  time_moves_forward (new_process script lists).
Proof. intros i. cbn. discriminate. Defined.

Lemma infer_retries_with_backoff_witness :
  uniform_01 throttled_process /\
  exists (retried : nat) (wait : list Q) (calls : list PhysicalCall),
    let r := _infer (scripted 0 default_parameters) "system"
               [TextMessage USER "sum"] [add] AUTO throttled_process in
    (retried <= 5)%nat /\
    requests (snd r) = requests throttled_process ++ calls /\
    length calls = Nat.min (S retried) 5 /\
    (forall i c, (i < retried)%nat -> calls !! i = Some c ->
                 is_retry_later (pc_reply c) = true) /\
    slept (snd r)
    = slept throttled_process ++ wait
      ++ map (fun k => backoff_delay k
                         (rng throttled_process (draws throttled_process + k)%nat))
           (seq 0 retried) /\
    (length wait <= 1)%nat /\
    (forall k, (k < retried)%nat ->
               (0 <= rng throttled_process (draws throttled_process + k)%nat)%Q /\
               (rng throttled_process (draws throttled_process + k)%nat <= 1)%Q) /\
    (retried = 5%nat -> fst r = Raised (RuntimeError "Max retries exceeded")) /\
    (retried < 5 ->
     exists c, calls !! retried = Some c /\
               is_retry_later (pc_reply c) = false /\
               fst r = passed_on (pc_reply c)).
Proof.
  split; [apply new_process_uniform|].
  apply (infer_retries_with_backoff (scripted 0 default_parameters) "system"
           [TextMessage USER "sum"] [add] AUTO throttled_process).
  apply new_process_uniform.
Defined.

Lemma physical_calls_one_unit_apart_witness :
  no_call_yet two_instances_process /\
  uniform_01 two_instances_process /\
  time_moves_forward two_instances_process /\
  back_to_back (requests (issue_all two_instances two_instances_process))
    (call_at two_instances_trace 0) (call_at two_instances_trace 1) /\
  (pc_started (call_at two_instances_trace 0) + 1
   <= pc_started (call_at two_instances_trace 1))%Q.
Proof.
  assert (H1 : no_call_yet two_instances_process) by (split; reflexivity).
  assert (H4 : back_to_back (requests (issue_all two_instances two_instances_process))
                 (call_at two_instances_trace 0) (call_at two_instances_trace 1)).
  { exists 0%nat. split; vm_compute; reflexivity. }
  split; [exact H1|]. split; [apply new_process_uniform|].
  split; [apply new_process_time_moves_forward|]. split; [exact H4|].
  apply (physical_calls_one_unit_apart two_instances two_instances_process
           (call_at two_instances_trace 0) (call_at two_instances_trace 1) H1
           (new_process_uniform _ _) (new_process_time_moves_forward _ _) H4).
Defined.

Lemma unknown_tool_is_reported_witness :
  PyDict.get (tool_map listening_agent) (tc_name ghost_call) = None /\
  Forall (hook_returns_nothing ghost_call
            (unknown_tool_failure (tc_name ghost_call) (tool_map listening_agent)))
    (default [] (hook_map listening_agent !! tc_name ghost_call)) /\
  _execute_tool listening_agent ghost_call (tool_map listening_agent)
  = mkExecutionResult false VNone
      (Some ("Tool '" ++ tc_name ghost_call ++ "' not found, available tools: "
             ++ String.concat ", " (PyDict.keys (tool_map listening_agent)))%string).
Proof.
  assert (H2 : Forall (hook_returns_nothing ghost_call
                         (unknown_tool_failure (tc_name ghost_call)
                            (tool_map listening_agent)))
                 (default [] (hook_map listening_agent !! tc_name ghost_call))).
  { vm_compute. repeat constructor. }
  split; [reflexivity|]. split; [exact H2|].
  apply (unknown_tool_is_reported listening_agent ghost_call
           (tool_map listening_agent)); [reflexivity|exact H2].
Defined.

Lemma structuredAnswer_keeps_history_witness :
  is_Some (heap scenario_C_process !! history (scenario_A_agent true)) /\
  heap (snd (structuredAnswer 5 (scenario_A_agent true) "how many?" count_model
               scenario_C_process))
    !! history (scenario_A_agent true)
  = heap scenario_C_process !! history (scenario_A_agent true).
Proof.
  assert (H1 : is_Some (heap scenario_C_process !! history (scenario_A_agent true))).
  { exists [TextMessage USER "earlier"; TextMessage MODEL "reply"]. reflexivity. }
  split; [exact H1|].
  apply (structuredAnswer_keeps_history 5 (scenario_A_agent true) "how many?"
           count_model scenario_C_process H1).
Defined.

(** * Further properties of the code *)

(** ** Replies of the backend seen through [generate] and [chat] *)

(** [_infer] when the first reply of the backend is not a RetryLater
    failure: one call, and the reply is passed on. *)
Lemma infer_first_reply {BState : Type} (self : LLM BState) sp msgs tools mode
    (w : World BState) (reply : Message + Exn) (b' : BState) :
  _inferModel self sp msgs tools mode (backend w) = (reply, b') ->
  is_retry_later reply = false ->
  exists w' c,
    _infer self sp msgs tools mode w = (passed_on reply, w') /\
    requests w' = requests w ++ [c] /\ pc_reply c = reply /\ backend w' = b' /\
    slept w' = slept (snd (rate_limit w)).
Proof.
  intros Hreply Hno. unfold _infer.
  destruct (rate_limit_returns w) as (w0 & Hrl & Hreq & Hback & _).
  rewrite (bind_returned _ _ _ _ _ Hrl). rewrite Hrl. cbn [snd].
  unfold max_retries. rewrite infer_attempts_step. cbn zeta.
  rewrite Hback, Hreply. cbn [fst snd]. rewrite Hno.
  eexists _, _. split; [reflexivity|].
  cbn [note_request requests backend note_request_time observe_clock pc_reply
         slept].
  rewrite Hreq. auto.
Qed.

Lemma generate_first_reply {BState : Type} (self : LLM BState) sp msgs tools
    mode (w : World BState) (reply : Message + Exn) (b' : BState) :
  msgs <> [] ->
  first_mlflow_failure msgs = None ->
  _inferModel self sp msgs tools mode (backend w) = (reply, b') ->
  is_retry_later reply = false ->
  exists w',
    generate self sp msgs tools mode w = (generated reply, w') /\
    heap w' = heap w /\
    length (requests w') = S (length (requests w)) /\
    backend w' = b'.
Proof.
  intros Hne Hok Hreply Hno.
  pose proof (generate_frame self sp msgs tools mode w) as [Hheap _].
  revert Hheap. unfold generate.
  unfold bind at 1 3. unfold set_span_attributes, modify.
  destruct (last msgs) eqn:Hlast; [|apply last_None in Hlast; contradiction].
  rewrite Hok.
  destruct (infer_first_reply self sp msgs tools mode
              (note_span (mkLLMSpan (map tool_name tools) mode) w) reply b'
              Hreply Hno)
    as (w' & c & Hinf & Hreq & _ & Hback & _).
  unfold bind. rewrite Hinf.
  destruct reply as [reply|e]; cbn [passed_on generated].
  - destruct (getMLFlowMessage reply); cbn [snd]; intros Hheap; exists w';
      (split; [reflexivity|]); (split; [assumption|]); split; try assumption;
      rewrite Hreq, length_app; cbn; lia.
  - cbn [snd]. intros Hheap. exists w'. split; [reflexivity|].
    split; [assumption|]. split; [|assumption].
    rewrite Hreq, length_app. cbn. lia.
Qed.

(** [_run] returns the list it was given. *)
Lemma run_returns_its_list {BState : Type} (fuel : nat) :
  forall (self : Agent BState) it l mode tm stop w l' w',
    _run fuel self it l mode tm stop w = (Returned l', w') -> l' = l.
Proof.
  induction fuel as [|fuel IH]; intros self it l mode tm stop w l' w'.
  - discriminate.
  - rewrite run_step. destruct (it <=? 0)%Z; [discriminate|]. cbn zeta.
    destruct (generate _ _ _ _ _ w) as [[response| |] w1]; try discriminate.
    destruct (carries_escape response); [apply IH|].
    destruct (stop response); [intros H; inversion H; reflexivity|].
    destruct response as [role text|role calls results]; [apply IH|].
    destruct (stop _); [intros H; inversion H; reflexivity|apply IH].
Qed.

(** [chat] in terms of the run of the loop. *)
Lemma chat_unfold {BState : Type} (fuel : nat) (self : Agent BState)
    (user_input : string) (tool_mode : option ToolMode) (w : World BState) :
  first_mlflow_failure (history_items w self) = None ->
  chat fuel self user_input tool_mode w =
  match _run fuel self (max_iterations self) (history self)
          (default (default_tool_mode self) tool_mode) (tool_map self) is_text
          (append_item (history self) (TextMessage USER user_input) w) with
  | (Returned l, w1) =>
      match last (items_at l w1) with
      | None => (Raised (IndexError "list index out of range"), w1)
      | Some response =>
          match first_mlflow_failure (items_at l w1) with
          | Some e => (Raised e, w1)
          | None =>
              match response with
              | TextMessage _ text => (Returned (set_history self l, text), w1)
              | ToolMessage _ _ _ =>
                  (Raised (AttributeError "'ToolMessage' object has no attribute 'text'"), w1)
              end
          end
      end
  | (Raised e, w1) => (Raised e, w1)
  | (OutOfFuel, w1) => (OutOfFuel, w1)
  end.
Proof.
  intros Hok. unfold history_items in Hok. unfold chat, _invoke.
  unfold bind at 1 2. unfold list_append at 1. unfold modify at 1.
  unfold bind at 1. unfold _track_mlflow at 1. unfold bind at 1.
  unfold list_read at 1. rewrite append_item_same.
  replace (first_mlflow_failure (items_at (history self) w ++ [TextMessage USER user_input]))
    with (@None Exn)
    by (symmetry; apply first_mlflow_failure_app; split; [assumption|reflexivity]).
  unfold ret at 1. unfold bind at 1.
  destruct (_run fuel self _ _ _ _ is_text _) as [[l| |] w1]; try reflexivity.
  unfold bind at 1. unfold list_read at 1. cbn [set_history history].
  destruct (last (items_at l w1)) as [response|]; [|reflexivity].
  unfold bind at 1. unfold _track_mlflow at 1. unfold bind at 1.
  unfold list_read at 1. cbn [set_history history].
  destruct (first_mlflow_failure (items_at l w1)); [reflexivity|].
  destruct response; reflexivity.
Qed.

Lemma set_history_same {BState : Type} (self : Agent BState) :
  set_history self (history self) = self.
Proof. destruct self; reflexivity. Qed.

Lemma items_nonempty_snoc (items : list Message) (m : Message) :
  items ++ [m] <> [].
Proof. destruct items; discriminate. Qed.

(** [chat] when the first reply of a turn is a text. *)
Lemma chat_first_text_reply {BState : Type} (fuel : nat)
    (self : Agent BState) (user_input : string) (tool_mode : option ToolMode)
    (w : World BState) (role : MessageRole) (text : string) (b' : BState) :
  (0 < max_iterations self)%Z ->
  (0 < fuel)%nat ->
  first_mlflow_failure (history_items w self) = None ->
  (forall tools mode,
      _inferModel (llm self) (system_prompt self)
        (history_items w self ++ [TextMessage USER user_input]) tools mode
        (backend w)
      = (inl (TextMessage role text), b')) ->
  exists w',
    chat fuel self user_input tool_mode w = (Returned (self, text), w') /\
    history_items w' self
    = history_items w self ++ [TextMessage USER user_input; TextMessage role text] /\
    length (requests w') = S (length (requests w)).
Proof.
  intros Hbudget Hfuel Hok Hreply. rewrite chat_unfold by assumption.
  unfold history_items in *.
  destruct fuel as [|fuel]; [lia|]. rewrite run_step.
  destruct (Z.leb_spec (max_iterations self) 0); [lia|]. cbn zeta.
  set (w0 := append_item (history self) (TextMessage USER user_input) w).
  assert (Hitems : items_at (history self) w0
                   = items_at (history self) w ++ [TextMessage USER user_input])
    by apply append_item_same.
  rewrite Hitems.
  destruct (generate_first_reply (llm self) (system_prompt self)
              (items_at (history self) w ++ [TextMessage USER user_input])
              (PyDict.values (fst (prepare_tools self
                 (default (default_tool_mode self) tool_mode) (tool_map self))))
              (default (default_tool_mode self) tool_mode) w0
              (inl (TextMessage role text)) b')
    as (w1 & Hgen & Hheap & Hreqs & _).
  { apply items_nonempty_snoc. }
  { apply first_mlflow_failure_app. split; [assumption|reflexivity]. }
  { apply Hreply. }
  { reflexivity. }
  rewrite Hgen. cbn [generated getMLFlowMessage carries_escape is_text].
  assert (Hfinal : items_at (history self)
                     (append_item (history self) (TextMessage role text) w1)
                   = items_at (history self) w
                     ++ [TextMessage USER user_input; TextMessage role text]).
  { rewrite append_item_same. unfold items_at at 1. rewrite Hheap.
    fold (items_at (history self) w0). rewrite Hitems, <- app_assoc. reflexivity. }
  rewrite Hfinal.
  rewrite last_app. cbn [last].
  replace (first_mlflow_failure _) with (@None Exn)
    by (symmetry; apply first_mlflow_failure_app; split; [assumption|reflexivity]).
  rewrite set_history_same. eexists. split; [reflexivity|].
  split; [exact Hfinal|exact Hreqs].
Qed.

(** X1. When the backend answers the first request of a turn with a text,
    [chat] returns that text after a single backend call, and the history
    has grown by exactly the request and the answer. *)
Theorem chat_returns_text_reply {BState : Type} (fuel : nat)
    (self : Agent BState) (user_input : string) (tool_mode : option ToolMode)
    (w : World BState) (role : MessageRole) (text : string) (b' : BState) :
  (0 < max_iterations self)%Z ->
  (0 < fuel)%nat ->
  first_mlflow_failure (history_items w self) = None ->
  (forall tools mode,
      _inferModel (llm self) (system_prompt self)
        (history_items w self ++ [TextMessage USER user_input]) tools mode
        (backend w)
      = (inl (TextMessage role text), b')) ->
  exists w',
    chat fuel self user_input tool_mode w = (Returned (self, text), w') /\
    history_items w' self
    = history_items w self ++ [TextMessage USER user_input; TextMessage role text] /\
    length (requests w') = S (length (requests w)).
Proof. apply chat_first_text_reply. Qed.

(** X2. With a budget of zero or less, [chat] raises the iteration
    exhaustion error without calling the backend; the request has already
    been appended to the history and stays there. *)
Theorem chat_without_budget_keeps_request {BState : Type} (fuel : nat)
    (self : Agent BState) (user_input : string) (tool_mode : option ToolMode)
    (w : World BState) :
  (max_iterations self <= 0)%Z ->
  (0 < fuel)%nat ->
  first_mlflow_failure (history_items w self) = None ->
  chat fuel self user_input tool_mode w
  = (Raised iteration_exhaustion,
     append_item (history self) (TextMessage USER user_input) w).
Proof.
  intros Hbudget Hfuel Hok. rewrite chat_unfold by assumption.
  destruct fuel as [|fuel]; [lia|]. rewrite run_step.
  destruct (Z.leb_spec (max_iterations self) 0); [reflexivity|lia].
Qed.

(** The first reply of a turn makes [generate] raise. *)
Lemma chat_first_reply_raises {BState : Type} (fuel : nat)
    (self : Agent BState) (user_input : string) (tool_mode : option ToolMode)
    (w : World BState) (reply : Message + Exn) (e : Exn) (b' : BState) :
  (0 < max_iterations self)%Z ->
  (0 < fuel)%nat ->
  first_mlflow_failure (history_items w self) = None ->
  (forall tools mode,
      _inferModel (llm self) (system_prompt self)
        (history_items w self ++ [TextMessage USER user_input]) tools mode
        (backend w)
      = (reply, b')) ->
  is_retry_later reply = false ->
  generated reply = Raised e ->
  exists w',
    chat fuel self user_input tool_mode w = (Raised e, w') /\
    history_items w' self = history_items w self ++ [TextMessage USER user_input] /\
    length (requests w') = S (length (requests w)).
Proof.
  intros Hbudget Hfuel Hok Hreply Hno Hraise. rewrite chat_unfold by assumption.
  unfold history_items in *.
  destruct fuel as [|fuel]; [lia|]. rewrite run_step.
  destruct (Z.leb_spec (max_iterations self) 0); [lia|]. cbn zeta.
  set (w0 := append_item (history self) (TextMessage USER user_input) w).
  assert (Hitems : items_at (history self) w0
                   = items_at (history self) w ++ [TextMessage USER user_input])
    by apply append_item_same.
  rewrite Hitems.
  destruct (generate_first_reply (llm self) (system_prompt self)
              (items_at (history self) w ++ [TextMessage USER user_input])
              (PyDict.values (fst (prepare_tools self
                 (default (default_tool_mode self) tool_mode) (tool_map self))))
              (default (default_tool_mode self) tool_mode) w0 reply b')
    as (w1 & Hgen & Hheap & Hreqs & _).
  { apply items_nonempty_snoc. }
  { apply first_mlflow_failure_app. split; [assumption|reflexivity]. }
  { apply Hreply. }
  { assumption. }
  rewrite Hgen, Hraise. exists w1. split; [reflexivity|].
  split; [|exact Hreqs].
  unfold items_at at 1. rewrite Hheap. exact Hitems.
Qed.

(** X3. A failure of the backend other than RetryLater is not caught: it is
    raised by [chat] after that single call, and the history then ends with
    the request. *)
Theorem chat_passes_on_backend_failure {BState : Type} (fuel : nat)
    (self : Agent BState) (user_input : string) (tool_mode : option ToolMode)
    (w : World BState) (e : Exn) (b' : BState) :
  (0 < max_iterations self)%Z ->
  (0 < fuel)%nat ->
  first_mlflow_failure (history_items w self) = None ->
  (forall tools mode,
      _inferModel (llm self) (system_prompt self)
        (history_items w self ++ [TextMessage USER user_input]) tools mode
        (backend w)
      = (inr e, b')) ->
  is_RetryLater e = false ->
  exists w',
    chat fuel self user_input tool_mode w = (Raised e, w') /\
    history_items w' self = history_items w self ++ [TextMessage USER user_input] /\
    length (requests w') = S (length (requests w)).
Proof.
  intros Hbudget Hfuel Hok Hreply Hno.
  apply (chat_first_reply_raises fuel self user_input tool_mode w (inr e) e b');
    auto.
Qed.

(** X4. A response of the backend that is a tool message without calls and
    without results ends the turn: [chat] raises the RuntimeError of
    [getMLFlowMessage] and the response is not appended to the history. *)
Theorem chat_rejects_empty_tool_message {BState : Type} (fuel : nat)
    (self : Agent BState) (user_input : string) (tool_mode : option ToolMode)
    (w : World BState) (role : MessageRole) (b' : BState) :
  (0 < max_iterations self)%Z ->
  (0 < fuel)%nat ->
  first_mlflow_failure (history_items w self) = None ->
  (forall tools mode,
      _inferModel (llm self) (system_prompt self)
        (history_items w self ++ [TextMessage USER user_input]) tools mode
        (backend w)
      = (inl (ToolMessage role [] []), b')) ->
  exists w',
    chat fuel self user_input tool_mode w
    = (Raised (RuntimeError "ToolMessage must have either tool_calls or tool_results"),
       w') /\
    history_items w' self = history_items w self ++ [TextMessage USER user_input] /\
    length (requests w') = S (length (requests w)).
Proof.
  intros Hbudget Hfuel Hok Hreply.
  apply (chat_first_reply_raises fuel self user_input tool_mode w
           (inl (ToolMessage role [] [])) _ b'); auto.
Qed.

Lemma escape_message_presentable (m : Message) :
  carries_escape m = true -> getMLFlowMessage m = None.
Proof.
  destruct m as [role text|role calls results]; [discriminate|].
  destruct calls; [discriminate|reflexivity].
Qed.

(** X5. The iteration budget does not bound the escape branch: with a
    backend that answers every request with the escape tool, [_run] has
    neither returned nor raised at any depth of its recursion; each level
    costs one backend call and the history is left as it was. Nothing in
    the source ends this recursion (in Python, the interpreter's recursion
    limit does). *)
Theorem escape_loop_never_ends {BState : Type} (fuel : nat) :
  forall (self : Agent BState) (iterations : Z) (messages : loc)
         (tool_mode : ToolMode) (tool_map : PyDict.t Tool)
         (stop_criteria : Message -> bool) (w : World BState),
    always_escapes (llm self) ->
    (0 < iterations)%Z ->
    items_at messages w <> [] ->
    first_mlflow_failure (items_at messages w) = None ->
    exists w',
      _run fuel self iterations messages tool_mode tool_map stop_criteria w
      = (OutOfFuel, w') /\
      length (requests w') = (length (requests w) + fuel)%nat /\
      heap w' = heap w.
Proof.
  induction fuel as [|fuel IH];
    intros self it l mode tm stop w Hesc Hpos Hne Hok.
  - exists w. cbn. repeat split. lia.
  - rewrite run_step. destruct (Z.leb_spec it 0); [lia|]. cbn zeta.
    destruct (Hesc (system_prompt self) (items_at l w)
                (PyDict.values (fst (prepare_tools self mode tm))) mode
                (backend w)) as (m & b' & Hreply & Hm).
    destruct (generate_answers (llm self) (system_prompt self) (items_at l w)
                (PyDict.values (fst (prepare_tools self mode tm))) mode w m b'
                Hne Hok Hreply (escape_message_presentable m Hm))
      as (w1 & Hgen & Hheap & _ & Hreqs).
    rewrite Hgen, Hm.
    destruct (IH self it l AUTO tm stop w1 Hesc Hpos) as (w' & Hrun & Hr & Hh).
    + unfold items_at. rewrite Hheap. exact Hne.
    + unfold items_at. rewrite Hheap. exact Hok.
    + exists w'. split; [exact Hrun|]. split; [lia|congruence].
Qed.

(** ** Structured answers, continued *)

(** [structuredAnswer] in terms of the run of the loop on the copy. *)
Lemma structuredAnswer_unfold {BState : Type} (fuel : nat)
    (self : Agent BState) (user_input : string)
    (desired_output : PyDict.t Value -> Value + Exn) (w : World BState) :
  structuredAnswer fuel self user_input desired_output w =
  let copy := fresh (dom (heap w)) in
  let tool :=
    mkTool "set_output" "use this function to reply in the desired format"
      None (fun kwargs => desired_output kwargs) in
  match _run fuel self 1 copy FORCE [("set_output", tool)] set_output_given
          (append_item copy (TextMessage USER user_input)
             (set_heap (<[copy := items_at (history self) w]> (heap w)) w)) with
  | (Returned l, w2) =>
      match last (items_at l w2) with
      | None => (Raised (IndexError "list index out of range"), w2)
      | Some last_message =>
          match message_get last_message "set_output" with
          | Some result => (Returned (output result), w2)
          | None =>
              (Raised (AttributeError "'NoneType' object has no attribute 'output'"), w2)
          end
      end
  | (Raised e, w2) => (Raised e, w2)
  | (OutOfFuel, w2) => (OutOfFuel, w2)
  end.
Proof.
  unfold structuredAnswer. cbn zeta.
  unfold bind at 1. unfold list_copy at 1.
  unfold bind at 1. unfold list_append at 1. unfold modify at 1.
  unfold bind at 1. cbn [tool_name PyDict.set PyDict.empty].
  destruct (_run fuel self 1 _ FORCE _ set_output_given _) as [[l| |] w2];
    try reflexivity.
  unfold bind, list_read.
  destruct (last (items_at l w2)) as [last_message|]; [|reflexivity].
  destruct (message_get last_message "set_output"); reflexivity.
Qed.

Lemma items_of_copy {BState : Type} (l copy : loc) (m : Message)
    (w : World BState) :
  items_at copy (append_item copy m (set_heap (<[copy := items_at l w]> (heap w)) w))
  = items_at l w ++ [m].
Proof.
  rewrite append_item_same. unfold items_at at 1. cbn [set_heap heap].
  rewrite lookup_insert_eq. reflexivity.
Qed.

(** X6. When the backend answers the forced call of [structuredAnswer] with
    one call of [set_output] and no hook is registered under that name,
    [structuredAnswer] returns the value the model class builds from the
    call's arguments; when the model class rejects the arguments, nothing is
    raised and [None] is returned. *)
Theorem structuredAnswer_returns_set_output {BState : Type} (fuel : nat)
    (self : Agent BState) (user_input : string)
    (desired_output : PyDict.t Value -> Value + Exn) (w : World BState)
    (role : MessageRole) (id : string) (args : PyDict.t Value) (b' : BState) :
  (0 < fuel)%nat ->
  first_mlflow_failure (history_items w self) = None ->
  hook_map self !! "set_output" = None ->
  (forall tools,
      _inferModel (llm self) (system_prompt self)
        (history_items w self ++ [TextMessage USER user_input]) tools FORCE
        (backend w)
      = (inl (ToolMessage role [mkToolCall id "set_output" args] []), b')) ->
  fst (structuredAnswer fuel self user_input desired_output w)
  = Returned (match desired_output args with
              | inl value => value
              | inr _ => VNone
              end).
Proof.
  intros Hfuel Hok Hhooks Hreply. unfold history_items in *.
  rewrite structuredAnswer_unfold. cbn zeta.
  set (copy := fresh (dom (heap w))).
  set (tool := mkTool "set_output" _ None _).
  set (w1 := append_item copy _ _).
  assert (Hitems : items_at copy w1
                   = items_at (history self) w ++ [TextMessage USER user_input])
    by apply items_of_copy.
  destruct fuel as [|fuel]; [lia|]. rewrite run_step.
  cbn [Z.leb Z.compare]. cbn zeta. rewrite Hitems.
  set (active := fst (prepare_tools self FORCE [("set_output", tool)])).
  assert (Hactive : PyDict.get active "set_output" = Some tool).
  { unfold active, prepare_tools.
    destruct (end_tool_mode (parameters (llm self))); reflexivity. }
  destruct (generate_first_reply (llm self) (system_prompt self)
              (items_at (history self) w ++ [TextMessage USER user_input])
              (PyDict.values active) FORCE w1
              (inl (ToolMessage role [mkToolCall id "set_output" args] [])) b')
    as (w2 & Hgen & Hheap & _).
  { apply items_nonempty_snoc. }
  { apply first_mlflow_failure_app. split; [assumption|reflexivity]. }
  { replace (backend w1) with (backend w) by reflexivity. apply Hreply. }
  { reflexivity. }
  rewrite Hgen.
  cbn [generated getMLFlowMessage carries_escape existsb tc_name set_output_given
         is_tool is_text negb andb message_get find_result String.eqb
         Ascii.eqb Bool.eqb orb].
  assert (Hexec : _execute_all_tools self [mkToolCall id "set_output" args] active
                  = [mkToolResult id "set_output"
                       (match desired_output args with
                        | inl value => mkExecutionResult true value None
                        | inr e => mkExecutionResult false VNone (Some (exn_str e))
                        end)]).
  { unfold _execute_all_tools, _execute_tool. cbn [map tc_name tc_id].
    rewrite Hhooks. cbn [default run_pre_hooks run_post_hooks].
    unfold guarded_execution, _execute_tool_raw. cbn [tc_name tc_args].
    rewrite Hactive. cbn [tool_function tool].
    destruct (desired_output args); reflexivity. }
  rewrite Hexec.
  cbn [set_output_given is_tool is_text negb andb message_get find_result
         tr_name tr_result String.eqb Ascii.eqb Bool.eqb].
  rewrite !append_item_same, !last_snoc.
  cbn [message_get find_result tr_name tr_result String.eqb Ascii.eqb Bool.eqb fst].
  destruct (desired_output args); reflexivity.
Qed.

(** X7. When the backend answers the forced call of [structuredAnswer] with
    a text, the single iteration is used up and the iteration exhaustion
    error is raised, after one backend call. *)
Theorem structuredAnswer_rejects_text_reply {BState : Type} (fuel : nat)
    (self : Agent BState) (user_input : string)
    (desired_output : PyDict.t Value -> Value + Exn) (w : World BState)
    (role : MessageRole) (text : string) (b' : BState) :
  (2 <= fuel)%nat ->
  first_mlflow_failure (history_items w self) = None ->
  (forall tools,
      _inferModel (llm self) (system_prompt self)
        (history_items w self ++ [TextMessage USER user_input]) tools FORCE
        (backend w)
      = (inl (TextMessage role text), b')) ->
  exists w',
    structuredAnswer fuel self user_input desired_output w
    = (Raised iteration_exhaustion, w') /\
    length (requests w') = S (length (requests w)).
Proof.
  intros Hfuel Hok Hreply. unfold history_items in *.
  rewrite structuredAnswer_unfold. cbn zeta.
  set (copy := fresh (dom (heap w))).
  set (tool := mkTool "set_output" _ None _).
  set (w1 := append_item copy _ _).
  assert (Hitems : items_at copy w1
                   = items_at (history self) w ++ [TextMessage USER user_input])
    by apply items_of_copy.
  destruct fuel as [|[|fuel]]; try lia. rewrite run_step.
  cbn [Z.leb Z.compare]. cbn zeta. rewrite Hitems.
  destruct (generate_first_reply (llm self) (system_prompt self)
              (items_at (history self) w ++ [TextMessage USER user_input])
              (PyDict.values (fst (prepare_tools self FORCE [("set_output", tool)])))
              FORCE w1 (inl (TextMessage role text)) b')
    as (w2 & Hgen & _ & Hreqs & _).
  { apply items_nonempty_snoc. }
  { apply first_mlflow_failure_app. split; [assumption|reflexivity]. }
  { replace (backend w1) with (backend w) by reflexivity. apply Hreply. }
  { reflexivity. }
  rewrite Hgen.
  cbn [generated getMLFlowMessage carries_escape set_output_given is_tool
         is_text negb andb].
  rewrite run_step. cbn [Z.sub Z.leb Z.compare Z.add Z.opp Z.pos_sub].
  eexists. split; [reflexivity|]. exact Hreqs.
Qed.

(** ** Retries and the rate limiter, continued *)

(** The retry loop over a backend that always fails with RetryLater. *)
Lemma infer_attempts_all_retry {BState : Type} (self : LLM BState) sp msgs
    tools mode (remaining : nat) :
  always_retry_later self ->
  forall (retries : nat) (w : World BState),
    uniform_01 w ->
    let r := infer_attempts self sp msgs tools mode remaining retries w in
    fst r = Raised (RuntimeError "Max retries exceeded") /\
    length (requests (snd r)) = (length (requests w) + remaining)%nat /\
    slept (snd r)
    = slept w
      ++ map (fun i => backoff_delay (retries + i) (rng w (draws w + i)%nat))
           (seq 0 remaining).
Proof.
  intros Hall. induction remaining as [|remaining IH]; intros retries w Hrng.
  - cbn. rewrite app_nil_r. repeat split. lia.
  - cbn zeta. rewrite infer_attempts_step. cbn zeta.
    rewrite Hall, backoff_never_negative by apply Hrng.
    set (w2 := sleep_for _ _).
    destruct (IH (S retries) w2 Hrng) as (Hout & Hreq & Hslept).
    split; [exact Hout|]. split.
    + rewrite Hreq. unfold w2. cbn. rewrite length_app. cbn. lia.
    + rewrite Hslept. unfold w2.
      cbn [sleep_for draw note_request note_request_time observe_clock
             slept rng draws].
      rewrite <- app_assoc. f_equal. apply backoff_delays_shift.
Qed.

(** X9. Over a backend that fails with RetryLater at every attempt,
    [_infer] gives up with "Max retries exceeded" after exactly 5 calls, and
    the five backoff sleeps before it gives up add up to at least 155 and at
    most 160 time units, the sleep of the rate limiter not counted. *)
Theorem exhausted_retries_back_off {BState : Type} (self : LLM BState)
    (systemprompt : string) (messages : list Message) (tools : list Tool)
    (tool_mode : ToolMode) (w : World BState) :
  always_retry_later self ->
  uniform_01 w ->
  exists (wait backoff : list Q),
    let r := _infer self systemprompt messages tools tool_mode w in
    fst r = Raised (RuntimeError "Max retries exceeded") /\
    length (requests (snd r)) = (length (requests w) + 5)%nat /\
    slept (snd r) = slept w ++ wait ++ backoff /\
    (length wait <= 1)%nat /\
    length backoff = 5%nat /\
    (155 <= total backoff)%Q /\ (total backoff <= 160)%Q.
Proof.
  intros Hall Hrng. unfold _infer.
  destruct (rate_limit_returns w)
    as (w0 & Hrl & Hreq & _ & Hdraws & _ & _ & wait & Hwait & Hlen).
  rewrite (bind_returned _ _ _ _ _ Hrl).
  destruct (quiet_rate_limit w) as (_ & _ & Hsame & _).
  rewrite Hrl in Hsame. cbn [snd] in Hsame.
  assert (Hrng0 : uniform_01 w0) by (intros i; rewrite Hsame; apply Hrng).
  destruct (infer_attempts_all_retry self systemprompt messages tools
              tool_mode max_retries Hall 0 w0 Hrng0)
    as (Hout & Hcalls & Hslept).
  exists wait,
    (map (fun i => backoff_delay (0 + i) (rng w0 (draws w0 + i)%nat))
       (seq 0 max_retries)).
  cbn zeta. split; [exact Hout|]. split.
  { rewrite Hcalls, Hreq. reflexivity. } split.
  { rewrite Hslept, Hwait, <- app_assoc. reflexivity. }
  split; [exact Hlen|]. split.
  { rewrite length_map, length_seq. reflexivity. }
  pose proof (Hrng0 (draws w0 + 0)%nat) as [? ?].
  pose proof (Hrng0 (draws w0 + 1)%nat) as [? ?].
  pose proof (Hrng0 (draws w0 + 2)%nat) as [? ?].
  pose proof (Hrng0 (draws w0 + 3)%nat) as [? ?].
  pose proof (Hrng0 (draws w0 + 4)%nat) as [? ?].
  unfold max_retries, total, backoff_delay.
  cbn [seq map fold_right Nat.add].
  change (inject_Z (5 * 2 ^ Z.of_nat 0)) with (5 # 1).
  change (inject_Z (5 * 2 ^ Z.of_nat 1)) with (10 # 1).
  change (inject_Z (5 * 2 ^ Z.of_nat 2)) with (20 # 1).
  change (inject_Z (5 * 2 ^ Z.of_nat 3)) with (40 # 1).
  change (inject_Z (5 * 2 ^ Z.of_nat 4)) with (80 # 1).
  split; lra.
Qed.

(** X10. When a request has been made before, the rate limiter sleeps for
    exactly what is missing to one time unit since that request, and not at
    all when a unit or more has passed. *)
Theorem rate_limit_waits_for_the_remainder {BState : Type} (w : World BState)
    (previous : Q) :
  last_request_time w = Some previous ->
  let elapsed := (clock w + drift w (reads w) - previous)%Q in
  fst (rate_limit w) = Returned tt /\
  slept (snd (rate_limit w))
  = slept w ++ (if Qltb elapsed 1 then [(1 - elapsed)%Q] else []) /\
  last_request_time (snd (rate_limit w)) = Some previous.
Proof.
  intros Hlast. cbn zeta. unfold rate_limit, bind, get_world.
  rewrite Hlast. unfold ret, datetime_now, get_last_request_time.
  cbn [observe_clock last_request_time clock]. rewrite Hlast.
  destruct (Qltb (clock w + drift w (reads w) - previous) 1) eqn:Hsoon.
  - unfold time_sleep.
    destruct (Qltb (1 - (clock w + drift w (reads w) - previous)) 0) eqn:Hneg.
    { apply Qltb_lt in Hsoon, Hneg. lra. }
    cbn. rewrite Hlast. auto.
  - cbn. rewrite Hlast, app_nil_r. auto.
Qed.

(** X11. The first request of a process is never delayed: the attribute is
    initialised ten units in the past, so that the rate limiter does not
    sleep, provided the clock does not run backwards. *)
Theorem first_request_is_not_delayed {BState : Type} (w : World BState) :
  last_request_time w = None ->
  time_moves_forward w ->
  fst (rate_limit w) = Returned tt /\
  slept (snd (rate_limit w)) = slept w /\
  last_request_time (snd (rate_limit w))
  = Some (clock w + drift w (reads w) - 10)%Q.
Proof.
  intros Hlast Hforward. unfold rate_limit, bind, get_world.
  rewrite Hlast.
  unfold datetime_now, set_last_request_time, modify, get_last_request_time.
  cbn [observe_clock note_request_time last_request_time clock drift reads].
  pose proof (Hforward (S (reads w))) as Hd.
  destruct (Qltb _ 1) eqn:Hsoon.
  - apply Qltb_lt in Hsoon. lra.
  - cbn. auto.
Qed.

(** ** What a turn does to the history *)

Lemma items_at_same_heap {BState : Type} (l : loc) (w w' : World BState) :
  heap w' = heap w -> items_at l w' = items_at l w.
Proof. unfold items_at. intros ->. reflexivity. Qed.

Lemma first_mlflow_failure_prefix (a b : list Message) (e : Exn) :
  first_mlflow_failure a = Some e -> first_mlflow_failure (a ++ b) = Some e.
Proof.
  induction a as [|m a IH]; [discriminate|]. cbn.
  destruct (getMLFlowMessage m); auto.
Qed.

(** [_run] only appends to its list, whatever its outcome. *)
Lemma run_only_appends {BState : Type} (fuel : nat) :
  forall (self : Agent BState) it l mode tm stop w,
  exists added,
    items_at l (snd (_run fuel self it l mode tm stop w)) = items_at l w ++ added.
Proof.
  induction fuel as [|fuel IH]; intros self it l mode tm stop w.
  - exists []. cbn. rewrite app_nil_r. reflexivity.
  - rewrite run_step. destruct (it <=? 0)%Z.
    { exists []. cbn. rewrite app_nil_r. reflexivity. }
    cbn zeta.
    pose proof (generate_frame (llm self) (system_prompt self) (items_at l w)
                  (PyDict.values (fst (prepare_tools self mode tm))) mode w)
      as [Hheap _].
    destruct (generate _ _ _ _ _ w) as [[response| |] w1]; cbn [snd] in Hheap;
      try (exists []; cbn [snd]; rewrite app_nil_r;
           apply items_at_same_heap; assumption).
    apply (items_at_same_heap l) in Hheap.
    destruct (carries_escape response).
    { destruct (IH self it l AUTO tm stop w1) as (added & Hadded).
      exists added. rewrite Hadded, Hheap. reflexivity. }
    destruct (stop response).
    { exists [response]. cbn [snd]. rewrite append_item_same, Hheap. reflexivity. }
    destruct response as [role text|role calls results].
    + destruct (IH self (it - 1)%Z l (snd (prepare_tools self mode tm)) tm stop
                  (append_item l (TextMessage role text) w1)) as (added & Hadded).
      exists (TextMessage role text :: added).
      rewrite Hadded, append_item_same, Hheap, <- app_assoc. reflexivity.
    + set (results' := ToolMessage USER [] _).
      destruct (stop results').
      { exists [ToolMessage role calls results; results']. cbn [snd].
        rewrite !append_item_same, Hheap, <- app_assoc. reflexivity. }
      destruct (IH self (it - 1)%Z l (snd (prepare_tools self mode tm)) tm stop
                  (append_item l results'
                     (append_item l (ToolMessage role calls results) w1)))
        as (added & Hadded).
      exists (ToolMessage role calls results :: results' :: added).
      rewrite Hadded, !append_item_same, Hheap, <- !app_assoc. reflexivity.
Qed.

(** [chat] on a history that cannot be presented to the telemetry span. *)
Lemma chat_unpresentable {BState : Type} (fuel : nat) (self : Agent BState)
    (user_input : string) (tool_mode : option ToolMode) (w : World BState)
    (e : Exn) :
  first_mlflow_failure (history_items w self) = Some e ->
  chat fuel self user_input tool_mode w
  = (Raised e, append_item (history self) (TextMessage USER user_input) w).
Proof.
  intros Hbad. unfold history_items in Hbad. unfold chat, _invoke.
  unfold bind at 1 2. unfold list_append at 1. unfold modify at 1.
  unfold bind at 1. unfold _track_mlflow at 1. unfold bind at 1.
  unfold list_read at 1. rewrite append_item_same.
  rewrite (first_mlflow_failure_prefix _ _ e Hbad). reflexivity.
Qed.

(** X12. Whatever the outcome of a turn, [chat] only appends to the
    history: the messages it held are kept in place, the request follows
    them, and what the turn produced comes after the request. *)
Theorem chat_only_appends {BState : Type} (fuel : nat) (self : Agent BState)
    (user_input : string) (tool_mode : option ToolMode) (w : World BState) :
  exists added,
    history_items (snd (chat fuel self user_input tool_mode w)) self
    = history_items w self ++ TextMessage USER user_input :: added.
Proof.
  destruct (first_mlflow_failure (history_items w self)) as [e|] eqn:Hok.
  - exists []. rewrite (chat_unpresentable _ _ _ _ _ e Hok). cbn [snd].
    apply append_item_same.
  - rewrite chat_unfold by assumption.
    destruct (run_only_appends fuel self (max_iterations self) (history self)
                (default (default_tool_mode self) tool_mode) (tool_map self)
                is_text
                (append_item (history self) (TextMessage USER user_input) w))
      as (added & Hadded).
    rewrite append_item_same, <- app_assoc in Hadded. cbn [app] in Hadded.
    exists added. unfold history_items. fold (items_at (history self) w).
    destruct (_run fuel self _ _ _ _ is_text _) as [[l| |] w1];
      cbn [snd] in *; try exact Hadded.
    destruct (last (items_at l w1)) as [response|]; [|exact Hadded].
    destruct (first_mlflow_failure (items_at l w1)); [exact Hadded|].
    destruct response; exact Hadded.
Qed.

(** X13. When [chat] returns, the agent is the one it was called on, its
    history attribute still names the same list, and the returned text is
    the text of the last message of the history, which is a text message. *)
Theorem chat_returns_last_text {BState : Type} (fuel : nat)
    (self self' : Agent BState) (user_input text : string)
    (tool_mode : option ToolMode) (w w' : World BState) :
  chat fuel self user_input tool_mode w = (Returned (self', text), w') ->
  self' = self /\
  exists role, last (history_items w' self) = Some (TextMessage role text).
Proof.
  destruct (first_mlflow_failure (history_items w self)) as [e|] eqn:Hok.
  { rewrite (chat_unpresentable _ _ _ _ _ e Hok). discriminate. }
  rewrite chat_unfold by assumption.
  destruct (_run fuel self _ _ _ _ is_text _) as [[l| |] w1] eqn:Hrun;
    try discriminate.
  apply run_returns_its_list in Hrun. subst l.
  destruct (last (items_at (history self) w1)) as [response|] eqn:Hlast;
    [|discriminate].
  destruct (first_mlflow_failure (items_at (history self) w1)); [discriminate|].
  destruct response as [role text'|]; [|discriminate].
  rewrite set_history_same. intros H. inversion H; subst.
  split; [reflexivity|]. exists role. exact Hlast.
Qed.

(** X14. Once the history holds a tool message with neither calls nor
    results, a turn cannot start: [chat] appends the request, raises the
    RuntimeError of [getMLFlowMessage] and does not call the backend. *)
Theorem chat_on_unpresentable_history {BState : Type} (fuel : nat)
    (self : Agent BState) (user_input : string) (tool_mode : option ToolMode)
    (w : World BState) (role : MessageRole) :
  In (ToolMessage role [] []) (history_items w self) ->
  chat fuel self user_input tool_mode w
  = (Raised (RuntimeError "ToolMessage must have either tool_calls or tool_results"),
     append_item (history self) (TextMessage USER user_input) w) /\
  requests (snd (chat fuel self user_input tool_mode w)) = requests w.
Proof.
  intros Hin.
  assert (Hbad : first_mlflow_failure (history_items w self)
                 = Some (RuntimeError
                           "ToolMessage must have either tool_calls or tool_results")).
  { induction (history_items w self) as [|m items IH]; [contradiction|].
    cbn. destruct Hin as [->|Hin]; [reflexivity|].
    destruct (getMLFlowMessage m) as [e|] eqn:Hm; [|auto].
    destruct m as [|r calls results]; [discriminate|].
    destruct calls; [|discriminate]. destruct results; [|discriminate].
    symmetry. exact Hm. }
  rewrite (chat_unpresentable _ _ _ _ _ _ Hbad). split; reflexivity.
Qed.

(** A message that [infer_attempts] returns is a reply of the backend. *)
Lemma infer_attempts_returned {BState : Type} (self : LLM BState) sp msgs
    tools mode (remaining : nat) :
  forall (retries : nat) (w w' : World BState) (m : Message),
    infer_attempts self sp msgs tools mode remaining retries w = (Returned m, w') ->
    exists b, fst (_inferModel self sp msgs tools mode b) = inl m.
Proof.
  induction remaining as [|remaining IH]; intros retries w w' m.
  - discriminate.
  - rewrite infer_attempts_step. cbn zeta.
    destruct (is_retry_later _) eqn:Hretry.
    + destruct (Qltb _ 0); [discriminate|]. apply IH.
    + intros H. exists (backend w).
      destruct (fst (_inferModel self sp msgs tools mode (backend w)));
        cbn [passed_on] in H; inversion H; reflexivity.
Qed.

(** A message that [generate] returns is a reply of the backend that can be
    presented to the span. *)
Lemma generate_returned {BState : Type} (self : LLM BState) sp msgs tools mode
    (w w' : World BState) (m : Message) :
  generate self sp msgs tools mode w = (Returned m, w') ->
  getMLFlowMessage m = None /\
  exists b, fst (_inferModel self sp msgs tools mode b) = inl m.
Proof.
  unfold generate. unfold bind at 1. unfold set_span_attributes, modify.
  destruct (last msgs); [|discriminate].
  destruct (first_mlflow_failure msgs); [discriminate|].
  unfold bind at 1.
  destruct (_infer self sp msgs tools mode _) as [[r| |] w1] eqn:Hinf;
    try discriminate.
  destruct (getMLFlowMessage r) eqn:Hr; [discriminate|].
  intros H. inversion H; subst. split; [exact Hr|].
  unfold _infer in Hinf.
  destruct (rate_limit_returns
              (note_span (mkLLMSpan (map tool_name tools) mode) w))
    as (w0 & Hrl & _).
  rewrite (bind_returned _ _ _ _ _ Hrl) in Hinf.
  apply infer_attempts_returned in Hinf. exact Hinf.
Qed.

(** With a backend whose tool messages carry calls, [_run] keeps its list
    presentable. *)
Lemma run_keeps_presentable {BState : Type} (fuel : nat) :
  forall (self : Agent BState) it l mode tm stop w,
    answers_with_calls (llm self) ->
    first_mlflow_failure (items_at l w) = None ->
    first_mlflow_failure (items_at l (snd (_run fuel self it l mode tm stop w)))
    = None.
Proof.
  induction fuel as [|fuel IH]; intros self it l mode tm stop w Hcalls Hok.
  - exact Hok.
  - rewrite run_step. destruct (it <=? 0)%Z; [exact Hok|]. cbn zeta.
    pose proof (generate_frame (llm self) (system_prompt self) (items_at l w)
                  (PyDict.values (fst (prepare_tools self mode tm))) mode w)
      as [Hheap _].
    destruct (generate _ _ _ _ _ w) as [[response| |] w1] eqn:Hgen;
      cbn [snd] in Hheap; apply (items_at_same_heap l) in Hheap;
      try (cbn [snd]; rewrite Hheap; exact Hok).
    apply generate_returned in Hgen as (Hpresentable & b & Hreply).
    assert (Hone : first_mlflow_failure
                     (items_at l (append_item l response w1)) = None).
    { rewrite append_item_same, Hheap. apply first_mlflow_failure_app.
      split; [exact Hok|]. cbn. rewrite Hpresentable. reflexivity. }
    destruct (carries_escape response).
    { apply IH; [assumption|]. rewrite Hheap. exact Hok. }
    destruct (stop response); [exact Hone|].
    destruct response as [role text|role calls results].
    + apply IH; assumption.
    + set (results' := ToolMessage USER [] _).
      assert (Htwo : first_mlflow_failure
                       (items_at l (append_item l results'
                          (append_item l (ToolMessage role calls results) w1)))
                     = None).
      { rewrite append_item_same. apply first_mlflow_failure_app.
        split; [exact Hone|]. unfold results'.
        destruct calls as [|call calls]; [|reflexivity].
        exfalso. exact (Hcalls _ _ _ _ _ _ _ Hreply). }
      destruct (stop results'); [exact Htwo|]. apply IH; assumption.
Qed.

(** X15. With a backend whose tool messages carry calls, a history that can
    be presented to the telemetry span stays so over a turn, whatever the
    outcome of the turn. *)
Theorem chat_keeps_history_presentable {BState : Type} (fuel : nat)
    (self : Agent BState) (user_input : string) (tool_mode : option ToolMode)
    (w : World BState) :
  answers_with_calls (llm self) ->
  first_mlflow_failure (history_items w self) = None ->
  first_mlflow_failure
    (history_items (snd (chat fuel self user_input tool_mode w)) self) = None.
Proof.
  intros Hcalls Hok. rewrite chat_unfold by assumption.
  pose proof (run_keeps_presentable fuel self (max_iterations self)
                (history self) (default (default_tool_mode self) tool_mode)
                (tool_map self) is_text
                (append_item (history self) (TextMessage USER user_input) w)
                Hcalls) as Hrun.
  unfold history_items in *. fold (items_at (history self) w) in Hok.
  rewrite append_item_same in Hrun.
  assert (Hstart : first_mlflow_failure
                     (items_at (history self) w ++ [TextMessage USER user_input])
                   = None)
    by (apply first_mlflow_failure_app; split; [exact Hok|reflexivity]).
  specialize (Hrun Hstart).
  destruct (_run fuel self _ _ _ _ is_text _) as [[l| |] w1];
    cbn [snd] in *; try exact Hrun.
  destruct (last (items_at l w1)) as [response|]; [|exact Hrun].
  destruct (first_mlflow_failure (items_at l w1)); [exact Hrun|].
  destruct response; exact Hrun.
Qed.

(** X16. A response that is a tool message with results but without calls
    ruins the history: the loop appends it, then appends a tool message
    with neither calls nor results for the calls it did not find, and the
    turn fails on the next iteration. *)
Theorem results_only_response_ruins_history {BState : Type} (fuel : nat)
    (self : Agent BState) (user_input : string) (tool_mode : option ToolMode)
    (w : World BState) (role : MessageRole) (result : ToolResult)
    (results : list ToolResult) (b' : BState) :
  (0 < max_iterations self)%Z ->
  (2 <= fuel)%nat ->
  first_mlflow_failure (history_items w self) = None ->
  (forall tools mode,
      _inferModel (llm self) (system_prompt self)
        (history_items w self ++ [TextMessage USER user_input]) tools mode
        (backend w)
      = (inl (ToolMessage role [] (result :: results)), b')) ->
  exists w',
    chat fuel self user_input tool_mode w
    = (Raised (if (max_iterations self <=? 1)%Z then iteration_exhaustion
               else RuntimeError
                      "ToolMessage must have either tool_calls or tool_results"),
       w') /\
    history_items w' self
    = history_items w self
      ++ [TextMessage USER user_input;
          ToolMessage role [] (result :: results);
          ToolMessage USER [] []] /\
    length (requests w') = S (length (requests w)).
Proof.
  intros Hbudget Hfuel Hok Hreply. rewrite chat_unfold by assumption.
  unfold history_items in *.
  destruct fuel as [|[|fuel]]; try lia. rewrite run_step.
  destruct (Z.leb_spec (max_iterations self) 0); [lia|]. cbn zeta.
  set (w0 := append_item (history self) (TextMessage USER user_input) w).
  assert (Hitems : items_at (history self) w0
                   = items_at (history self) w ++ [TextMessage USER user_input])
    by apply append_item_same.
  rewrite Hitems.
  destruct (generate_first_reply (llm self) (system_prompt self)
              (items_at (history self) w ++ [TextMessage USER user_input])
              (PyDict.values (fst (prepare_tools self
                 (default (default_tool_mode self) tool_mode) (tool_map self))))
              (default (default_tool_mode self) tool_mode) w0
              (inl (ToolMessage role [] (result :: results))) b')
    as (w1 & Hgen & Hheap & Hreqs & _).
  { apply items_nonempty_snoc. }
  { apply first_mlflow_failure_app. split; [assumption|reflexivity]. }
  { apply Hreply. }
  { reflexivity. }
  rewrite Hgen.
  cbn [generated getMLFlowMessage carries_escape existsb is_text
         _execute_all_tools map].
  set (w2 := append_item (history self) (ToolMessage USER [] [])
               (append_item (history self)
                  (ToolMessage role [] (result :: results)) w1)).
  assert (Hfinal : items_at (history self) w2
                   = items_at (history self) w
                     ++ [TextMessage USER user_input;
                         ToolMessage role [] (result :: results);
                         ToolMessage USER [] []]).
  { unfold w2. rewrite !append_item_same.
    rewrite (items_at_same_heap _ _ _ Hheap), Hitems, <- !app_assoc.
    reflexivity. }
  assert (Hreqs2 : length (requests w2) = S (length (requests w)))
    by exact Hreqs.
  rewrite run_step.
  destruct (Z.leb_spec (max_iterations self - 1) 0) as [Hlast|Hmore].
  - destruct (Z.leb_spec (max_iterations self) 1); [|lia].
    exists w2. auto.
  - destruct (Z.leb_spec (max_iterations self) 1); [lia|]. cbn zeta.
    rewrite Hfinal.
    set (tools := PyDict.values _). set (mode := snd _).
    assert (Hgen2 : generate (llm self) (system_prompt self)
                      (items_at (history self) w
                         ++ [TextMessage USER user_input;
                             ToolMessage role [] (result :: results);
                             ToolMessage USER [] []]) tools mode w2
                    = (Raised (RuntimeError
                         "ToolMessage must have either tool_calls or tool_results"),
                       note_span (mkLLMSpan (map tool_name tools) mode) w2)).
    { unfold generate. unfold bind at 1. unfold set_span_attributes, modify.
      rewrite last_app. cbn [last].
      replace (first_mlflow_failure _)
        with (Some (RuntimeError
                      "ToolMessage must have either tool_calls or tool_results")).
      - reflexivity.
      - symmetry.
        assert (Hmid : forall a b,
                   first_mlflow_failure a = None ->
                   first_mlflow_failure (a ++ b) = first_mlflow_failure b).
        { intros a b. induction a as [|m a IH]; [reflexivity|]. cbn.
          destruct (getMLFlowMessage m); [discriminate|exact IH]. }
        rewrite Hmid by assumption. reflexivity. }
    rewrite Hgen2. eexists. split; [reflexivity|].
    split; [exact Hfinal|exact Hreqs2].
Qed.

(** ** Results by name *)

(** X17. Looking up a name in the results of a response gives the result
    of the first call of that name: when the backend calls a tool twice in
    one response, [get] answers with the first call's result. *)
Theorem get_answers_first_call_of_name {BState : Type} (self : Agent BState)
    (calls : list ToolCall) (tool_map : PyDict.t Tool) (role : MessageRole)
    (name : string) :
  message_get (ToolMessage role [] (_execute_all_tools self calls tool_map)) name
  = option_map (fun call => _execute_tool self call tool_map)
      (List.find (fun call => String.eqb (tc_name call) name) calls).
Proof.
  cbn [message_get]. unfold _execute_all_tools.
  induction calls as [|call calls IH]; [reflexivity|].
  cbn [map find_result List.find tr_name tr_result].
  destruct (String.eqb (tc_name call) name); [reflexivity|exact IH].
Qed.

(** * Further parts of the framework *)

(** ** Dictionaries *)

Lemma get_set {V : Type} (d : PyDict.t V) (k k' : string) (v : V) :
  PyDict.get (PyDict.set d k v) k'
  = if String.eqb k k' then Some v else PyDict.get d k'.
Proof.
  induction d as [|[k0 v0] d IH]; cbn.
  - reflexivity.
  - destruct (String.eqb_spec k0 k) as [->|Hne]; cbn.
    + destruct (String.eqb k k'); reflexivity.
    + rewrite IH.
      destruct (String.eqb_spec k0 k') as [->|Hne'];
        destruct (String.eqb_spec k k') as [->|Hne'']; congruence.
Qed.

Lemma get_absent {V : Type} (d : PyDict.t V) (k : string) :
  k ∉ PyDict.keys d -> PyDict.get d k = None.
Proof.
  induction d as [|[k0 v0] d IH]; cbn; [reflexivity|]. intros Hk.
  apply not_elem_of_cons in Hk as [Hne Hk].
  destruct (String.eqb_spec k0 k); [congruence|auto].
Qed.

Lemma keys_set {V : Type} (d : PyDict.t V) (k x : string) (v : V) :
  x ∈ PyDict.keys (PyDict.set d k v) -> x = k \/ x ∈ PyDict.keys d.
Proof.
  induction d as [|[k0 v0] d IH]; cbn.
  - intros Hx. apply list_elem_of_singleton in Hx. auto.
  - destruct (String.eqb_spec k0 k) as [->|Hne]; cbn.
    + auto.
    + intros Hx. apply elem_of_cons in Hx as [->|Hx].
      * right. left.
      * destruct (IH Hx); [auto|]. right. right. assumption.
Qed.

Lemma NoDup_keys_set {V : Type} (d : PyDict.t V) (k : string) (v : V) :
  NoDup (PyDict.keys d) -> NoDup (PyDict.keys (PyDict.set d k v)).
Proof.
  induction d as [|[k0 v0] d IH]; cbn.
  - intros _. apply NoDup_singleton.
  - intros Hd. apply NoDup_cons in Hd as [Hk0 Hd].
    destruct (String.eqb_spec k0 k) as [->|Hne]; cbn.
    + apply NoDup_cons. auto.
    + apply NoDup_cons. split; [|auto].
      intros Hin. apply keys_set in Hin as [->|Hin]; [congruence|exact (Hk0 Hin)].
Qed.

Lemma keys_pop {V : Type} (d : PyDict.t V) (k x : string) :
  x ∈ PyDict.keys (dict_pop d k) -> x ∈ PyDict.keys d.
Proof.
  induction d as [|[k0 v0] d IH]; cbn; [auto|].
  destruct (String.eqb_spec k0 k) as [->|Hne]; cbn.
  - intros Hx. right. assumption.
  - intros Hx. apply elem_of_cons in Hx as [->|Hx]; [left|right; auto].
Qed.

Lemma get_pop {V : Type} (d : PyDict.t V) (k k' : string) :
  NoDup (PyDict.keys d) ->
  PyDict.get (dict_pop d k) k'
  = if String.eqb k k' then None else PyDict.get d k'.
Proof.
  induction d as [|[k0 v0] d IH]; cbn.
  - intros _. destruct (String.eqb k k'); reflexivity.
  - intros Hd. apply NoDup_cons in Hd as [Hk0 Hd].
    destruct (String.eqb_spec k0 k) as [->|Hne]; cbn.
    + destruct (String.eqb_spec k k') as [Heq|Hne']; [|reflexivity].
      rewrite <- Heq. apply get_absent. assumption.
    + rewrite IH by assumption.
      destruct (String.eqb_spec k0 k') as [->|Hne'];
        destruct (String.eqb_spec k k') as [->|Hne'']; congruence.
Qed.

Lemma pop_absent {V : Type} (d : PyDict.t V) (k : string) :
  k ∉ PyDict.keys d -> dict_pop d k = d.
Proof.
  induction d as [|[k0 v0] d IH]; cbn; [reflexivity|]. intros Hk.
  apply not_elem_of_cons in Hk as [Hne Hk].
  destruct (String.eqb_spec k0 k); [congruence|]. rewrite IH; auto.
Qed.

Lemma pop_removes {V : Type} (d : PyDict.t V) (k : string) :
  NoDup (PyDict.keys d) -> k ∉ PyDict.keys (dict_pop d k).
Proof.
  induction d as [|[k0 v0] d IH]; cbn.
  - intros _. apply not_elem_of_nil.
  - intros Hd. apply NoDup_cons in Hd as [Hk0 Hd].
    destruct (String.eqb_spec k0 k) as [->|Hne]; cbn; [assumption|].
    apply not_elem_of_cons. split; [congruence|auto].
Qed.

(** ** Names of agents *)

Lemma name_character_not_space (c : ascii) :
  name_character c = true -> Ascii.eqb c " "%char = false.
Proof.
  destruct (Ascii.eqb_spec c " "%char) as [->|]; [|reflexivity].
  intros H. vm_compute in H. discriminate.
Qed.

Lemma sanatized_name_allowed (agent_name : string) :
  forallb name_character (String.list_ascii_of_string (sanatized_name agent_name)) = true.
Proof.
  unfold sanatized_name.
  induction agent_name as [|c rest IH]; cbn [replace_spaces strip_other_characters].
  - reflexivity.
  - destruct (name_character (if Ascii.eqb c " "%char then "_"%char else c))
      eqn:Hc; [|exact IH].
    cbn [String.list_ascii_of_string forallb]. rewrite Hc. exact IH.
Qed.

Lemma sanatized_name_fixes (agent_name : string) :
  forallb name_character (String.list_ascii_of_string agent_name) = true ->
  sanatized_name agent_name = agent_name.
Proof.
  unfold sanatized_name.
  induction agent_name as [|c rest IH];
    cbn [replace_spaces strip_other_characters String.list_ascii_of_string forallb].
  - reflexivity.
  - intros H. apply andb_prop in H as [Hc Hrest].
    rewrite (name_character_not_space c Hc), Hc, IH by assumption. reflexivity.
Qed.

(** X18. The sanitised name of an agent, under which it is offered as a
    tool, is made of letters, digits, underscores, dots and hyphens only;
    a name that is already made of these is kept as it is, and no other
    name is; sanitising twice changes nothing more. *)
Theorem sanatized_name_characters (agent_name : string) :
  forallb name_character (String.list_ascii_of_string (sanatized_name agent_name)) = true /\
  (sanatized_name agent_name = agent_name <->
   forallb name_character (String.list_ascii_of_string agent_name) = true) /\
  sanatized_name (sanatized_name agent_name) = sanatized_name agent_name.
Proof.
  split; [apply sanatized_name_allowed|]. split.
  - split.
    + intros H. rewrite <- H at 1. apply sanatized_name_allowed.
    + apply sanatized_name_fixes.
  - apply sanatized_name_fixes, sanatized_name_allowed.
Qed.

(** ** Adding and removing tools *)

(** X19. The function that [add_tool] returns removes the name, not the
    registration: a tool that the new one replaced does not come back, the
    tools under other names are kept, and a second call changes nothing. *)
Theorem remover_forgets_replaced_tool {BState : Type} (self : Agent BState)
    (tool : Tool) :
  NoDup (PyDict.keys (tool_map self)) ->
  let removed := add_tool_remover (add_tool self tool) tool in
  (forall k,
      PyDict.get (tool_map removed) k
      = if String.eqb (tool_name tool) k then None
        else PyDict.get (tool_map self) k) /\
  add_tool_remover removed tool = removed.
Proof.
  intros Hkeys. cbn zeta.
  pose proof (NoDup_keys_set (tool_map self) (tool_name tool) tool Hkeys) as Hset.
  split.
  - intros k. cbn [add_tool_remover add_tool tool_map].
    rewrite get_pop by assumption. rewrite get_set.
    destruct (String.eqb (tool_name tool) k); reflexivity.
  - unfold add_tool_remover at 1. cbn [add_tool_remover add_tool tool_map llm name
      system_prompt max_iterations allow_poking default_tool_mode history hook_map].
    rewrite (pop_absent (dict_pop _ _)) by (apply pop_removes; assumption).
    reflexivity.
Qed.

(** ** Token counters *)

Lemma collectTokenStats_from (_all_trackers : list Tracker.t) :
  forall a b c : Z,
    fold_left
      (fun stats tracker =>
         let stats :=
           Tracker.add_to stats "total_invocations" (Tracker._invocation tracker) in
         let stats :=
           Tracker.add_to stats "total_cumulative_completion_tokens"
             (Tracker._cumulative_completion_tokens tracker) in
         Tracker.add_to stats "total_cumulative_prompt_tokens"
           (Tracker._cumulative_prompt_tokens tracker))
      _all_trackers
      [("total_invocations", a);
       ("total_cumulative_completion_tokens", b);
       ("total_cumulative_prompt_tokens", c)]
    = [("total_invocations",
        (a + foldr Z.add 0 (map Tracker._invocation _all_trackers))%Z);
       ("total_cumulative_completion_tokens",
        (b + foldr Z.add 0
               (map Tracker._cumulative_completion_tokens _all_trackers))%Z);
       ("total_cumulative_prompt_tokens",
        (c + foldr Z.add 0
               (map Tracker._cumulative_prompt_tokens _all_trackers))%Z)].
Proof.
  induction _all_trackers as [|tracker rest IH]; intros a b c.
  - cbn. rewrite !Z.add_0_r. reflexivity.
  - cbn [fold_left map foldr]. cbn zeta.
    change (Tracker.add_to
              (Tracker.add_to
                 (Tracker.add_to
                    [("total_invocations", a);
                     ("total_cumulative_completion_tokens", b);
                     ("total_cumulative_prompt_tokens", c)]
                    "total_invocations" (Tracker._invocation tracker))
                 "total_cumulative_completion_tokens"
                 (Tracker._cumulative_completion_tokens tracker))
              "total_cumulative_prompt_tokens"
              (Tracker._cumulative_prompt_tokens tracker))
      with [("total_invocations", (a + Tracker._invocation tracker)%Z);
            ("total_cumulative_completion_tokens",
             (b + Tracker._cumulative_completion_tokens tracker)%Z);
            ("total_cumulative_prompt_tokens",
             (c + Tracker._cumulative_prompt_tokens tracker)%Z)].
    rewrite IH, !Z.add_assoc. reflexivity.
Qed.

Lemma sum_after_alter (g : Tracker.t -> Z) (f : Tracker.t -> Tracker.t) (d : Z)
    (l : list Tracker.t) :
  (forall x, g (f x) = (g x + d)%Z) ->
  forall i, (i < length l)%nat ->
    foldr Z.add 0%Z (map g (alter f i l)) = (foldr Z.add 0 (map g l) + d)%Z.
Proof.
  intros Hg. induction l as [|x l IH]; intros i Hi; cbn in Hi; [lia|].
  destruct i as [|i]; cbn.
  - rewrite Hg. lia.
  - rewrite IH by lia. lia.
Qed.

(** X20. Every call of [logTokens], on whichever tracker of the process,
    adds one invocation, its completion tokens and its prompt tokens to the
    totals that [collectTokenStats] reports; the [total] argument is not
    counted. A new tracker changes none of the totals. *)
Theorem logTokens_adds_to_totals (_all_trackers : list Tracker.t) (i : nat)
    (prompt completion total : Z) :
  (i < length _all_trackers)%nat ->
  Tracker.collectTokenStats
    (Tracker.logTokens_at _all_trackers i prompt completion total)
  = Tracker.add_to
      (Tracker.add_to
         (Tracker.add_to (Tracker.collectTokenStats _all_trackers)
            "total_invocations" 1)
         "total_cumulative_completion_tokens" completion)
      "total_cumulative_prompt_tokens" prompt /\
  Tracker.collectTokenStats (Tracker.new _all_trackers)
  = Tracker.collectTokenStats _all_trackers.
Proof.
  intros Hi. unfold Tracker.collectTokenStats, Tracker.logTokens_at, Tracker.new.
  rewrite !collectTokenStats_from. split.
  - rewrite (sum_after_alter Tracker._invocation _ 1) by (auto; reflexivity).
    rewrite (sum_after_alter Tracker._cumulative_completion_tokens _ completion)
      by (auto; reflexivity).
    rewrite (sum_after_alter Tracker._cumulative_prompt_tokens _ prompt)
      by (auto; reflexivity).
    reflexivity.
  - rewrite !map_app, !foldr_app. cbn [map foldr Tracker._invocation
      Tracker._cumulative_completion_tokens Tracker._cumulative_prompt_tokens].
    reflexivity.
Qed.

(** ** Teams *)

(** X21. [add_connection] keeps the members of a team distinct: each end of
    the connection is added once if it is not a member yet, also when both
    ends are the same agent; the members it had stay in front, and the
    connection goes to the end of the connections. *)
Theorem add_connection_keeps_members_distinct {A : Type} `{EqDecision A}
    (self : Team.t A) (member1 member2 : A) (connection : Team.Connection) :
  NoDup (Team.members self) ->
  let joined := Team.add_connection self member1 connection member2 in
  NoDup (Team.members joined) /\
  member1 ∈ Team.members joined /\ member2 ∈ Team.members joined /\
  Team.members self `prefix_of` Team.members joined /\
  (length (Team.members joined) <= length (Team.members self) + 2)%nat /\
  Team.connections joined
  = Team.connections self ++ [(member1, connection, member2)].
Proof.
  intros Hdistinct. cbn zeta. unfold Team.add_connection.
  destruct (decide (member1 ∈ Team.members self)) as [H1|H1].
  - destruct (decide (member2 ∈ Team.members self)) as [H2|H2];
      cbn [Team.members Team.connections Team.add_member].
    + repeat split; auto. lia.
    + repeat split; auto.
      * apply NoDup_app. repeat split; [assumption| |apply NoDup_singleton].
        intros x Hx Hx'. apply list_elem_of_singleton in Hx'. congruence.
      * apply elem_of_app. auto.
      * apply elem_of_app. right. apply list_elem_of_singleton. reflexivity.
      * apply prefix_app_r. reflexivity.
      * rewrite length_app. cbn. lia.
  - cbn [Team.members Team.connections Team.add_member].
    assert (Hone : NoDup (Team.members self ++ [member1])).
    { apply NoDup_app. repeat split; [assumption| |apply NoDup_singleton].
      intros x Hx Hx'. apply list_elem_of_singleton in Hx'. congruence. }
    assert (Hin1 : member1 ∈ Team.members self ++ [member1]).
    { apply elem_of_app. right. apply list_elem_of_singleton. reflexivity. }
    destruct (decide (member2 ∈ Team.members self ++ [member1])) as [H2|H2];
      cbn [Team.members Team.connections Team.add_member].
    + repeat split; auto.
      * apply prefix_app_r. reflexivity.
      * rewrite length_app. cbn. lia.
    + repeat split; auto.
      * apply NoDup_app. repeat split; [assumption| |apply NoDup_singleton].
        intros x Hx Hx'. apply list_elem_of_singleton in Hx'. congruence.
      * apply elem_of_app. auto.
      * apply elem_of_app. right. apply list_elem_of_singleton. reflexivity.
      * rewrite <- app_assoc. apply prefix_app_r. reflexivity.
      * rewrite !length_app. cbn. lia.
Qed.

Lemma add_connection_joins {A : Type} `{EqDecision A} (self : Team.t A)
    (member1 member2 : A) (connection : Team.Connection) :
  member1 ∈ Team.members (Team.add_connection self member1 connection member2) /\
  member2 ∈ Team.members (Team.add_connection self member1 connection member2).
Proof.
  unfold Team.add_connection.
  destruct (decide (member1 ∈ Team.members self)) as [H1|H1];
    cbn [Team.members Team.add_member].
  - destruct (decide (member2 ∈ Team.members self)) as [H2|H2];
      cbn [Team.members Team.add_member]; split; auto;
      apply elem_of_app; auto; right; apply list_elem_of_singleton; reflexivity.
  - assert (Hin1 : member1 ∈ Team.members self ++ [member1])
      by (apply elem_of_app; right; apply list_elem_of_singleton; reflexivity).
    destruct (decide (member2 ∈ Team.members self ++ [member1])) as [H2|H2];
      cbn [Team.members Team.add_member]; split; auto;
      apply elem_of_app; auto; right; apply list_elem_of_singleton; reflexivity.
Qed.

(** X22. Either end of a connection can start the team: after
    [add_connection], [kickoff] with one of the two agents does not refuse
    it and is a turn of that agent on the prompt, whose answer is dropped. *)
Theorem kickoff_of_connected_member {A : Type} `{EqDecision A} {BState : Type}
    (agents : A -> Agent BState) (fuel : nat) (self : Team.t A)
    (member1 member2 start : A) (connection : Team.Connection)
    (prompt : string) (w : World BState) :
  start = member1 \/ start = member2 ->
  Team.kickoff agents fuel
    (Team.add_connection self member1 connection member2) start prompt w
  = match chat fuel (agents start) prompt None w with
    | (Returned _, w') => (Returned tt, w')
    | (Raised e, w') => (Raised e, w')
    | (OutOfFuel, w') => (OutOfFuel, w')
    end.
Proof.
  intros Hstart. unfold Team.kickoff.
  destruct (add_connection_joins self member1 member2 connection) as [H1 H2].
  destruct (decide (start ∈ _)) as [Hin|Hout].
  - unfold bind. destruct (chat fuel (agents start) prompt None w) as [[r| |] w'];
      reflexivity.
  - exfalso. apply Hout. destruct Hstart as [->| ->]; assumption.
Qed.

(** ** Conversations *)

Lemma dict_of_snoc {V : Type} (items : list (string * V)) (k : string) (v : V) :
  dict_of (items ++ [(k, v)]) = PyDict.set (dict_of items) k v.
Proof. unfold dict_of. rewrite fold_left_app. reflexivity. Qed.

Lemma get_partner_by_name {BState : Type} (partners : list (Agent BState))
    (n : string) :
  PyDict.get (dict_of (map (fun user => (name user, user)) partners)) n
  = List.find (fun user => String.eqb (name user) n) (rev partners).
Proof.
  induction partners as [|user partners IH] using rev_ind; [reflexivity|].
  rewrite map_app. cbn [map]. rewrite dict_of_snoc, get_set, rev_unit.
  cbn [List.find]. destruct (String.eqb (name user) n); [reflexivity|exact IH].
Qed.

(** X23. Without a prefix (none, or the empty one) the partners are found
    by name, and when several partners share a name the one given last
    answers to it: the earlier ones cannot be addressed. *)
Theorem later_partner_takes_shared_name {BState : Type}
    (partners : list (Agent BState)) (n : string) :
  PyDict.get (partnerMap None partners) n
  = List.find (fun user => String.eqb (name user) n) (rev partners) /\
  partnerMap (Some EmptyString) partners = partnerMap None partners.
Proof. split; [apply get_partner_by_name|reflexivity]. Qed.

Lemma alias_inj (prefix : string) (i j : nat) :
  (prefix ++ " " ++ pretty i)%string = (prefix ++ " " ++ pretty j)%string -> i = j.
Proof.
  intros H. apply (inj (String.append prefix)) in H.
  apply (inj (String.append " ")) in H. apply (inj pretty) in H. exact H.
Qed.

Lemma keys_anonymous {BState : Type} (prefix : string)
    (partners : list (Agent BState)) (x : string) :
  x ∈ PyDict.keys
        (dict_of (imap (fun i user => (prefix ++ " " ++ pretty i, user)%string)
                    partners)) ->
  exists j, (j < length partners)%nat /\ x = (prefix ++ " " ++ pretty j)%string.
Proof.
  induction partners as [|user partners IH] using rev_ind.
  - intros Hx. apply not_elem_of_nil in Hx. contradiction.
  - rewrite imap_app. cbn [imap]. rewrite Nat.add_0_r, dict_of_snoc.
    intros Hx. apply keys_set in Hx as [->|Hx].
    + exists (length partners). rewrite length_app. cbn. split; [lia|reflexivity].
    + destruct (IH Hx) as (j & Hj & ->). exists j. rewrite length_app.
      split; [lia|reflexivity].
Qed.

Lemma length_set_new {V : Type} (d : PyDict.t V) (k : string) (v : V) :
  k ∉ PyDict.keys d -> length (PyDict.set d k v) = S (length d).
Proof.
  induction d as [|[k0 v0] d IH]; cbn; [reflexivity|]. intros Hk.
  apply not_elem_of_cons in Hk as [Hne Hk].
  destruct (String.eqb_spec k0 k); [congruence|]. cbn. rewrite IH; auto.
Qed.

Lemma anonymous_partners {BState : Type} (prefix : string)
    (partners : list (Agent BState)) :
  length (dict_of (imap (fun i user => (prefix ++ " " ++ pretty i, user)%string)
                     partners)) = length partners /\
  forall i user,
    partners !! i = Some user ->
    PyDict.get
      (dict_of (imap (fun i user => (prefix ++ " " ++ pretty i, user)%string)
                  partners))
      (prefix ++ " " ++ pretty i)%string = Some user.
Proof.
  induction partners as [|user partners [IHlen IHget]] using rev_ind.
  - split; [reflexivity|]. intros i user H. discriminate.
  - rewrite imap_app. cbn [imap]. rewrite Nat.add_0_r, dict_of_snoc. split.
    + rewrite length_set_new, IHlen, length_app; [cbn; lia|].
      intros Hin. apply keys_anonymous in Hin as (j & Hj & Heq).
      apply alias_inj in Heq. lia.
    + intros i user' Hi. rewrite get_set.
      apply lookup_snoc_Some in Hi as [[Hlt Hi]|[-> ->]].
      * destruct (String.eqb_spec (prefix ++ " " ++ pretty (length partners))%string
                    (prefix ++ " " ++ pretty i)%string) as [Heq|_].
        { apply alias_inj in Heq. lia. }
        apply IHget. exact Hi.
      * rewrite String.eqb_refl. reflexivity.
Qed.

(** X24. With a non-empty prefix every partner can be addressed, under the
    prefix followed by its position, also when partners share a name: the
    partner map has as many entries as there are partners. *)
Theorem anonymised_partner_is_reachable {BState : Type} (prefix : string)
    (partners : list (Agent BState)) (i : nat) (user : Agent BState) :
  prefix <> EmptyString ->
  partners !! i = Some user ->
  PyDict.get (partnerMap (Some prefix) partners) (prefix ++ " " ++ pretty i)%string
  = Some user /\
  length (partnerMap (Some prefix) partners) = length partners.
Proof.
  intros Hprefix Hi. unfold partnerMap.
  destruct (String.eqb_spec prefix EmptyString); [contradiction|].
  destruct (anonymous_partners prefix partners) as [Hlen Hget]. auto.
Qed.

Lemma find_absent {X : Type} (f : X -> bool) (l : list X) :
  (forall x, In x l -> f x = false) -> List.find f l = None.
Proof.
  induction l as [|x l IH]; [reflexivity|]. intros H. cbn.
  rewrite (H x) by (left; reflexivity). apply IH. intros y Hy. apply H.
  right. exact Hy.
Qed.

(** X25. A request to a user that none of the partners is named after is
    refused with a KeyError that lists the users, before the callback is
    told of it and before any agent is asked: nothing has happened in the
    process. *)
Theorem interact_with_unknown_user {BState : Type} (fuel : nat)
    (actor : Agent BState) (partners : list (Agent BState))
    (callback : option (@Callback BState)) (user request : string)
    (w : World BState) :
  (forall partner, In partner partners -> name partner <> user) ->
  interact fuel actor (partnerMap None partners) callback user request w
  = (Raised (OtherException "KeyError"
               ("User " ++ MiniJson.quoted user ++ " not found, available users: "
                ++ String.concat ", " (PyDict.keys (partnerMap None partners)))),
     w).
Proof.
  intros Hnone. unfold interact.
  replace (PyDict.get (partnerMap None partners) user) with (@None (Agent BState));
    [reflexivity|].
  symmetry. unfold partnerMap. rewrite get_partner_by_name. apply find_absent.
  intros partner Hin. apply in_rev in Hin. apply String.eqb_neq. auto.
Qed.

(** ** Turns and other lists *)

Lemma chat_frame {BState : Type} (fuel : nat) (self : Agent BState)
    (user_input : string) (tool_mode : option ToolMode) :
  touches_only (history self) (chat fuel self user_input tool_mode).
Proof.
  intros w l Hl.
  destruct (first_mlflow_failure (history_items w self)) as [e|] eqn:Hok.
  - rewrite (chat_unpresentable _ _ _ _ _ e Hok). cbn [snd].
    apply append_item_other. exact Hl.
  - rewrite chat_unfold by assumption.
    pose proof (run_touches_only fuel self (max_iterations self) (history self)
                  (default (default_tool_mode self) tool_mode) (tool_map self)
                  is_text
                  (append_item (history self) (TextMessage USER user_input) w)
                  l Hl) as Hrun.
    rewrite append_item_other in Hrun by exact Hl.
    destruct (_run fuel self _ _ _ _ is_text _) as [[l'| |] w1];
      cbn [snd] in *; try exact Hrun.
    destruct (last (items_at l' w1)) as [response|]; [|exact Hrun].
    destruct (first_mlflow_failure (items_at l' w1)); [exact Hrun|].
    destruct response; exact Hrun.
Qed.

(** X27. [clear_history] gives the agent a new list and leaves the old one
    alone: in the turn that follows, the history holds the new request and
    its answer only, while the list that was the history before still holds
    what it held. *)
Theorem clear_history_starts_a_new_list {BState : Type} (fuel : nat)
    (self : Agent BState) (user_input : string) (tool_mode : option ToolMode)
    (w : World BState) (role : MessageRole) (text : string) (b' : BState) :
  is_Some (heap w !! history self) ->
  (0 < max_iterations self)%Z ->
  (0 < fuel)%nat ->
  (forall tools mode,
      _inferModel (llm self) (system_prompt self) [TextMessage USER user_input]
        tools mode (backend w)
      = (inl (TextMessage role text), b')) ->
  exists self' w1 w',
    clear_history self w = (Returned self', w1) /\
    history self' <> history self /\
    chat fuel self' user_input tool_mode w1 = (Returned (self', text), w') /\
    history_items w' self'
    = [TextMessage USER user_input; TextMessage role text] /\
    heap w' !! history self = heap w !! history self.
Proof.
  intros Hlive Hbudget Hfuel Hreply.
  set (l := fresh (dom (heap w))).
  assert (Hne : l <> history self).
  { intros Heq. apply (is_fresh (dom (heap w))). fold l. rewrite Heq.
    apply elem_of_dom. assumption. }
  set (self' := set_history self l).
  set (w1 := set_heap (<[l := []]> (heap w)) w).
  assert (Hempty : history_items w1 self' = []).
  { unfold history_items, w1, self', set_heap, set_history. cbn [history].
    unfold items_at. cbn [heap]. rewrite lookup_insert_eq. reflexivity. }
  destruct (chat_first_text_reply fuel self' user_input tool_mode w1 role text b')
    as (w' & Hchat & Hitems & _); try assumption.
  { rewrite Hempty. reflexivity. }
  { intros tools mode. rewrite Hempty. apply Hreply. }
  exists self', w1, w'. split; [reflexivity|]. split; [exact Hne|].
  split; [exact Hchat|]. split.
  - rewrite Hitems, Hempty. reflexivity.
  - pose proof (chat_frame fuel self' user_input tool_mode w1 (history self))
      as Hframe.
    rewrite Hchat in Hframe. cbn [snd] in Hframe. rewrite Hframe.
    + unfold w1. cbn [set_heap heap]. apply lookup_insert_ne. exact Hne.
    + cbn [self' set_history history]. auto.
Qed.

(** ** A turn with one round of tool calls *)

(** One round of calls of tools that are functions of their arguments:
    when the backend answers the request with tool calls (none of them the
    escape tool) and answers the results of these calls with a text, [chat]
    returns that text after exactly two backend calls, and the history has
    grown by four messages. *)
Lemma chat_one_plain_tool_round {BState : Type} (fuel : nat) (self : Agent BState)
    (user_input : string) (tool_mode : option ToolMode) (w : World BState)
    (role role' : MessageRole) (calls : list ToolCall)
    (results : list ToolResult) (text : string) (b1 b2 : BState) :
  let mode := default (default_tool_mode self) tool_mode in
  let asked := ToolMessage role calls results in
  let answered :=
    ToolMessage USER []
      (_execute_all_tools self calls
         (fst (prepare_tools self mode (tool_map self)))) in
  (1 < max_iterations self)%Z ->
  (2 <= fuel)%nat ->
  first_mlflow_failure (history_items w self) = None ->
  calls <> [] ->
  carries_escape asked = false ->
  (forall tools mode,
      _inferModel (llm self) (system_prompt self)
        (history_items w self ++ [TextMessage USER user_input]) tools mode
        (backend w)
      = (inl asked, b1)) ->
  (forall tools mode,
      _inferModel (llm self) (system_prompt self)
        (history_items w self ++ [TextMessage USER user_input; asked; answered])
        tools mode b1
      = (inl (TextMessage role' text), b2)) ->
  exists w',
    chat fuel self user_input tool_mode w = (Returned (self, text), w') /\
    history_items w' self
    = history_items w self
      ++ [TextMessage USER user_input; asked; answered; TextMessage role' text] /\
    length (requests w') = S (S (length (requests w))).
Proof.
  intros mode asked answered Hbudget Hfuel Hok Hcalls Hescape Hfirst Hsecond.
  rewrite chat_unfold by assumption. fold mode.
  unfold history_items in *.
  assert (Hasked : getMLFlowMessage asked = None).
  { unfold asked. destruct calls; [contradiction|reflexivity]. }
  assert (Hanswered : getMLFlowMessage answered = None).
  { unfold answered, _execute_all_tools.
    destruct calls; [contradiction|reflexivity]. }
  destruct fuel as [|[|fuel]]; try lia. rewrite run_step.
  destruct (Z.leb_spec (max_iterations self) 0); [lia|]. cbn zeta.
  set (w0 := append_item (history self) (TextMessage USER user_input) w).
  assert (Hitems : items_at (history self) w0
                   = items_at (history self) w ++ [TextMessage USER user_input])
    by apply append_item_same.
  rewrite Hitems.
  destruct (generate_first_reply (llm self) (system_prompt self)
              (items_at (history self) w ++ [TextMessage USER user_input])
              (PyDict.values (fst (prepare_tools self mode (tool_map self))))
              mode w0 (inl asked) b1)
    as (w1 & Hgen & Hheap & Hreqs & Hback).
  { apply items_nonempty_snoc. }
  { apply first_mlflow_failure_app. split; [assumption|reflexivity]. }
  { apply Hfirst. }
  { reflexivity. }
  rewrite Hgen. cbn [generated]. rewrite Hasked, Hescape.
  set (w2 := append_item (history self) answered
               (append_item (history self) asked w1)).
  assert (Hitems2 : items_at (history self) w2
                    = items_at (history self) w
                      ++ [TextMessage USER user_input; asked; answered]).
  { unfold w2. rewrite !append_item_same.
    rewrite (items_at_same_heap _ _ _ Hheap), Hitems, <- !app_assoc.
    reflexivity. }
  assert (Hok2 : first_mlflow_failure
                   (items_at (history self) w
                    ++ [TextMessage USER user_input; asked; answered]) = None).
  { apply first_mlflow_failure_app. split; [assumption|].
    cbn [first_mlflow_failure getMLFlowMessage]. rewrite Hasked, Hanswered.
    reflexivity. }
  change (exists w',
    match
      _run (S fuel) self (max_iterations self - 1) (history self)
        (snd (prepare_tools self mode (tool_map self))) (tool_map self)
        is_text w2
    with
    | (Returned l, w1) =>
        match last (items_at l w1) with
        | Some response =>
            match first_mlflow_failure (items_at l w1) with
            | Some e => (Raised e, w1)
            | None =>
                match response with
                | TextMessage _ text0 =>
                    (Returned (set_history self l, text0), w1)
                | ToolMessage _ _ _ =>
                    (Raised
                       (AttributeError "'ToolMessage' object has no attribute 'text'"),
                     w1)
                end
            end
        | None => (Raised (IndexError "list index out of range"), w1)
        end
    | (Raised e, w1) => (Raised e, w1)
    | (OutOfFuel, w1) => (OutOfFuel, w1)
    end = (Returned (self, text), w') /\
    items_at (history self) w'
    = items_at (history self) w
      ++ [TextMessage USER user_input; asked; answered; TextMessage role' text] /\
    length (requests w') = S (S (length (requests w)))).
  rewrite run_step.
  destruct (Z.leb_spec (max_iterations self - 1) 0); [lia|]. cbn zeta.
  rewrite Hitems2.
  set (mode2 := snd (prepare_tools self mode (tool_map self))).
  destruct (generate_first_reply (llm self) (system_prompt self)
              (items_at (history self) w
               ++ [TextMessage USER user_input; asked; answered])
              (PyDict.values (fst (prepare_tools self mode2 (tool_map self))))
              mode2 w2 (inl (TextMessage role' text)) b2)
    as (w3 & Hgen2 & Hheap2 & Hreqs2 & _).
  { destruct (items_at (history self) w); discriminate. }
  { exact Hok2. }
  { replace (backend w2) with (backend w1) by reflexivity. rewrite Hback.
    apply Hsecond. }
  { reflexivity. }
  rewrite Hgen2. cbn [generated getMLFlowMessage carries_escape is_text].
  assert (Hfinal : items_at (history self)
                     (append_item (history self) (TextMessage role' text) w3)
                   = items_at (history self) w
                     ++ [TextMessage USER user_input; asked; answered;
                         TextMessage role' text]).
  { rewrite append_item_same, (items_at_same_heap _ _ _ Hheap2), Hitems2,
      <- app_assoc. reflexivity. }
  rewrite Hfinal, last_app. cbn [last].
  replace (first_mlflow_failure _) with (@None Exn).
  - rewrite set_history_same. eexists. split; [reflexivity|].
    split; [exact Hfinal|].
    cbn [append_item set_heap requests]. rewrite Hreqs2.
    replace (requests w2) with (requests w1) by reflexivity.
    rewrite Hreqs. reflexivity.
  - symmetry. apply first_mlflow_failure_app. split; [assumption|].
    cbn [first_mlflow_failure getMLFlowMessage]. rewrite Hasked, Hanswered.
    reflexivity.
Qed.

(** * The loop with tools that run agent turns *)

(** ** Tool maps without sub-agent tools *)

Lemma get_plain_tools (tm : PyDict.t Tool) (k : string) :
  PyDict.get (plain_tools tm) k = option_map inl (PyDict.get tm k).
Proof.
  induction tm as [|[k0 t0] tm IH]; cbn; [reflexivity|].
  destruct (String.eqb k0 k); [reflexivity|exact IH].
Qed.

Lemma keys_plain_tools (tm : PyDict.t Tool) :
  PyDict.keys (plain_tools tm) = PyDict.keys tm.
Proof. unfold PyDict.keys, plain_tools. rewrite map_map. reflexivity. Qed.

Lemma values_plain_tools (tm : PyDict.t Tool) :
  map Delegation.described (PyDict.values (plain_tools tm)) = PyDict.values tm.
Proof. unfold PyDict.values, plain_tools. rewrite !map_map. reflexivity. Qed.

Lemma set_plain_tools (tm : PyDict.t Tool) (k : string) (t : Tool) :
  PyDict.set (plain_tools tm) k (inl t) = plain_tools (PyDict.set tm k t).
Proof.
  unfold plain_tools. induction tm as [|[k0 t0] tm IH]; [reflexivity|].
  cbn [map fst snd PyDict.set]. destruct (String.eqb k0 k); [reflexivity|].
  cbn [map fst snd]. f_equal. exact IH.
Qed.

Lemma plain_only_plain_tools (tm : PyDict.t Delegation.AnyTool) :
  Delegation.plain_only tm ->
  tm = plain_tools
         (map (fun entry => (fst entry, Delegation.described (snd entry))) tm).
Proof.
  induction 1 as [|[k t] tm [plain Hplain] _ IH]; [reflexivity|].
  cbn in *. subst t. cbn. f_equal. exact IH.
Qed.

Section WithoutSubAgents.

Context {BState : Type}.
Variable agents : Delegation.AgentId -> Delegation.Agent BState.
Variable argument_error : PyDict.t Value -> Exn.

Lemma prepare_plain_tools (self : Delegation.Agent BState) (mode : ToolMode)
    (tm : PyDict.t Tool) :
  Delegation.prepare_tools self mode (plain_tools tm)
  = (plain_tools (fst (prepare_tools (forget self) mode tm)),
     snd (prepare_tools (forget self) mode tm)).
Proof.
  unfold Delegation.prepare_tools, prepare_tools. cbn [forget llm].
  destruct mode; try reflexivity.
  destruct (end_tool_mode _); [|reflexivity].
  unfold PyDict.copy. rewrite set_plain_tools. reflexivity.
Qed.

Lemma execute_plain_tools (turn : Delegation.Turn BState)
    (self : Delegation.Agent BState) (tm : PyDict.t Tool)
    (calls : list ToolCall) (w : World BState) :
  Delegation._execute_all_tools agents argument_error turn self calls
    (plain_tools tm) w
  = (Returned (_execute_all_tools (forget self) calls tm), w).
Proof.
  induction calls as [|call calls IH]; [reflexivity|].
  cbn [Delegation._execute_all_tools _execute_all_tools map].
  unfold bind at 1. unfold Delegation._execute_tool at 1.
  unfold bind at 1. unfold Delegation.guarded_execution at 1.
  unfold Delegation._execute_tool_raw at 1.
  rewrite get_plain_tools, keys_plain_tools.
  unfold _execute_tool, guarded_execution, _execute_tool_raw.
  cbn [forget hook_map].
  set (hooks := default [] (Delegation.hook_map self !! tc_name call)).
  destruct (PyDict.get tm (tc_name (run_pre_hooks hooks call))) as [tool|];
    cbn [option_map].
  - destruct (tool_function tool (tc_args (run_pre_hooks hooks call)));
      unfold ret, raise, bind; rewrite IH; reflexivity.
  - unfold ret, raise, bind. rewrite IH. reflexivity.
Qed.

(** One level of the loop. *)
Lemma delegation_run_step (fuel : nat) (self : Delegation.Agent BState)
    (it : Z) (l : loc) (mode : ToolMode) (tm : PyDict.t Delegation.AnyTool)
    (stop : Message -> bool) (w : World BState) :
  Delegation._run agents argument_error (S fuel) self it l mode tm stop w =
  if (it <=? 0)%Z then (Raised iteration_exhaustion, w)
  else
    let active := fst (Delegation.prepare_tools self mode tm) in
    let next := snd (Delegation.prepare_tools self mode tm) in
    match generate (Delegation.llm self) (Delegation.system_prompt self)
            (items_at l w) (map Delegation.described (PyDict.values active))
            mode w with
    | (Returned response, w1) =>
        if carries_escape response then
          Delegation._run agents argument_error fuel self it l AUTO tm stop w1
        else if stop response then (Returned l, append_item l response w1)
        else
          match response with
          | ToolMessage _ calls _ =>
              match Delegation._execute_all_tools agents argument_error
                      (Delegation.deligate
                         (Delegation._run agents argument_error fuel))
                      self calls active (append_item l response w1) with
              | (Returned tool_responses, w2) =>
                  let results := ToolMessage USER [] tool_responses in
                  let w3 := append_item l results w2 in
                  if stop results then (Returned l, w3)
                  else
                    Delegation._run agents argument_error fuel self (it - 1) l
                      next tm stop w3
              | (Raised e, w2) => (Raised e, w2)
              | (OutOfFuel, w2) => (OutOfFuel, w2)
              end
          | TextMessage _ _ =>
              Delegation._run agents argument_error fuel self (it - 1) l next
                tm stop (append_item l response w1)
          end
    | (Raised e, w1) => (Raised e, w1)
    | (OutOfFuel, w1) => (OutOfFuel, w1)
    end.
Proof.
  cbn [Delegation._run]. destruct (it <=? 0)%Z; [reflexivity|].
  destruct (Delegation.prepare_tools self mode tm) as [active next].
  cbn [fst snd].
  unfold bind at 1. unfold list_read at 1. unfold bind at 1.
  destruct (generate _ _ (items_at l w) _ mode w) as [[response| |] w1];
    try reflexivity.
  destruct (carries_escape response); [reflexivity|].
  unfold bind at 1. unfold list_append at 1. unfold modify at 1.
  destruct (stop response) eqn:Hstop; [reflexivity|].
  destruct response as [role text|role calls results].
  - unfold bind at 1. unfold ret at 1. rewrite Hstop. reflexivity.
  - unfold bind at 1. unfold bind at 1.
    destruct (Delegation._execute_all_tools _ _ _ self calls active _)
      as [[tool_responses| |] w2]; try reflexivity.
    unfold bind at 1. unfold list_append at 1. unfold modify at 1.
    unfold ret at 1. cbn beta iota zeta.
    destruct (stop (ToolMessage USER [] tool_responses)); reflexivity.
Qed.

(** With a tool map of plain tools the loop is the loop of the first part. *)
Lemma run_of_plain_tools (fuel : nat) :
  forall (self : Delegation.Agent BState) it l mode (tm : PyDict.t Tool) stop w,
    Delegation._run agents argument_error fuel self it l mode (plain_tools tm)
      stop w
    = _run fuel (forget self) it l mode tm stop w.
Proof.
  induction fuel as [|fuel IH]; intros self it l mode tm stop w.
  - reflexivity.
  - rewrite delegation_run_step, run_step. destruct (it <=? 0)%Z; [reflexivity|].
    cbn zeta. rewrite prepare_plain_tools. cbn [fst snd].
    rewrite values_plain_tools. cbn [forget llm system_prompt].
    destruct (generate _ _ (items_at l w) _ mode w) as [[response| |] w1];
      try reflexivity.
    destruct (carries_escape response); [apply IH|].
    destruct (stop response); [reflexivity|].
    destruct response as [role text|role calls results]; [apply IH|].
    rewrite execute_plain_tools.
    destruct (stop (ToolMessage USER [] _)); [reflexivity|apply IH].
Qed.

(** A turn of an agent without sub-agent tools is a turn of the first
    part. *)
Lemma chat_of_plain_only (fuel : nat) (self : Delegation.Agent BState)
    (user_input : string) (tool_mode : option ToolMode) (w : World BState) :
  Delegation.plain_only (Delegation.tool_map self) ->
  Delegation.chat agents argument_error fuel self user_input tool_mode w
  = match chat fuel (forget self) user_input tool_mode w with
    | (Returned (a, text), w') =>
        (Returned (Delegation.set_history self (history a), text), w')
    | (Raised e, w') => (Raised e, w')
    | (OutOfFuel, w') => (OutOfFuel, w')
    end.
Proof.
  intros Hplain. apply plain_only_plain_tools in Hplain.
  remember (map (fun entry => (fst entry, Delegation.described (snd entry)))
              (Delegation.tool_map self)) as tm eqn:Htm.
  unfold Delegation.chat, Delegation.chat_with, Delegation.invoke_with,
    Delegation._track_mlflow, chat, _invoke, _track_mlflow, bind, list_append,
    modify, list_read, ret, raise.
  cbn [forget history default_tool_mode max_iterations tool_map].
  rewrite <- Htm.
  destruct (first_mlflow_failure _) as [e|]; [reflexivity|].
  rewrite Hplain, run_of_plain_tools.
  destruct (_run fuel _ _ _ _ _ is_text _) as [[l| |] w1]; try reflexivity.
  cbn [Delegation.set_history Delegation.history set_history history].
  destruct (last (items_at l w1)) as [response|]; [|reflexivity].
  destruct (first_mlflow_failure (items_at l w1)); [reflexivity|].
  destruct response; reflexivity.
Qed.

End WithoutSubAgents.

Lemma plain_tools_plain_only (tm : PyDict.t Tool) :
  Delegation.plain_only (plain_tools tm).
Proof.
  unfold Delegation.plain_only, plain_tools.
  induction tm as [|[k t] tm IH]; constructor; [exists t; reflexivity|exact IH].
Qed.

Lemma forget_of_plain {BState : Type} (self : Agent BState) :
  forget (of_plain self) = self.
Proof.
  destruct self as [l n sp tm mi ap dm h hm]. unfold forget, of_plain, plain_tools.
  cbn. f_equal. rewrite map_map. cbn. induction tm as [|[k t] tm IH];
    [reflexivity|]. cbn. f_equal. exact IH.
Qed.

Lemma set_history_of_plain {BState : Type} (self : Agent BState) :
  Delegation.set_history (of_plain self) (history self) = of_plain self.
Proof. destruct self; reflexivity. Qed.

(** ** The iteration budget *)


(** *** An agent that is its own sub-agent *)





(** ** Turns of agents without sub-agent tools *)


(** X28. For an agent whose tools are functions of their arguments: when
    the backend answers the request with tool calls (none of them the escape
    tool) and answers the results of these calls with a text, [chat] returns
    that text after exactly two backend calls, and the history has grown by
    four messages: the request, the calls, their results in the order of the
    calls, and the text. *)
Theorem chat_one_tool_round {BState : Type}
    (agents : Delegation.AgentId -> Delegation.Agent BState)
    (argument_error : PyDict.t Value -> Exn) (fuel : nat)
    (self : Agent BState) (user_input : string) (tool_mode : option ToolMode)
    (w : World BState) (role role' : MessageRole) (calls : list ToolCall)
    (results : list ToolResult) (text : string) (b1 b2 : BState) :
  let mode := default (default_tool_mode self) tool_mode in
  let asked := ToolMessage role calls results in
  let answered :=
    ToolMessage USER []
      (_execute_all_tools self calls
         (fst (prepare_tools self mode (tool_map self)))) in
  (1 < max_iterations self)%Z ->
  (2 <= fuel)%nat ->
  first_mlflow_failure (history_items w self) = None ->
  calls <> [] ->
  carries_escape asked = false ->
  (forall tools mode,
      _inferModel (llm self) (system_prompt self)
        (history_items w self ++ [TextMessage USER user_input]) tools mode
        (backend w)
      = (inl asked, b1)) ->
  (forall tools mode,
      _inferModel (llm self) (system_prompt self)
        (history_items w self ++ [TextMessage USER user_input; asked; answered])
        tools mode b1
      = (inl (TextMessage role' text), b2)) ->
  exists w',
    Delegation.chat agents argument_error fuel (of_plain self) user_input
      tool_mode w
    = (Returned (of_plain self, text), w') /\
    history_items w' self
    = history_items w self
      ++ [TextMessage USER user_input; asked; answered; TextMessage role' text] /\
    length (requests w') = S (S (length (requests w))).
Proof.
  intros mode asked answered Hbudget Hfuel Hok Hcalls Hescape Hfirst Hsecond.
  rewrite chat_of_plain_only by apply plain_tools_plain_only.
  rewrite forget_of_plain.
  destruct (chat_one_plain_tool_round fuel self user_input tool_mode w role
              role' calls results text b1 b2 Hbudget Hfuel Hok Hcalls Hescape
              Hfirst Hsecond) as (w' & Hchat & Hitems & Hreqs).
  rewrite Hchat, set_history_of_plain. exists w'. auto.
Qed.

(** * The reference model of the JSON library reads back what it writes *)

Module MiniJsonFacts.
Import JsonShape.

Import MiniJson.

Ltac bits c := destruct c as [[] [] [] [] [] [] [] []].

(** ** Strings *)

Lemma push_parsed (c : ascii) (s : string) (rest : list ascii) :
  push c (Parsed (s, rest)) = Parsed (String c s, rest).
Proof. reflexivity. Qed.

(** A character below 128 is read back from what it is written as. *)
Lemma escape_read (c : ascii) (tail : list ascii) :
  (nat_of_ascii c <? 128)%nat = true ->
  string_body (escape c ++ tail) = push c (string_body tail).
Proof. bits c; intros H; try discriminate H; reflexivity. Qed.

Lemma string_read (s : string) (rest : list ascii) :
  ascii_string s = true ->
  string_body (escaped s ++ dq :: rest) = Parsed (s, rest).
Proof.
  unfold ascii_string. induction s as [|c s IH]; [reflexivity|].
  cbn [String.list_ascii_of_string forallb escaped]. intros H.
  apply andb_prop in H as [Hc Hs].
  rewrite <- app_assoc, escape_read by assumption.
  rewrite IH by assumption. reflexivity.
Qed.

Lemma write_string_read (s : string) (rest : list ascii) :
  ascii_string s = true ->
  string_body (escaped s ++ [dq] ++ rest) = Parsed (s, rest).
Proof. apply string_read. Qed.




(** ** Integers *)










(** ** Where a value starts *)









(** ** The steps of the reader *)







(** ** Objects without a repeated key *)



(** ** Reading back what was written *)


(** ** The fuel [loads] gives is enough *)







(** ** What the reader gives is a value of this part *)









End MiniJsonFacts.

(** ** Construction of a [ToolCall] from serialized arguments *)


(** * The further properties at work *)

Lemma chat_returns_text_reply_witness :
  (0 < max_iterations (adder greeter 10))%Z /\
  (0 < 1)%nat /\
  first_mlflow_failure (history_items resumed_process (adder greeter 10)) = None /\
  (forall tools mode,
      _inferModel (llm (adder greeter 10)) (system_prompt (adder greeter 10))
        (history_items resumed_process (adder greeter 10)
           ++ [TextMessage USER "again"]) tools mode (backend resumed_process)
      = (inl (TextMessage MODEL "hello"), [])) /\
  exists w',
    chat 1 (adder greeter 10) "again" None resumed_process
    = (Returned (adder greeter 10, "hello"), w') /\
    history_items w' (adder greeter 10)
    = history_items resumed_process (adder greeter 10)
      ++ [TextMessage USER "again"; TextMessage MODEL "hello"] /\
    length (requests w') = S (length (requests resumed_process)).
Proof.
  assert (H1 : (0 < max_iterations (adder greeter 10))%Z) by (cbn; lia).
  assert (H2 : (0 < 1)%nat) by lia.
  assert (H3 : first_mlflow_failure
                 (history_items resumed_process (adder greeter 10)) = None)
    by reflexivity.
  assert (H4 : forall tools mode,
             _inferModel (llm (adder greeter 10)) (system_prompt (adder greeter 10))
               (history_items resumed_process (adder greeter 10)
                  ++ [TextMessage USER "again"]) tools mode
               (backend resumed_process)
             = (inl (TextMessage MODEL "hello"), []))
    by (intros; reflexivity).
  split; [exact H1|]. split; [exact H2|]. split; [exact H3|].
  split; [exact H4|].
  apply (chat_returns_text_reply 1 (adder greeter 10) "again" None
           resumed_process MODEL "hello" [] H1 H2 H3 H4).
Defined.

Lemma chat_without_budget_keeps_request_witness :
  (max_iterations (adder greeter 0) <= 0)%Z /\
  (0 < 1)%nat /\
  first_mlflow_failure (history_items resumed_process (adder greeter 0)) = None /\
  chat 1 (adder greeter 0) "again" None resumed_process
  = (Raised iteration_exhaustion,
     append_item (history (adder greeter 0)) (TextMessage USER "again")
       resumed_process).
Proof.
  assert (H1 : (max_iterations (adder greeter 0) <= 0)%Z) by (cbn; lia).
  assert (H2 : (0 < 1)%nat) by lia.
  assert (H3 : first_mlflow_failure
                 (history_items resumed_process (adder greeter 0)) = None)
    by reflexivity.
  split; [exact H1|]. split; [exact H2|]. split; [exact H3|].
  apply (chat_without_budget_keeps_request 1 (adder greeter 0) "again" None
           resumed_process H1 H2 H3).
Defined.

Lemma chat_passes_on_backend_failure_witness :
  (0 < max_iterations (adder broken 10))%Z /\
  (0 < 1)%nat /\
  first_mlflow_failure (history_items resumed_process (adder broken 10)) = None /\
  (forall tools mode,
      _inferModel (llm (adder broken 10)) (system_prompt (adder broken 10))
        (history_items resumed_process (adder broken 10)
           ++ [TextMessage USER "again"]) tools mode (backend resumed_process)
      = (inr (OtherException "StopIteration" "the script is over"), [])) /\
  is_RetryLater (OtherException "StopIteration" "the script is over") = false /\
  exists w',
    chat 1 (adder broken 10) "again" None resumed_process
    = (Raised (OtherException "StopIteration" "the script is over"), w') /\
    history_items w' (adder broken 10)
    = history_items resumed_process (adder broken 10)
      ++ [TextMessage USER "again"] /\
    length (requests w') = S (length (requests resumed_process)).
Proof.
  assert (H1 : (0 < max_iterations (adder broken 10))%Z) by (cbn; lia).
  assert (H2 : (0 < 1)%nat) by lia.
  assert (H3 : first_mlflow_failure
                 (history_items resumed_process (adder broken 10)) = None)
    by reflexivity.
  assert (H4 : forall tools mode,
             _inferModel (llm (adder broken 10)) (system_prompt (adder broken 10))
               (history_items resumed_process (adder broken 10)
                  ++ [TextMessage USER "again"]) tools mode
               (backend resumed_process)
             = (inr (OtherException "StopIteration" "the script is over"), []))
    by (intros; reflexivity).
  assert (H5 : is_RetryLater (OtherException "StopIteration" "the script is over")
               = false) by reflexivity.
  split; [exact H1|]. split; [exact H2|]. split; [exact H3|].
  split; [exact H4|]. split; [exact H5|].
  apply (chat_passes_on_backend_failure 1 (adder broken 10) "again" None
           resumed_process (OtherException "StopIteration" "the script is over")
           [] H1 H2 H3 H4 H5).
Defined.

Lemma chat_rejects_empty_tool_message_witness :
  (0 < max_iterations (adder hollow 10))%Z /\
  (0 < 1)%nat /\
  first_mlflow_failure (history_items resumed_process (adder hollow 10)) = None /\
  (forall tools mode,
      _inferModel (llm (adder hollow 10)) (system_prompt (adder hollow 10))
        (history_items resumed_process (adder hollow 10)
           ++ [TextMessage USER "again"]) tools mode (backend resumed_process)
      = (inl (ToolMessage MODEL [] []), [])) /\
  exists w',
    chat 1 (adder hollow 10) "again" None resumed_process
    = (Raised (RuntimeError "ToolMessage must have either tool_calls or tool_results"),
       w') /\
    history_items w' (adder hollow 10)
    = history_items resumed_process (adder hollow 10)
      ++ [TextMessage USER "again"] /\
    length (requests w') = S (length (requests resumed_process)).
Proof.
  assert (H1 : (0 < max_iterations (adder hollow 10))%Z) by (cbn; lia).
  assert (H2 : (0 < 1)%nat) by lia.
  assert (H3 : first_mlflow_failure
                 (history_items resumed_process (adder hollow 10)) = None)
    by reflexivity.
  assert (H4 : forall tools mode,
             _inferModel (llm (adder hollow 10)) (system_prompt (adder hollow 10))
               (history_items resumed_process (adder hollow 10)
                  ++ [TextMessage USER "again"]) tools mode
               (backend resumed_process)
             = (inl (ToolMessage MODEL [] []), []))
    by (intros; reflexivity).
  split; [exact H1|]. split; [exact H2|]. split; [exact H3|].
  split; [exact H4|].
  apply (chat_rejects_empty_tool_message 1 (adder hollow 10) "again" None
           resumed_process MODEL [] H1 H2 H3 H4).
Defined.

Lemma escape_loop_never_ends_witness :
  always_escapes (llm (adder escapist 10)) /\
  (0 < 10)%Z /\
  items_at 0%nat resumed_process <> [] /\
  first_mlflow_failure (items_at 0%nat resumed_process) = None /\
  exists w',
    _run 50 (adder escapist 10) 10 0%nat FORCE (tool_map (adder escapist 10))
      is_text resumed_process
    = (OutOfFuel, w') /\
    length (requests w') = (length (requests resumed_process) + 50)%nat /\
    heap w' = heap resumed_process.
Proof.
  assert (H1 : always_escapes (llm (adder escapist 10))).
  { intros sp msgs tools mode b. eexists _, _. split; reflexivity. }
  assert (H2 : (0 < 10)%Z) by lia.
  assert (H3 : items_at 0%nat resumed_process <> []) by discriminate.
  assert (H4 : first_mlflow_failure (items_at 0%nat resumed_process) = None)
    by reflexivity.
  split; [exact H1|]. split; [exact H2|]. split; [exact H3|].
  split; [exact H4|].
  apply (escape_loop_never_ends 50 (adder escapist 10) 10 0%nat FORCE
           (tool_map (adder escapist 10)) is_text resumed_process H1 H2 H3 H4).
Defined.

Lemma structuredAnswer_returns_set_output_witness :
  (0 < 5)%nat /\
  first_mlflow_failure (history_items scenario_C_process (scenario_A_agent true))
  = None /\
  hook_map (scenario_A_agent true) !! "set_output" = None /\
  (forall tools,
      _inferModel (llm (scenario_A_agent true))
        (system_prompt (scenario_A_agent true))
        (history_items scenario_C_process (scenario_A_agent true)
           ++ [TextMessage USER "how many?"]) tools FORCE
        (backend scenario_C_process)
      = (inl (ToolMessage MODEL
                [mkToolCall "call-7" "set_output" [("count", VInt 7)]] []), [])) /\
  fst (structuredAnswer 5 (scenario_A_agent true) "how many?" count_model
         scenario_C_process)
  = Returned (VDict [("count", VInt 7)]).
Proof.
  assert (H1 : (0 < 5)%nat) by lia.
  assert (H2 : first_mlflow_failure
                 (history_items scenario_C_process (scenario_A_agent true)) = None)
    by reflexivity.
  assert (H3 : hook_map (scenario_A_agent true) !! "set_output" = None)
    by reflexivity.
  assert (H4 : forall tools,
             _inferModel (llm (scenario_A_agent true))
               (system_prompt (scenario_A_agent true))
               (history_items scenario_C_process (scenario_A_agent true)
                  ++ [TextMessage USER "how many?"]) tools FORCE
               (backend scenario_C_process)
             = (inl (ToolMessage MODEL
                       [mkToolCall "call-7" "set_output" [("count", VInt 7)]] []),
                [])) by (intros; reflexivity).
  split; [exact H1|]. split; [exact H2|]. split; [exact H3|].
  split; [exact H4|].
  apply (structuredAnswer_returns_set_output 5 (scenario_A_agent true)
           "how many?" count_model scenario_C_process MODEL "call-7"
           [("count", VInt 7)] [] H1 H2 H3 H4).
Defined.

Lemma structuredAnswer_rejects_text_reply_witness :
  (2 <= 2)%nat /\
  first_mlflow_failure (history_items resumed_process (adder greeter 10)) = None /\
  (forall tools,
      _inferModel (llm (adder greeter 10)) (system_prompt (adder greeter 10))
        (history_items resumed_process (adder greeter 10)
           ++ [TextMessage USER "how many?"]) tools FORCE
        (backend resumed_process)
      = (inl (TextMessage MODEL "hello"), [])) /\
  exists w',
    structuredAnswer 2 (adder greeter 10) "how many?" count_model resumed_process
    = (Raised iteration_exhaustion, w') /\
    length (requests w') = S (length (requests resumed_process)).
Proof.
  assert (H1 : (2 <= 2)%nat) by lia.
  assert (H2 : first_mlflow_failure
                 (history_items resumed_process (adder greeter 10)) = None)
    by reflexivity.
  assert (H3 : forall tools,
             _inferModel (llm (adder greeter 10)) (system_prompt (adder greeter 10))
               (history_items resumed_process (adder greeter 10)
                  ++ [TextMessage USER "how many?"]) tools FORCE
               (backend resumed_process)
             = (inl (TextMessage MODEL "hello"), [])) by (intros; reflexivity).
  split; [exact H1|]. split; [exact H2|]. split; [exact H3|].
  apply (structuredAnswer_rejects_text_reply 2 (adder greeter 10) "how many?"
           count_model resumed_process MODEL "hello" [] H1 H2 H3).
Defined.

Lemma exhausted_retries_back_off_witness :
  always_retry_later throttled /\
  uniform_01 (new_process [] ∅) /\
  exists (wait backoff : list Q),
    let r := _infer throttled "system" [TextMessage USER "sum"] [add] AUTO
               (new_process [] ∅) in
    fst r = Raised (RuntimeError "Max retries exceeded") /\
    length (requests (snd r)) = (length (requests (new_process [] ∅)) + 5)%nat /\
    slept (snd r) = slept (new_process [] ∅) ++ wait ++ backoff /\
    (length wait <= 1)%nat /\
    length backoff = 5%nat /\
    (155 <= total backoff)%Q /\ (total backoff <= 160)%Q.
Proof.
  assert (H1 : always_retry_later throttled) by (intros sp msgs tools mode b; reflexivity).
  split; [exact H1|]. split; [apply new_process_uniform|].
  apply (exhausted_retries_back_off throttled "system" [TextMessage USER "sum"]
           [add] AUTO (new_process [] ∅) H1 (new_process_uniform _ _)).
Defined.

Lemma rate_limit_waits_for_the_remainder_witness :
  last_request_time busy_process = Some (3999 # 4) /\
  let elapsed :=
    (clock busy_process + drift busy_process (reads busy_process) - (3999 # 4))%Q in
  fst (rate_limit busy_process) = Returned tt /\
  slept (snd (rate_limit busy_process))
  = slept busy_process ++ (if Qltb elapsed 1 then [(1 - elapsed)%Q] else []) /\
  last_request_time (snd (rate_limit busy_process)) = Some (3999 # 4).
Proof.
  assert (H1 : last_request_time busy_process = Some (3999 # 4)) by reflexivity.
  split; [exact H1|].
  apply (rate_limit_waits_for_the_remainder busy_process (3999 # 4) H1).
Defined.

Lemma first_request_is_not_delayed_witness :
  last_request_time (new_process [] ∅) = None /\
  time_moves_forward (new_process [] ∅) /\
  fst (rate_limit (new_process [] ∅)) = Returned tt /\
  slept (snd (rate_limit (new_process [] ∅))) = slept (new_process [] ∅) /\
  last_request_time (snd (rate_limit (new_process [] ∅)))
  = Some (clock (new_process [] ∅)
          + drift (new_process [] ∅) (reads (new_process [] ∅)) - 10)%Q.
Proof.
  assert (H1 : last_request_time (new_process [] ∅) = None) by reflexivity.
  split; [exact H1|]. split; [apply new_process_time_moves_forward|].
  apply (first_request_is_not_delayed (new_process [] ∅) H1
           (new_process_time_moves_forward _ _)).
Defined.

Lemma chat_returns_last_text_witness :
  chat 1 (adder greeter 10) "again" None resumed_process
  = (Returned (adder greeter 10, "hello"),
     snd (chat 1 (adder greeter 10) "again" None resumed_process)) /\
  adder greeter 10 = adder greeter 10 /\
  exists role,
    last (history_items
            (snd (chat 1 (adder greeter 10) "again" None resumed_process))
            (adder greeter 10))
    = Some (TextMessage role "hello").
Proof.
  assert (H1 : chat 1 (adder greeter 10) "again" None resumed_process
               = (Returned (adder greeter 10, "hello"),
                  snd (chat 1 (adder greeter 10) "again" None resumed_process)))
    by (vm_compute; reflexivity).
  split; [exact H1|].
  apply (chat_returns_last_text 1 (adder greeter 10) (adder greeter 10) "again"
           "hello" None resumed_process
           (snd (chat 1 (adder greeter 10) "again" None resumed_process)) H1).
Defined.

Lemma chat_on_unpresentable_history_witness :
  In (ToolMessage USER [] []) (history_items ruined_process (adder greeter 10)) /\
  chat 1 (adder greeter 10) "again" None ruined_process
  = (Raised (RuntimeError "ToolMessage must have either tool_calls or tool_results"),
     append_item (history (adder greeter 10)) (TextMessage USER "again")
       ruined_process) /\
  requests (snd (chat 1 (adder greeter 10) "again" None ruined_process))
  = requests ruined_process.
Proof.
  assert (H1 : In (ToolMessage USER [] [])
                 (history_items ruined_process (adder greeter 10)))
    by (right; right; left; reflexivity).
  split; [exact H1|].
  apply (chat_on_unpresentable_history 1 (adder greeter 10) "again" None
           ruined_process USER H1).
Defined.

Lemma results_only_response_ruins_history_witness :
  (0 < max_iterations (adder confused 10))%Z /\
  (2 <= 2)%nat /\
  first_mlflow_failure (history_items resumed_process (adder confused 10)) = None /\
  (forall tools mode,
      _inferModel (llm (adder confused 10)) (system_prompt (adder confused 10))
        (history_items resumed_process (adder confused 10)
           ++ [TextMessage USER "again"]) tools mode (backend resumed_process)
      = (inl (ToolMessage MODEL []
                (mkToolResult "call-1" "add" (mkExecutionResult true (VInt 5) None)
                 :: [])), [])) /\
  exists w',
    chat 2 (adder confused 10) "again" None resumed_process
    = (Raised (if (max_iterations (adder confused 10) <=? 1)%Z
               then iteration_exhaustion
               else RuntimeError
                      "ToolMessage must have either tool_calls or tool_results"),
       w') /\
    history_items w' (adder confused 10)
    = history_items resumed_process (adder confused 10)
      ++ [TextMessage USER "again";
          ToolMessage MODEL []
            (mkToolResult "call-1" "add" (mkExecutionResult true (VInt 5) None)
             :: []);
          ToolMessage USER [] []] /\
    length (requests w') = S (length (requests resumed_process)).
Proof.
  assert (H1 : (0 < max_iterations (adder confused 10))%Z) by (cbn; lia).
  assert (H2 : (2 <= 2)%nat) by lia.
  assert (H3 : first_mlflow_failure
                 (history_items resumed_process (adder confused 10)) = None)
    by reflexivity.
  assert (H4 : forall tools mode,
             _inferModel (llm (adder confused 10))
               (system_prompt (adder confused 10))
               (history_items resumed_process (adder confused 10)
                  ++ [TextMessage USER "again"]) tools mode
               (backend resumed_process)
             = (inl (ToolMessage MODEL []
                       (mkToolResult "call-1" "add"
                          (mkExecutionResult true (VInt 5) None) :: [])), []))
    by (intros; reflexivity).
  split; [exact H1|]. split; [exact H2|]. split; [exact H3|].
  split; [exact H4|].
  apply (results_only_response_ruins_history 2 (adder confused 10) "again" None
           resumed_process MODEL
           (mkToolResult "call-1" "add" (mkExecutionResult true (VInt 5) None))
           [] [] H1 H2 H3 H4).
Defined.

Lemma remover_forgets_replaced_tool_witness :
  NoDup (PyDict.keys (tool_map (adder greeter 10))) /\
  let removed :=
    add_tool_remover (add_tool (adder greeter 10) subtract) subtract in
  (forall k,
      PyDict.get (tool_map removed) k
      = if String.eqb (tool_name subtract) k then None
        else PyDict.get (tool_map (adder greeter 10)) k) /\
  add_tool_remover removed subtract = removed.
Proof.
  assert (H1 : NoDup (PyDict.keys (tool_map (adder greeter 10))))
    by apply NoDup_singleton.
  split; [exact H1|].
  apply (remover_forgets_replaced_tool (adder greeter 10) subtract H1).
Defined.

Lemma logTokens_adds_to_totals_witness :
  (1 < length two_trackers)%nat /\
  Tracker.collectTokenStats (Tracker.logTokens_at two_trackers 1 7 5 12)
  = Tracker.add_to
      (Tracker.add_to
         (Tracker.add_to (Tracker.collectTokenStats two_trackers)
            "total_invocations" 1)
         "total_cumulative_completion_tokens" 5)
      "total_cumulative_prompt_tokens" 7 /\
  Tracker.collectTokenStats (Tracker.new two_trackers)
  = Tracker.collectTokenStats two_trackers.
Proof.
  assert (H1 : (1 < length two_trackers)%nat) by (cbn; lia).
  split; [exact H1|].
  apply (logTokens_adds_to_totals two_trackers 1 7 5 12 H1).
Defined.

Lemma add_connection_keeps_members_distinct_witness :
  NoDup (Team.members (Team.mk [3%nat] [])) /\
  let joined :=
    Team.add_connection (Team.mk [3%nat] []) 3%nat Team.DELIGATION 4%nat in
  NoDup (Team.members joined) /\
  3%nat ∈ Team.members joined /\ 4%nat ∈ Team.members joined /\
  Team.members (Team.mk [3%nat] []) `prefix_of` Team.members joined /\
  (length (Team.members joined) <= length (Team.members (Team.mk [3%nat] [])) + 2)%nat /\
  Team.connections joined
  = Team.connections (Team.mk [3%nat] []) ++ [(3%nat, Team.DELIGATION, 4%nat)].
Proof.
  assert (H1 : NoDup (Team.members (Team.mk [3%nat] [])))
    by apply NoDup_singleton.
  split; [exact H1|].
  apply (add_connection_keeps_members_distinct (Team.mk [3%nat] []) 3%nat 4%nat
           Team.DELIGATION H1).
Defined.

Lemma kickoff_of_connected_member_witness :
  (4%nat = 3%nat \/ 4%nat = 4%nat) /\
  Team.kickoff (fun _ : nat => adder greeter 10) 1
    (Team.add_connection (Team.mk [3%nat] []) 3%nat Team.DELIGATION 4%nat)
    4%nat "start" resumed_process
  = match chat 1 (adder greeter 10) "start" None resumed_process with
    | (Returned _, w') => (Returned tt, w')
    | (Raised e, w') => (Raised e, w')
    | (OutOfFuel, w') => (OutOfFuel, w')
    end.
Proof.
  assert (H1 : 4%nat = 3%nat \/ 4%nat = 4%nat) by (right; reflexivity).
  split; [exact H1|].
  apply (kickoff_of_connected_member (fun _ : nat => adder greeter 10) 1
           (Team.mk [3%nat] []) 3%nat 4%nat 4%nat Team.DELIGATION "start"
           resumed_process H1).
Defined.

Lemma anonymised_partner_is_reachable_witness :
  "User" <> EmptyString /\
  [first_adder; second_adder] !! 1%nat = Some second_adder /\
  PyDict.get (partnerMap (Some "User") [first_adder; second_adder])
    ("User" ++ " " ++ pretty 1%nat)%string = Some second_adder /\
  length (partnerMap (Some "User") [first_adder; second_adder])
  = length [first_adder; second_adder].
Proof.
  assert (H1 : "User" <> EmptyString) by discriminate.
  assert (H2 : [first_adder; second_adder] !! 1%nat = Some second_adder)
    by reflexivity.
  split; [exact H1|]. split; [exact H2|].
  apply (anonymised_partner_is_reachable "User" [first_adder; second_adder]
           1%nat second_adder H1 H2).
Defined.

Lemma interact_with_unknown_user_witness :
  (forall partner, In partner [first_adder; expert] -> name partner <> "Nobody") /\
  interact 1 expert (partnerMap None [first_adder; expert]) None "Nobody" "hi"
    resumed_process
  = (Raised (OtherException "KeyError"
               ("User " ++ MiniJson.quoted "Nobody"
                ++ " not found, available users: "
                ++ String.concat ", "
                     (PyDict.keys (partnerMap None [first_adder; expert])))),
     resumed_process).
Proof.
  assert (H1 : forall partner,
             In partner [first_adder; expert] -> name partner <> "Nobody").
  { intros partner [<-|[<-|[]]]; discriminate. }
  split; [exact H1|].
  apply (interact_with_unknown_user 1 expert [first_adder; expert] None "Nobody"
           "hi" resumed_process H1).
Defined.

Lemma clear_history_starts_a_new_list_witness :
  is_Some (heap resumed_process !! history (adder greeter 10)) /\
  (0 < max_iterations (adder greeter 10))%Z /\
  (0 < 1)%nat /\
  (forall tools mode,
      _inferModel (llm (adder greeter 10)) (system_prompt (adder greeter 10))
        [TextMessage USER "again"] tools mode (backend resumed_process)
      = (inl (TextMessage MODEL "hello"), [])) /\
  exists self' w1 w',
    clear_history (adder greeter 10) resumed_process = (Returned self', w1) /\
    history self' <> history (adder greeter 10) /\
    chat 1 self' "again" None w1 = (Returned (self', "hello"), w') /\
    history_items w' self'
    = [TextMessage USER "again"; TextMessage MODEL "hello"] /\
    heap w' !! history (adder greeter 10)
    = heap resumed_process !! history (adder greeter 10).
Proof.
  assert (H1 : is_Some (heap resumed_process !! history (adder greeter 10))).
  { exists [TextMessage USER "hi"; greeting]. reflexivity. }
  assert (H2 : (0 < max_iterations (adder greeter 10))%Z) by (cbn; lia).
  assert (H3 : (0 < 1)%nat) by lia.
  assert (H4 : forall tools mode,
             _inferModel (llm (adder greeter 10)) (system_prompt (adder greeter 10))
               [TextMessage USER "again"] tools mode (backend resumed_process)
             = (inl (TextMessage MODEL "hello"), [])) by (intros; reflexivity).
  split; [exact H1|]. split; [exact H2|]. split; [exact H3|].
  split; [exact H4|].
  apply (clear_history_starts_a_new_list 1 (adder greeter 10) "again" None
           resumed_process MODEL "hello" [] H1 H2 H3 H4).
Defined.



Lemma chat_keeps_history_presentable_witness :
  answers_with_calls (llm (adder two_step 10)) /\
  first_mlflow_failure (history_items runaway_process (adder two_step 10)) = None /\
  first_mlflow_failure
    (history_items (snd (chat 3 (adder two_step 10) "sum" None runaway_process))
       (adder two_step 10)) = None.
Proof.
  assert (H1 : answers_with_calls (llm (adder two_step 10))).
  { intros sp msgs tools mode b role results. cbn.
    destruct (last msgs) as [[[] text|r calls rs]|]; discriminate. }
  assert (H2 : first_mlflow_failure
                 (history_items runaway_process (adder two_step 10)) = None)
    by reflexivity.
  split; [exact H1|]. split; [exact H2|].
  apply (chat_keeps_history_presentable 3 (adder two_step 10) "sum" None
           runaway_process H1 H2).
Defined.


Lemma chat_one_tool_round_witness :
  let self := scenario_A_agent false in
  let mode := default (default_tool_mode self) None in
  let asked := ToolMessage MODEL [call_add_2_3] [] in
  let answered :=
    ToolMessage USER []
      (_execute_all_tools self [call_add_2_3]
         (fst (prepare_tools self mode (tool_map self)))) in
  (1 < max_iterations self)%Z /\
  (2 <= 2)%nat /\
  first_mlflow_failure (history_items scenario_A_process self) = None /\
  [call_add_2_3] <> [] /\
  carries_escape asked = false /\
  (forall tools mode,
      _inferModel (llm self) (system_prompt self)
        (history_items scenario_A_process self ++ [TextMessage USER "sum"])
        tools mode (backend scenario_A_process)
      = (inl asked, [inl (TextMessage MODEL "5")])) /\
  (forall tools mode,
      _inferModel (llm self) (system_prompt self)
        (history_items scenario_A_process self
           ++ [TextMessage USER "sum"; asked; answered])
        tools mode [inl (TextMessage MODEL "5")]
      = (inl (TextMessage MODEL "5"), [])) /\
  exists w',
    Delegation.chat loop_agents python_type_error 2 (of_plain self) "sum" None
      scenario_A_process
    = (Returned (of_plain self, "5"), w') /\
    history_items w' self
    = history_items scenario_A_process self
      ++ [TextMessage USER "sum"; asked; answered; TextMessage MODEL "5"] /\
    length (requests w') = S (S (length (requests scenario_A_process))).
Proof.
  cbn zeta.
  assert (H1 : (1 < max_iterations (scenario_A_agent false))%Z) by (cbn; lia).
  assert (H2 : (2 <= 2)%nat) by lia.
  assert (H3 : first_mlflow_failure
                 (history_items scenario_A_process (scenario_A_agent false))
               = None) by reflexivity.
  assert (H4 : [call_add_2_3] <> []) by discriminate.
  assert (H5 : carries_escape (ToolMessage MODEL [call_add_2_3] []) = false)
    by reflexivity.
  split; [exact H1|]. split; [exact H2|]. split; [exact H3|].
  split; [exact H4|]. split; [exact H5|].
  split; [intros; reflexivity|]. split; [intros; reflexivity|].
  apply (chat_one_tool_round loop_agents python_type_error 2
           (scenario_A_agent false) "sum" None scenario_A_process MODEL MODEL
           [call_add_2_3] [] "5" [inl (TextMessage MODEL "5")] [] H1 H2 H3 H4
           H5); intros; reflexivity.
Defined.

